(** * Vocal separator front-ends (web [app.py], desktop [gui_vocal_separator.py])

    A shallow embedding of the adapter logic of both front-ends: building the
    command line of the external tool, running it, locating the directory it
    wrote, classifying the files found there and (web only) publishing them.

    The file system is a tree of named entries; every library call of the
    source that touches the outside world (mkdir, subprocess, isdir, walk,
    listdir, copy2, print, the GUI calls) is an operation of a small
    state-and-exception monad that also records the call in a trace. *)

From Stdlib Require Import String Ascii List ZArith Bool Lia DecimalString.
Import ListNotations.
Local Open Scope string_scope.
Local Open Scope list_scope.

(* ------------------------------------------------------------------ *)
(** ** Python string operations used by the source *)
(* ------------------------------------------------------------------ *)

Module Str.

(** [str.lower()] on the ASCII letters (other characters are kept). *)
Definition lower_ascii (c : ascii) : ascii :=
  let n := nat_of_ascii c in
  if (65 <=? n)%nat && (n <=? 90)%nat then ascii_of_nat (n + 32) else c.

Fixpoint lower (s : string) : string :=
  match s with
  | EmptyString => EmptyString
  | String c s' => String (lower_ascii c) (lower s')
  end.

(** [s.startswith(p)]. *)
Definition startswith (p s : string) : bool := String.prefix p s.

(** [sub in s]. *)
Fixpoint contains (sub s : string) : bool :=
  startswith sub s ||
  match s with
  | EmptyString => false
  | String _ s' => contains sub s'
  end.

(** [sep.join(l)]. *)
Definition join (sep : string) (l : list string) : string := String.concat sep l.

(** [s.rfind('.')], as the offset of the last dot when there is one. *)
Fixpoint rfind_dot (s : string) : option nat :=
  match s with
  | EmptyString => None
  | String c s' =>
      match rfind_dot s' with
      | Some i => Some (S i)
      | None => if Ascii.eqb c "."%char then Some 0%nat else None
      end
  end.

(** [s[:i]] and [s[i:]]. *)
Definition take (i : nat) (s : string) : string := String.substring 0 i s.
Definition drop (i : nat) (s : string) : string :=
  String.substring i (String.length s - i) s.

(** [f"{n}"] for an integer. *)
Definition of_Z (z : Z) : string := NilZero.string_of_int (Z.to_int z).

Definition nl : string := String (ascii_of_nat 10) EmptyString.

End Str.

(* ------------------------------------------------------------------ *)
(** ** Paths ([pathlib.Path], [os.path]) *)
(* ------------------------------------------------------------------ *)

(** A path is the list of its components below the file-system root. *)
Definition path := list string.

Module Path.

(** [Path.name], [os.path.basename]: the final component. *)
Definition name (p : path) : string := last p "".

(** [a / b], [os.path.join(a, b)] for a plain component [b]. *)
Definition child (p : path) (c : string) : path := p ++ [c].

(** [str(p)]. *)
Definition str (p : path) : string := "/" ++ Str.join "/" p.

(** [PurePath.suffix] of a file name: from the last dot, when that dot is
    neither the first nor the last character. *)
Definition suffix_of (n : string) : string :=
  match Str.rfind_dot n with
  | Some i =>
      if (0 <? i)%nat && (i <? String.length n - 1)%nat then Str.drop i n else ""
  | None => ""
  end.

(** [PurePath.stem] of a file name. *)
Definition stem_of (n : string) : string :=
  match Str.rfind_dot n with
  | Some i =>
      if (0 <? i)%nat && (i <? String.length n - 1)%nat then Str.take i n else n
  | None => n
  end.

Definition suffix (p : path) : string := suffix_of (name p).
Definition stem (p : path) : string := stem_of (name p).

Definition eqb (p q : path) : bool :=
  if list_eq_dec String.string_dec p q then true else false.

End Path.

(* ------------------------------------------------------------------ *)
(** ** The file system *)
(* ------------------------------------------------------------------ *)

(** A directory keeps its entries in the order in which [os.listdir] and
    [os.walk] enumerate them. *)
#[warnings="-register-all"]
Inductive node : Type :=
| File (data : string)
| Dir (entries : list (string * node)).

(** The exceptions the modelled calls can raise. *)
Inductive exn : Type :=
| RuntimeError (msg : string)
| FileNotFoundError
| FileExistsError
| NotADirectoryError
| IsADirectoryError
| SameFileError.

Module FS.

Definition is_dir_node (n : node) : bool :=
  match n with Dir _ => true | File _ => false end.

Fixpoint assoc (k : string) (es : list (string * node)) : option node :=
  match es with
  | [] => None
  | (k', v) :: es' => if String.eqb k k' then Some v else assoc k es'
  end.

(** Replace the entry called [k], or add it at the end. *)
Fixpoint set_entry (k : string) (v : node) (es : list (string * node))
  : list (string * node) :=
  match es with
  | [] => [(k, v)]
  | (k', v') :: es' =>
      if String.eqb k k' then (k, v) :: es' else (k', v') :: set_entry k v es'
  end.

Fixpoint lookup (p : path) (n : node) : option node :=
  match p with
  | [] => Some n
  | k :: p' =>
      match n with
      | File _ => None
      | Dir es =>
          match assoc k es with
          | Some c => lookup p' c
          | None => None
          end
      end
  end.

(** Bind the entry at [p] to [new]; the parent of [p] has to be a directory. *)
Fixpoint put (p : path) (new : node) (n : node) : option node :=
  match p with
  | [] => None
  | k :: p' =>
      match n with
      | File _ => None
      | Dir es =>
          match p' with
          | [] => Some (Dir (set_entry k new es))
          | _ :: _ =>
              match assoc k es with
              | Some c =>
                  match put p' new c with
                  | Some c' => Some (Dir (set_entry k c' es))
                  | None => None
                  end
              | None => None
              end
          end
      end
  end.

(** [Path.is_dir()], [os.path.isdir]. *)
Definition isdir (p : path) (fs : node) : bool :=
  match lookup p fs with
  | Some (Dir _) => true
  | _ => false
  end.

(** The error of a path that does not resolve: [NotADirectoryError] when
    a component is to be found in a regular file, [FileNotFoundError] when
    a component is missing. *)
Fixpoint unresolved (p : path) (n : node) : exn :=
  match p with
  | [] => FileNotFoundError
  | k :: p' =>
      match n with
      | File _ => NotADirectoryError
      | Dir es =>
          match assoc k es with
          | Some c => unresolved p' c
          | None => FileNotFoundError
          end
      end
  end.

(** [Path.mkdir(exist_ok=True)]; the parents are not made. *)
Definition mkdir (p : path) (fs : node) : exn + node :=
  match lookup p fs with
  | Some (Dir _) => inr fs
  | Some (File _) => inl FileExistsError
  | None =>
      match put p (Dir []) fs with
      | Some fs' => inr fs'
      | None => inl (unresolved p fs)
      end
  end.

(** [os.listdir]. *)
Definition listdir (p : path) (fs : node) : exn + list string :=
  match lookup p fs with
  | Some (Dir es) => inr (map fst es)
  | Some (File _) => inl NotADirectoryError
  | None => inl (unresolved p fs)
  end.

Definition dirs_of (es : list (string * node)) : list string :=
  map fst (filter (fun e => is_dir_node (snd e)) es).

Definition files_of (es : list (string * node)) : list string :=
  map fst (filter (fun e => negb (is_dir_node (snd e))) es).

(** One item of [os.walk]: (root, dirs, files). *)
Definition walk_item : Type := path * list string * list string.

(** [os.walk(top)], top-down: the directory itself, then each of its
    sub-directories in turn. *)
Fixpoint walk_tree (top : path) (n : node) {struct n} : list walk_item :=
  match n with
  | File _ => []
  | Dir es =>
      (top, dirs_of es, files_of es) ::
      (fix go (l : list (string * node)) : list walk_item :=
         match l with
         | [] => []
         | (k, c) :: l' => walk_tree (Path.child top k) c ++ go l'
         end) es
  end.

(** The part of the walk below the entries [es] of the directory [top]. *)
Definition walk_children (top : path) (es : list (string * node)) : list walk_item :=
  flat_map (fun e => walk_tree (Path.child top (fst e)) (snd e)) es.

Definition walk (top : path) (fs : node) : list walk_item :=
  match lookup top fs with
  | Some n => walk_tree top n
  | None => []
  end.

(** [shutil.copy2(src, dst)]: into [dst] when it is a directory, else onto
    [dst], replacing what is there. The source is compared with the target
    ([SameFileError] when both exist and are the same), then opened for
    reading, then the target is opened for writing. *)
Definition copy2 (src dst : path) (fs : node) : exn + node :=
  let dst' := if isdir dst fs then Path.child dst (Path.name src) else dst in
  match lookup src fs with
  | None => inl (unresolved src fs)
  | Some n =>
      if Path.eqb src dst' then inl SameFileError
      else
        match n with
        | Dir _ => inl IsADirectoryError
        | File data =>
            if isdir dst' fs then inl IsADirectoryError
            else
              match put dst' (File data) fs with
              | Some fs' => inr fs'
              | None => inl (unresolved dst' fs)
              end
        end
  end.

(** Some directory called [b] lies below [n] (at any depth). *)
Fixpoint has_subdir (b : string) (n : node) {struct n} : bool :=
  match n with
  | File _ => false
  | Dir es =>
      (fix go (l : list (string * node)) : bool :=
         match l with
         | [] => false
         | (k, c) :: l' =>
             (is_dir_node c && String.eqb k b) || has_subdir b c || go l'
         end) es
  end.

(** The entry [e] is a directory called [b], or has one below it. *)
Definition child_has (b : string) (e : string * node) : bool :=
  (is_dir_node (snd e) && String.eqb (fst e) b) || has_subdir b (snd e).

Definition dir_named_under (b : string) (root : path) (fs : node) : bool :=
  match lookup root fs with
  | Some n => has_subdir b n
  | None => false
  end.

(** [at_path p n m]: following the components of [p] from [n] through
    entries of those names leads to [m]. *)
Inductive at_path : path -> node -> node -> Prop :=
| at_here : forall n, at_path [] n n
| at_step : forall k p es c m,
    In (k, c) es -> at_path p c m -> at_path (k :: p) (Dir es) m.

End FS.

(* ------------------------------------------------------------------ *)
(** ** Effects: state, exceptions and the trace of outside calls *)
(* ------------------------------------------------------------------ *)

(** One constructor per library call of the two programs. *)
Inductive event : Type :=
| EMkdir (p : path)
| ERun (cmd : list string)
| EIsDir (p : path)
| EWalk (top : path)
| EListDir (p : path)
| ECopy (src dst : path)
| EPrint (text : string)
| ELog (text : string)
| EShowError (title msg : string)
| EButton (enabled : bool).

(** [ProcessResult] of the data model; the output is kept line by line. *)
Record ProcessResult : Type := {
  returncode : Z;
  stdout : list string
}.

(** The external tool: given its argument vector and the file system, it
    either cannot be launched or exits with a code and some output, and in
    both cases leaves a file system behind. *)
Definition tool : Type := list string -> node -> (exn + ProcessResult) * node.

Module Monad.

Definition M (S A : Type) : Type := S -> (exn + A) * S.

Definition ret {S A} (a : A) : M S A := fun s => (inr a, s).

Definition raise {S A} (e : exn) : M S A := fun s => (inl e, s).

Definition bind {S A B} (m : M S A) (k : A -> M S B) : M S B :=
  fun s =>
    match m s with
    | (inr a, s') => k a s'
    | (inl e, s') => (inl e, s')
    end.

(** [try: body except Exception as e: handler(e)]. *)
Definition try_except {S A} (body : M S A) (handler : exn -> M S A) : M S A :=
  fun s =>
    match body s with
    | (inr a, s') => (inr a, s')
    | (inl e, s') => handler e s'
    end.

(** [try: body finally: cleanup]. *)
Definition finally {S A} (body : M S A) (cleanup : M S unit) : M S A :=
  fun s =>
    match body s with
    | (r, s') =>
        match cleanup s' with
        | (inr _, s'') => (r, s'')
        | (inl e, s'') => (inl e, s'')
        end
    end.

(** [for x in l: f(x)]. *)
Fixpoint for_each {S A} (l : list A) (f : A -> M S unit) : M S unit :=
  match l with
  | [] => ret tt
  | x :: l' => bind (f x) (fun _ => for_each l' f)
  end.

(** Every run of [m] takes a state to one related to it by [R]. *)
Definition steps {S A} (R : S -> S -> Prop) (m : M S A) : Prop :=
  forall s r s', m s = (r, s') -> R s s'.

End Monad.
Import Monad.

Notation "x <- m ;; k" := (bind m (fun x => k))
  (at level 61, m at next level, right associativity).
Notation "m ;; k" := (bind m (fun _ => k))
  (at level 61, right associativity).
Notation "' pat <- m ;; k" := (bind m (fun x => match x with pat => k end))
  (at level 61, pat pattern, m at next level, right associativity).

(** [str(e)]: the message of a [RuntimeError]. For the operating-system
    errors the model keeps the message of the error class only: the text
    the interpreter gives also carries the error number and the file
    name, in a form that depends on the platform. The theorems below give
    the text of an exception for [RuntimeError] only. *)
Definition exn_str (e : exn) : string :=
  match e with
  | RuntimeError msg => msg
  | FileNotFoundError => "No such file or directory"
  | FileExistsError => "File exists"
  | NotADirectoryError => "Not a directory"
  | IsADirectoryError => "Is a directory"
  | SameFileError => "are the same file"
  end.

(* ------------------------------------------------------------------ *)
(** ** The stem heuristics (the same two tests in both programs) *)
(* ------------------------------------------------------------------ *)

(** ["vocals" in low and not low.startswith("no_")] *)
Definition is_vocals (low : string) : bool :=
  Str.contains "vocals" low && negb (Str.startswith "no_" low).

(** ["no_vocals" in low or "accompaniment" in low or "other" in low] *)
Definition is_instrumental (low : string) : bool :=
  Str.contains "no_vocals" low || Str.contains "accompaniment" low
  || Str.contains "other" low.

(* ------------------------------------------------------------------ *)
(** ** Web front-end: [app.py] *)
(* ------------------------------------------------------------------ *)

Module Web.

(** What a request works on: the file system and the calls made so far. *)
Record world : Type := { fs : node; trace : list event }.

Definition start (f : node) : world := {| fs := f; trace := [] |}.

Definition emit (e : event) : M world unit :=
  fun w => (inr tt, {| fs := fs w; trace := trace w ++ [e] |}).

(** A call that may change the file system or raise. *)
Definition update (f : node -> exn + node) : M world unit :=
  fun w =>
    match f (fs w) with
    | inr fs' => (inr tt, {| fs := fs'; trace := trace w |})
    | inl e => (inl e, w)
    end.

(** A call that only reads the file system. *)
Definition read {A} (f : node -> A) : M world A := fun w => (inr (f (fs w)), w).

Definition mkdir (p : path) : M world unit := emit (EMkdir p) ;; update (FS.mkdir p).

Definition is_dir (p : path) : M world bool := emit (EIsDir p) ;; read (FS.isdir p).

Definition walk (top : path) : M world (list FS.walk_item) :=
  emit (EWalk top) ;; read (FS.walk top).

Definition listdir (p : path) : M world (list string) :=
  emit (EListDir p) ;;
  r <- read (FS.listdir p) ;;
  match r with
  | inr names => ret names
  | inl e => raise e
  end.

Definition copy2 (src dst : path) : M world unit :=
  emit (ECopy src dst) ;; update (FS.copy2 src dst).

Definition print (text : string) : M world unit := emit (EPrint text).

(** [subprocess.run(cmd, stdout=PIPE, stderr=STDOUT, text=True)] *)
Definition subprocess_run (demucs : tool) (cmd : list string) : M world ProcessResult :=
  emit (ERun cmd) ;;
  fun w =>
    match demucs cmd (fs w) with
    | (inr process, fs') => (inr process, {| fs := fs'; trace := trace w |})
    | (inl e, fs') => (inl e, {| fs := fs'; trace := trace w |})
    end.

(** From [w] to [w'] calls were added to the trace, none of kind [Q]. *)
Definition adds_no (Q : event -> bool) (w w' : world) : Prop :=
  exists new, trace w' = trace w ++ new /\ existsb Q new = false.

Definition MODEL_NAME : string := "htdemucs_ft".

Definition locate_error : exn := RuntimeError "Could not locate Demucs output folder.".

Definition classify_error : exn := RuntimeError "Could not find vocals/instrumental files.".

Definition exit_error (code : Z) : exn :=
  RuntimeError ("Demucs error (exit code " ++ Str.of_Z code ++ "). " ++ "See above output.").

(** Lines 98-108: the argument vector. *)
Definition command (out_root input_path : path) : list string :=
  [ "demucs";
    "--two-stems"; "vocals";
    "-n"; MODEL_NAME;
    "--shifts"; "0";
    "--overlap"; "0.05";
    "--jobs"; "1";
    "--mp3";
    "--out"; Path.str out_root;
    Path.str input_path ].

(** Lines 140-143: the inner loop over [dirs]; its [break] leaves this
    loop only. *)
Fixpoint scan_dirs (base : string) (root : path) (dirs : list string)
         (found : option path) : option path :=
  match dirs with
  | [] => found
  | d :: dirs' =>
      if String.eqb d base then Some (Path.child root d)
      else scan_dirs base root dirs' found
  end.

(** Lines 138-143: the outer loop over the items of the walk. *)
Definition search (base : string) (items : list FS.walk_item) : option path :=
  fold_left
    (fun found item => scan_dirs base (fst (fst item)) (snd (fst item)) found)
    items None.

(** Lines 133-146: the output locator. *)
Definition locate (out_root : path) (base : string) : M world path :=
  let model_dir := Path.child (Path.child out_root MODEL_NAME) base in
  d <- is_dir model_dir ;;
  if negb d then
    items <- walk out_root ;;
    match search base items with
    | None => raise locate_error
    | Some found => ret found
    end
  else ret model_dir.

(** Lines 155-160: the body of the loop over the listing. *)
Definition pick_step (model_dir : path) (acc : option path * option path)
           (fn : string) : option path * option path :=
  let low := Str.lower fn in
  let full := Path.child model_dir fn in
  let vocals := if is_vocals low then Some full else fst acc in
  let inst := if is_instrumental low then Some full else snd acc in
  (vocals, inst).

(** Lines 151-160, on a given listing. *)
Definition pick (model_dir : path) (names : list string) : option path * option path :=
  fold_left (pick_step model_dir) names (None, None).

(** Lines 151-163: the stem classifier. *)
Definition classify (model_dir : path) : M world (path * path) :=
  names <- listdir model_dir ;;
  match pick model_dir names with
  | (Some vocals, Some inst) => ret (vocals, inst)
  | _ => raise classify_error
  end.

(** Lines 166-176: the result publisher. *)
Definition publish (job_dir : path) (base : string) (vocals inst : path)
  : M world (path * path) :=
  let vocals_out := Path.child job_dir (base ++ "_vocals" ++ Path.suffix vocals) in
  let inst_out := Path.child job_dir (base ++ "_instrumental" ++ Path.suffix inst) in
  copy2 vocals vocals_out ;;
  copy2 inst inst_out ;;
  print ("Saved vocals to: " ++ Path.str vocals_out) ;;
  print ("Saved instrumental to: " ++ Path.str inst_out) ;;
  print ("------------------------------------------------------" ++ Str.nl) ;;
  ret (vocals_out, inst_out).

(** Lines 91-124: prepare the job folder and run the tool. *)
Definition launch (RESULTS_DIR : path) (demucs : tool) (job_id : string)
           (input_path : path) : M world ProcessResult :=
  let job_dir := Path.child RESULTS_DIR job_id in
  mkdir job_dir ;;
  let out_root := Path.child job_dir "raw" in
  mkdir out_root ;;
  let cmd := command out_root input_path in
  print (Str.nl ++ "=================== DEMUCS COMMAND ===================") ;;
  print (Str.join " " cmd) ;;
  print ("=======================================================" ++ Str.nl) ;;
  process <- subprocess_run demucs cmd ;;
  print "===== DEMUCS OUTPUT START =====" ;;
  print (Str.join "" (stdout process)) ;;
  print ("===== DEMUCS OUTPUT END =====" ++ Str.nl) ;;
  ret process.

(** Lines 126-176: what follows the run. *)
Definition finish (RESULTS_DIR : path) (job_id : string) (input_path : path)
           (process : ProcessResult) : M world (path * path) :=
  let job_dir := Path.child RESULTS_DIR job_id in
  let out_root := Path.child job_dir "raw" in
  if negb (returncode process =? 0)%Z then raise (exit_error (returncode process))
  else
    let base := Path.stem input_path in
    model_dir <- locate out_root base ;;
    print ("Located Demucs output folder: " ++ Path.str model_dir) ;;
    '(vocals, inst) <- classify model_dir ;;
    publish job_dir base vocals inst.

(** [run_demucs_debug(input_path)], with the fresh identifier as an input. *)
Definition run_demucs_debug (RESULTS_DIR : path) (demucs : tool) (job_id : string)
           (input_path : path) : M world (path * path) :=
  process <- launch RESULTS_DIR demucs job_id input_path ;;
  finish RESULTS_DIR job_id input_path process.

End Web.

(* ------------------------------------------------------------------ *)
(** ** Desktop front-end: [gui_vocal_separator.py] *)
(* ------------------------------------------------------------------ *)

Module Desktop.

(** The application: the file system, the calls made so far and the
    [result_dir] attribute of [App]. *)
Record app : Type := {
  fs : node;
  trace : list event;
  result_dir : option path
}.

Definition start (f : node) : app := {| fs := f; trace := []; result_dir := None |}.

Definition emit (e : event) : M app unit :=
  fun a =>
    (inr tt, {| fs := fs a; trace := trace a ++ [e]; result_dir := result_dir a |}).

Definition read {A} (f : node -> A) : M app A := fun a => (inr (f (fs a)), a).

Definition isdir (p : path) : M app bool := emit (EIsDir p) ;; read (FS.isdir p).

Definition walk (top : path) : M app (list FS.walk_item) :=
  emit (EWalk top) ;; read (FS.walk top).

Definition listdir (p : path) : M app (list string) :=
  emit (EListDir p) ;;
  r <- read (FS.listdir p) ;;
  match r with
  | inr names => ret names
  | inl e => raise e
  end.

(** [self.append_log(text)] *)
Definition append_log (text : string) : M app unit := emit (ELog text).

(** [messagebox.showerror(title, msg)] *)
Definition showerror (title msg : string) : M app unit := emit (EShowError title msg).

(** [self.run_btn.configure(state=...)] *)
Definition run_btn (enabled : bool) : M app unit := emit (EButton enabled).

(** [self.result_dir = d] *)
Definition set_result_dir (d : option path) : M app unit :=
  fun a => (inr tt, {| fs := fs a; trace := trace a; result_dir := d |}).

(** [subprocess.Popen(cmd, ...)] followed to the end of the process. *)
Definition popen (demucs : tool) (cmd : list string) : M app ProcessResult :=
  emit (ERun cmd) ;;
  fun a =>
    match demucs cmd (fs a) with
    | (inr proc, fs') =>
        (inr proc, {| fs := fs'; trace := trace a; result_dir := result_dir a |})
    | (inl e, fs') =>
        (inl e, {| fs := fs'; trace := trace a; result_dir := result_dir a |})
    end.

Definition MODEL : string := "htdemucs_ft".

Definition FLAGS : list string :=
  ["--two-stems=vocals"; "-n"; MODEL; "--shifts"; "0"; "--overlap"; "0.05";
   "--jobs"; "1"; "--mp3"].

(** Line 107: [cmd = ["demucs", *FLAGS, "--out", out_root, audio]] *)
Definition command (out_root audio : path) : list string :=
  ["demucs"] ++ FLAGS ++ ["--out"; Path.str out_root; Path.str audio].

Definition exit_error (code : Z) : exn :=
  RuntimeError ("Demucs exited with code " ++ Str.of_Z code).

(** Lines 27-30: the loop over the walk, leaving at the first directory
    whose own name is [base]. *)
Fixpoint first_named (base : string) (items : list FS.walk_item) : option path :=
  match items with
  | [] => None
  | (r, _, _) :: items' =>
      if String.eqb (Path.name r) base then Some r else first_named base items'
  end.

(** Lines 21-30. *)
Definition locate_output_dir (out_root : path) (model_name : string)
           (audio_path : path) : M app (option path) :=
  let base := Path.stem audio_path in
  let expected := Path.child (Path.child out_root model_name) base in
  d <- isdir expected ;;
  if d then ret (Some expected)
  else
    items <- walk out_root ;;
    ret (first_named base items).

(** Lines 129-133: the body of the loop over the listing. *)
Definition pick_step (out_dir : path) (acc : option path * option path)
           (fn : string) : option path * option path :=
  let low := Str.lower fn in
  let vocals := if is_vocals low then Some (Path.child out_dir fn) else fst acc in
  let instrumental :=
    if is_instrumental low then Some (Path.child out_dir fn) else snd acc in
  (vocals, instrumental).

(** Lines 126-133, on a given listing. *)
Definition pick (out_dir : path) (names : list string) : option path * option path :=
  fold_left (pick_step out_dir) names (None, None).

(** [if x: self.append_log(...)] *)
Definition log_if (x : option path) (label : string) : M app unit :=
  match x with
  | Some p => append_log (label ++ Path.str p ++ Str.nl)
  | None => ret tt
  end.

(** Lines 122-143: locate the output directory and show the result. *)
Definition show_result (out_root audio : path) : M app unit :=
  out_dir <- locate_output_dir out_root MODEL audio ;;
  set_result_dir out_dir ;;
  match out_dir with
  | Some d =>
      is_d <- isdir d ;;
      if is_d then
        names <- listdir d ;;
        let '(vocals, instrumental) := pick d names in
        append_log (Str.nl ++ "=== Done ===" ++ Str.nl) ;;
        log_if vocals "Vocals:       " ;;
        log_if instrumental "Instrumental: " ;;
        log_if out_dir "Folder:       "
      else append_log (Str.nl ++ "Could not find output folder." ++ Str.nl)
  | None => append_log (Str.nl ++ "Could not find output folder." ++ Str.nl)
  end ;;
  append_log
    (Str.nl ++ "Tip: Click 'Open Output Folder' to view your files." ++ Str.nl).

(** Lines 114-143: the body of the [try]. *)
Definition attempt (demucs : tool) (cmd : list string) (out_root audio : path)
  : M app unit :=
  proc <- popen demucs cmd ;;
  for_each (stdout proc) append_log ;;
  let code := returncode proc in
  if negb (code =? 0)%Z then raise (exit_error code)
  else show_result out_root audio.

(** Lines 144-146: the [except] branch. *)
Definition report (e : exn) : M app unit :=
  append_log (Str.nl ++ "[ERROR] " ++ exn_str e ++ Str.nl) ;;
  showerror "Separation failed" (exn_str e).

(** Lines 112-148: [worker]. *)
Definition worker (demucs : tool) (cmd : list string) (out_root audio : path)
  : M app unit :=
  finally (try_except (attempt demucs cmd out_root audio) report) (run_btn true).

(** The job has failed when the error dialog was shown. *)
Definition is_failure (e : event) : bool :=
  match e with
  | EShowError _ _ => true
  | _ => false
  end.

Definition failed (a : app) : bool := existsb is_failure (trace a).

(** From [a] to [a'] calls were added to the trace, none of kind [Q]. *)
Definition adds_no (Q : event -> bool) (a a' : app) : Prop :=
  exists new, trace a' = trace a ++ new /\ existsb Q new = false.

End Desktop.

(* ------------------------------------------------------------------ *)
(** ** Notions of the specification *)
(* ------------------------------------------------------------------ *)

Module Spec.

(** The calls of the output locator, the stem classifier and the result
    publisher. *)
Definition stage_event (e : event) : bool :=
  match e with
  | EIsDir _ | EWalk _ | EListDir _ | ECopy _ _ => true
  | _ => false
  end.

Definition copy_event (e : event) : bool :=
  match e with
  | ECopy _ _ => true
  | _ => false
  end.

(** The first directory, in walk order, whose own name is [base]: the
    first item of the walk that lists [base] among its directories. *)
Fixpoint first_dir_named (base : string) (items : list FS.walk_item) : option path :=
  match items with
  | [] => None
  | (root, dirs, _) :: items' =>
      if existsb (String.eqb base) dirs then Some (Path.child root base)
      else first_dir_named base items'
  end.

(** [p] lies strictly below [root]. *)
Definition below (root p : path) : Prop := exists c rest, p = root ++ c :: rest.

End Spec.

(* ------------------------------------------------------------------ *)
(** ** Sample file systems, tools and jobs *)
(* ------------------------------------------------------------------ *)

Module Examples.

Definition RESULTS_DIR : path := ["srv"; "results"].
Definition job_id : string := "5f0c".
Definition job_dir : path := ["srv"; "results"; "5f0c"].
Definition out_root : path := ["srv"; "results"; "5f0c"; "raw"].
Definition upload : path := ["srv"; "uploads"; "song.mp3"].

(** The server before a job: the upload is saved, no job folder yet. *)
Definition server : node :=
  Dir [("srv", Dir [("uploads", Dir [("song.mp3", File "audio")]);
                    ("results", Dir [])])].

(** The server with a job folder whose [raw] directory is [raw]. *)
Definition server_with (raw : node) : node :=
  Dir [("srv", Dir [("uploads", Dir [("song.mp3", File "audio")]);
                    ("results", Dir [("5f0c", Dir [("raw", raw)])])])].

(** A tool that writes [raw] as the directory named after [--out]
    (here the job's [raw] folder) and exits with [code]. *)
Definition tool_writing (raw : node) (code : Z) : tool :=
  fun _ f =>
    (inr {| returncode := code; stdout := [("Separating track" ++ Str.nl)%string] |},
     match FS.put out_root raw f with
     | Some f' => f'
     | None => f
     end).

Definition stems : node :=
  Dir [("vocals.mp3", File "V"); ("no_vocals.mp3", File "I")].

(** The layout the tool normally produces. *)
Definition usual : node := Dir [("htdemucs_ft", Dir [("song", stems)])].

(** Two directories called [song], neither at the expected place. *)
Definition two_songs : node :=
  Dir [("a", Dir [("song", stems)]); ("b", Dir [("song", stems)])].

(** A directory called [song] at another place. *)
Definition moved : node := Dir [("mdx", Dir [("song", stems)])].

(** No directory called [song] at all. *)
Definition no_song : node := Dir [("htdemucs_ft", Dir [("tune", stems)])].

(** The expected directory holds a single file, [x_other.mp3]. *)
Definition only_other : node :=
  Dir [("htdemucs_ft", Dir [("song", Dir [("x_other.mp3", File "I")])])].

Definition listing : list string := ["track_vocals.mp3"; "track_no_vocals.mp3"].

(** Desktop: the user's machine, output root [/home/separated]. *)
Definition home_root : path := ["home"; "separated"].
Definition audio : path := ["home"; "song.mp3"].
Definition home_with (raw : node) : node :=
  Dir [("home", Dir [("song.mp3", File "audio"); ("separated", raw)])].

(** Desktop: an output root that is itself called [song]. *)
Definition song_root : path := ["music"; "song"].
Definition music : node :=
  Dir [("music", Dir [("song", Dir [("notes.txt", File "")])])].

(** A tool that writes nothing and exits with [code]. *)
Definition tool_exit (code : Z) : tool :=
  fun _ f => (inr {| returncode := code; stdout := [("demucs: done" ++ Str.nl)%string] |}, f).

End Examples.

(* ------------------------------------------------------------------ *)
(** ** Web front-end: the route [/separate] of [app.py] *)
(* ------------------------------------------------------------------ *)

Module Route.

(** The parts of a path given as text: its components between slashes,
    without the empty ones and the single dots ([pathlib.Path(text)]). *)
Fixpoint split_slash (s : string) : list string :=
  match s with
  | EmptyString => [EmptyString]
  | String c s' =>
      if Ascii.eqb c "/"%char then EmptyString :: split_slash s'
      else
        match split_slash s' with
        | [] => [String c EmptyString]
        | h :: t => String c h :: t
        end
  end.

Definition parts (text : string) : path :=
  filter (fun c => negb (String.eqb c "" || String.eqb c ".")) (split_slash text).

(** [p.relative_to(base)], which fails when [base] does not lead to [p]. *)
Fixpoint relative_to (p base : path) : option path :=
  match base with
  | [] => Some p
  | b :: base' =>
      match p with
      | [] => None
      | c :: p' => if String.eqb c b then relative_to p' base' else None
      end
  end.

(** The uploaded file of the request: [werkzeug]'s [FileStorage]. *)
Record FileStorage : Type := {
  filename : string;
  content : string
}.

(** [file.save(dst)]: open [dst] for writing and store the content. *)
Definition save (dst : path) (data : string) (f : node) : exn + node :=
  if FS.isdir dst f then inl IsADirectoryError
  else
    match FS.put dst (File data) f with
    | Some f' => inr f'
    | None => inl (FS.unresolved dst f)
    end.

(** An exception that leaves the route. *)
Inductive uncaught : Type :=
| Raised (e : exn)
| ValueError.

(** What the route answers: a redirection to the form after [flash(msg)],
    the page with the two result links (the [path] arguments given to
    [url_for("serve_results", ...)]), or the server error that an
    uncaught exception becomes. *)
Inductive response : Type :=
| Redirect (flashed : string)
| Results (vocals_rel inst_rel : path)
| InternalError (u : uncaught).

(** Lines 194-201: name and save the upload. *)
Definition receive (UPLOAD_DIR : path) (upload_id : string) (file : FileStorage)
  : M Web.world path :=
  let ext := Path.suffix (parts (filename file)) in
  let upload_name := (upload_id ++ ext)%string in
  let upload_path := Path.child UPLOAD_DIR upload_name in
  Web.update (save upload_path (content file)) ;;
  Web.print (Str.nl ++ "========== NEW REQUEST ==========") ;;
  Web.print ("Uploaded file saved to: " ++ Path.str upload_path) ;;
  ret upload_path.

(** Lines 210-219: the page with the links. *)
Definition results_page (RESULTS_DIR : path) (vocals inst : path) : response :=
  match relative_to vocals RESULTS_DIR with
  | None => InternalError ValueError
  | Some vocals_rel =>
      match relative_to inst RESULTS_DIR with
      | None => InternalError ValueError
      | Some inst_rel => Results vocals_rel inst_rel
      end
  end.

(** Lines 187-219: [separate], with the two fresh identifiers as inputs.
    [not file] holds when the field is absent or its file name is empty. *)
Definition separate (UPLOAD_DIR RESULTS_DIR : path) (demucs : tool)
           (upload_id job_id : string) (file : option FileStorage)
  : Web.world -> response * Web.world :=
  fun w =>
    match file with
    | None => (Redirect "No file uploaded.", w)
    | Some f =>
        if String.eqb (filename f) "" then (Redirect "No file uploaded.", w)
        else
          match receive UPLOAD_DIR upload_id f w with
          | (inl e, w1) => (InternalError (Raised e), w1)
          | (inr upload_path, w1) =>
              match Web.run_demucs_debug RESULTS_DIR demucs job_id upload_path w1 with
              | (inl e, w2) =>
                  (Redirect (exn_str e),
                   snd (Web.print ("ERROR: " ++ exn_str e) w2))
              | (inr (vocals, inst), w2) =>
                  (results_page RESULTS_DIR vocals inst, w2)
              end
          end
    end.

End Route.

(* ------------------------------------------------------------------ *)
(** ** Desktop front-end: the window of [gui_vocal_separator.py] *)
(* ------------------------------------------------------------------ *)

Module Gui.

(** [platform.system()] *)
Inductive system : Type := Windows | Darwin | Other.

(** What the window asks of the host besides the calls of the worker. *)
Inductive action : Type :=
| Startfile (p : path)
| Spawn (argv : list string)
| ShowInfo (title msg : string).

(** The window: the application state of the worker, the two entries (an
    entry holds nothing when its stripped text is empty, else a path) and
    the actions asked so far. *)
Record gui : Type := {
  app : Desktop.app;
  inp_var : option path;
  out_var : option path;
  actions : list action
}.

Definition lift {A} (m : M Desktop.app A) : M gui A :=
  fun g =>
    match m (app g) with
    | (r, a') =>
        (r, {| app := a'; inp_var := inp_var g; out_var := out_var g;
               actions := actions g |})
    end.

Definition act (x : action) : M gui unit :=
  fun g =>
    (inr tt, {| app := app g; inp_var := inp_var g; out_var := out_var g;
                actions := actions g ++ [x] |}).

(** The host may refuse to start a program or to open a file. *)
Definition host : Type := action -> option exn.

(** [os.startfile(path)], [subprocess.Popen(argv)] *)
Definition ask (h : host) (x : action) : M gui unit :=
  act x ;;
  match h x with
  | Some e => raise e
  | None => ret tt
  end.

(** Lines 10-19. *)
Definition open_in_file_manager (sys : system) (h : host) (p : path) : M gui unit :=
  try_except
    (match sys with
     | Windows => ask h (Startfile p)
     | Darwin => ask h (Spawn ["open"; Path.str p])
     | Other => ask h (Spawn ["xdg-open"; Path.str p])
     end)
    (fun e =>
       lift (Desktop.showerror "Open Folder"
               ("Could not open folder:" ++ Str.nl ++ exn_str e))).

(** Lines 91-95. *)
Definition open_output (sys : system) (h : host) : M gui unit :=
  fun g =>
    match Desktop.result_dir (app g) with
    | Some d =>
        (is_d <- lift (Desktop.isdir d) ;;
         if is_d then open_in_file_manager sys h d
         else act (ShowInfo "Output" "No output yet. Run a separation first.")) g
    | None => act (ShowInfo "Output" "No output yet. Run a separation first.") g
    end.

(** Lines 78-89: the two pickers; the dialog gives a path or nothing. *)
Definition pick_file (chosen : option path) : M gui unit :=
  fun g =>
    match chosen with
    | Some p =>
        (inr tt, {| app := app g; inp_var := Some p; out_var := out_var g;
                    actions := actions g |})
    | None => (inr tt, g)
    end.

Definition pick_out (chosen : option path) : M gui unit :=
  fun g =>
    match chosen with
    | Some p =>
        (inr tt, {| app := app g; inp_var := inp_var g; out_var := Some p;
                    actions := actions g |})
    | None => (inr tt, g)
    end.

(** [os.path.exists] *)
Definition exists_ (p : path) (f : node) : bool :=
  match FS.lookup p f with
  | Some _ => true
  | None => false
  end.

(** [os.makedirs(p, exist_ok=True)]: the components of [p] are made one
    after the other below [done]. *)
Fixpoint makedirs_from (done rest : path) (f : node) : exn + node :=
  match rest with
  | [] => inr f
  | c :: rest' =>
      match FS.lookup (Path.child done c) f with
      | Some (Dir _) => makedirs_from (Path.child done c) rest' f
      | Some (File _) =>
          match rest' with
          | [] => inl FileExistsError
          | _ :: _ => inl NotADirectoryError
          end
      | None =>
          match FS.put (Path.child done c) (Dir []) f with
          | Some f' => makedirs_from (Path.child done c) rest' f'
          | None => inl FileNotFoundError
          end
      end
  end.

Definition makedirs (p : path) (f : node) : exn + node := makedirs_from [] p f.

(** A call that may change the file system or raise. *)
Definition update (u : node -> exn + node) : M gui unit :=
  fun g =>
    match u (Desktop.fs (app g)) with
    | inr f' =>
        (inr tt,
         {| app := {| Desktop.fs := f'; Desktop.trace := Desktop.trace (app g);
                      Desktop.result_dir := Desktop.result_dir (app g) |};
            inp_var := inp_var g; out_var := out_var g; actions := actions g |})
    | inl e => (inl e, g)
    end.

(** [shlex.quote]: the characters that need no quoting. *)
Definition safe_char (c : ascii) : bool :=
  let n := nat_of_ascii c in
  ((97 <=? n) && (n <=? 122) || (65 <=? n) && (n <=? 90)
   || (48 <=? n) && (n <=? 57))%nat
  || existsb (Nat.eqb n) [95; 64; 37; 43; 61; 58; 44; 46; 47; 45].

Fixpoint all_safe (s : string) : bool :=
  match s with
  | EmptyString => true
  | String c s' => safe_char c && all_safe s'
  end.

Definition squote : string := String (ascii_of_nat 39) EmptyString.
Definition dquote : string := String (ascii_of_nat 34) EmptyString.

(** [s.replace("'", "'\"'\"'")] with the quotes written as [squote] and
    [dquote]. *)
Fixpoint escape_squotes (s : string) : string :=
  match s with
  | EmptyString => EmptyString
  | String c s' =>
      if Nat.eqb (nat_of_ascii c) 39
      then (squote ++ dquote ++ squote ++ dquote ++ squote ++ escape_squotes s')%string
      else String c (escape_squotes s')
  end.

Definition shlex_quote (s : string) : string :=
  match s with
  | EmptyString => (squote ++ squote)%string
  | _ => if all_safe s then s else (squote ++ escape_squotes s ++ squote)%string
  end.

(** What the thread started by [start_separation] runs: [worker] with the
    values it closes over. *)
Record thread : Type := {
  cmd : list string;
  out_root : path;
  audio : path
}.

Definition run (demucs : tool) (t : thread) : M gui unit :=
  lift (Desktop.worker demucs (cmd t) (out_root t) (audio t)).

(** Lines 97-110 and 150: [start_separation], up to the start of the
    thread; [home] is the home directory of the user. *)
Definition start_separation (home : path) : M gui (option thread) :=
  fun g =>
    match inp_var g with
    | Some audio_path =>
        if exists_ audio_path (Desktop.fs (app g)) then
          (let out := match out_var g with
                      | Some o => o
                      | None => Path.child home "separated"
                      end in
           update (makedirs out) ;;
           let command := Desktop.command out audio_path in
           lift (Desktop.append_log
                   ("$ " ++ Str.join " " (map shlex_quote command) ++ Str.nl)) ;;
           lift (Desktop.run_btn false) ;;
           ret (Some {| cmd := command; out_root := out; audio := audio_path |})) g
        else
          (lift (Desktop.showerror "Input" "Please choose an existing audio file.") ;;
           ret None) g
    | None =>
        (lift (Desktop.showerror "Input" "Please choose an existing audio file.") ;;
         ret None) g
    end.

Definition start (f : node) : gui :=
  {| app := Desktop.start f; inp_var := None; out_var := None; actions := [] |}.

End Gui.

(* ------------------------------------------------------------------ *)
(** ** What a computation leaves alone *)
(* ------------------------------------------------------------------ *)

Module Frame.

(** From [w] to [w'] nothing has changed at the path [x]. *)
Definition keeps (x : path) (w w' : Web.world) : Prop :=
  FS.lookup x (Web.fs w') = FS.lookup x (Web.fs w).

End Frame.

(* ------------------------------------------------------------------ *)
(** ** More sample requests, windows and hosts *)
(* ------------------------------------------------------------------ *)

Module Samples.

Definition UPLOAD_DIR : path := ["srv"; "uploads"].

(** A server whose results directory has been removed. *)
Definition no_results : node :=
  Dir [("srv", Dir [("uploads", Dir [("song.mp3", File "audio")])])].

(** A client file and the identifier drawn for it. *)
Definition client_file : Route.FileStorage :=
  {| Route.filename := "My Song.final.mp3"; Route.content := "audio" |}.
Definition upload_id : string := "ab12".
Definition upload_path : path := ["srv"; "uploads"; "ab12.mp3"].

(** What the tool writes for that upload. *)
Definition usual_for_upload : node :=
  Dir [("htdemucs_ft", Dir [("ab12", Examples.stems)])].

(** A job folder that holds the raw output and nothing else. *)
Definition classified : Web.world :=
  Web.start (Examples.server_with Examples.usual).
Definition vocals : path := Examples.out_root ++ ["htdemucs_ft"; "song"; "vocals.mp3"].
Definition inst : path := Examples.out_root ++ ["htdemucs_ft"; "song"; "no_vocals.mp3"].

(** A host that opens everything, and one whose opener is missing. *)
Definition willing : Gui.host := fun _ => None.
Definition unwilling : Gui.host := fun _ => Some FileNotFoundError.

(** A window with an input chosen and no output root. *)
Definition window (f : node) : Gui.gui :=
  {| Gui.app := Desktop.start f; Gui.inp_var := Some Examples.audio;
     Gui.out_var := None; Gui.actions := [] |}.

(** The thread of a run on [/home/separated]. *)
Definition job : Gui.thread :=
  {| Gui.cmd := Desktop.command Examples.home_root Examples.audio;
     Gui.out_root := Examples.home_root; Gui.audio := Examples.audio |}.

(** A window that remembers the directory of an earlier run. *)
Definition window_after (f : node) (d : path) : Gui.gui :=
  {| Gui.app := {| Desktop.fs := f; Desktop.trace := []; Desktop.result_dir := Some d |};
     Gui.inp_var := Some Examples.audio; Gui.out_var := None; Gui.actions := [] |}.

(** A tool that cannot be started. *)
Definition tool_missing : tool := fun _ f => (inl FileNotFoundError, f).

End Samples.

(* ------------------------------------------------------------------ *)
(** ** Paths and the two monads: basic facts *)
(* ------------------------------------------------------------------ *)

Lemma name_child : forall (p : path) (c : string), Path.name (Path.child p c) = c.
Proof. intros p c. unfold Path.name, Path.child. apply last_last. Qed.

Lemma path_eqb_true : forall p q : path, Path.eqb p q = true <-> p = q.
Proof.
  intros p q. unfold Path.eqb.
  destruct (list_eq_dec string_dec p q); split; congruence.
Qed.

Lemma path_eqb_false : forall p q : path, p <> q -> Path.eqb p q = false.
Proof.
  intros p q H. unfold Path.eqb.
  destruct (list_eq_dec string_dec p q); congruence.
Qed.

Lemma existsb_rev : forall (A : Type) (f : A -> bool) (l : list A),
  existsb f (rev l) = existsb f l.
Proof.
  intros A f l. induction l as [|a l IH]; cbn.
  - reflexivity.
  - rewrite existsb_app, IH. cbn. rewrite orb_false_r. apply orb_comm.
Qed.

Lemma below_child : forall (root : path) (c : string), Spec.below root (Path.child root c).
Proof. intros root c. exists c, []. reflexivity. Qed.

Lemma below_trans : forall p q r : path, Spec.below p q -> Spec.below q r -> Spec.below p r.
Proof.
  intros p q r [c [l ->]] [c' [l' ->]].
  exists c, (l ++ c' :: l'). now rewrite <- app_assoc.
Qed.

(* ------------------------------------------------------------------ *)
(** ** Job submitter *)
(* ------------------------------------------------------------------ *)

(** C9. For every output root and input path, both front-ends build the
    vector: the tool's name, two-stem mode for vocals, the model name,
    [--shifts 0], [--overlap 0.05], [--jobs 1], [--mp3], [--out] followed
    by the output root, and the input path as the last argument. *)
Theorem c9_argument_vector : forall out_root input_path : path,
  Web.command out_root input_path =
    ["demucs"; "--two-stems"; "vocals"; "-n"; "htdemucs_ft"; "--shifts"; "0";
     "--overlap"; "0.05"; "--jobs"; "1"; "--mp3";
     "--out"; Path.str out_root; Path.str input_path]
  /\ Desktop.command out_root input_path =
    ["demucs"; "--two-stems=vocals"; "-n"; "htdemucs_ft"; "--shifts"; "0";
     "--overlap"; "0.05"; "--jobs"; "1"; "--mp3";
     "--out"; Path.str out_root; Path.str input_path]
  /\ last (Web.command out_root input_path) "" = Path.str input_path
  /\ last (Desktop.command out_root input_path) "" = Path.str input_path.
Proof. intros out_root input_path. repeat split. Qed.

(* ------------------------------------------------------------------ *)
(** ** Stem classifier *)
(* ------------------------------------------------------------------ *)

Lemma desktop_pick_is_web_pick : forall (d : path) (names : list string),
  Desktop.pick d names = Web.pick d names.
Proof. reflexivity. Qed.

Lemma pick_snoc : forall (d : path) (names : list string) (fn : string),
  Web.pick d (names ++ [fn]) = Web.pick_step d (Web.pick d names) fn.
Proof. intros d names fn. unfold Web.pick. now rewrite fold_left_app. Qed.

(** The vocals candidate is a listed name that passes the vocals test. *)
Lemma pick_vocals_sound : forall (d : path) (names : list string) (v : path),
  fst (Web.pick d names) = Some v ->
  exists fn, In fn names /\ v = Path.child d fn /\ is_vocals (Str.lower fn) = true.
Proof.
  intros d names. induction names as [|fn names IH] using rev_ind; intros v H.
  - discriminate H.
  - rewrite pick_snoc in H. unfold Web.pick_step in H. cbn [fst] in H.
    destruct (is_vocals (Str.lower fn)) eqn:E.
    + injection H as <-. exists fn. rewrite in_app_iff. cbn. auto.
    + destruct (IH v H) as [fn' [Hin Hv]]. exists fn'. rewrite in_app_iff. auto.
Qed.

(** The instrumental candidate is a listed name that passes the
    instrumental test. *)
Lemma pick_inst_sound : forall (d : path) (names : list string) (i : path),
  snd (Web.pick d names) = Some i ->
  exists fn, In fn names /\ i = Path.child d fn /\ is_instrumental (Str.lower fn) = true.
Proof.
  intros d names. induction names as [|fn names IH] using rev_ind; intros i H.
  - discriminate H.
  - rewrite pick_snoc in H. unfold Web.pick_step in H. cbn [snd] in H.
    destruct (is_instrumental (Str.lower fn)) eqn:E.
    + injection H as <-. exists fn. rewrite in_app_iff. cbn. auto.
    + destruct (IH i H) as [fn' [Hin Hi]]. exists fn'. rewrite in_app_iff. auto.
Qed.

(** Last match wins. *)
Lemma pick_last_vocals : forall (d : path) (names : list string) (fn : string),
  is_vocals (Str.lower fn) = true ->
  fst (Web.pick d (names ++ [fn])) = Some (Path.child d fn).
Proof.
  intros d names fn H. rewrite pick_snoc. unfold Web.pick_step. cbn [fst].
  now rewrite H.
Qed.

(** C1, on the code: in the listing [track_vocals.mp3, track_no_vocals.mp3]
    both names contain "vocals" and neither begins with "no_", so the last
    one, [track_no_vocals.mp3], is the vocals candidate as well as the
    instrumental candidate, in both front-ends; the "no_" test keeps out
    of the vocals bucket the names that begin with "no_": the vocals
    candidate is always a listed name that contains "vocals" and does not
    begin with "no_", as for [vocals.mp3, no_vocals.mp3]. *)
Theorem c1_prefix_test_on_whole_name :
  (forall d : path,
     Web.pick d ["track_vocals.mp3"; "track_no_vocals.mp3"] =
       (Some (Path.child d "track_no_vocals.mp3"),
        Some (Path.child d "track_no_vocals.mp3"))
     /\ Desktop.pick d ["track_vocals.mp3"; "track_no_vocals.mp3"] =
       (Some (Path.child d "track_no_vocals.mp3"),
        Some (Path.child d "track_no_vocals.mp3")))
  /\ (forall (d : path) (names : list string) (v : path),
        fst (Web.pick d names) = Some v ->
        exists fn, In fn names /\ v = Path.child d fn
                   /\ Str.contains "vocals" (Str.lower fn) = true
                   /\ Str.startswith "no_" (Str.lower fn) = false)
  /\ (forall d : path,
        Web.pick d ["vocals.mp3"; "no_vocals.mp3"] =
          (Some (Path.child d "vocals.mp3"), Some (Path.child d "no_vocals.mp3"))).
Proof.
  split; [|split].
  - intro d. split; reflexivity.
  - intros d names v H.
    destruct (pick_vocals_sound d names v H) as [fn [Hin [Hv Htest]]].
    exists fn. unfold is_vocals in Htest.
    apply andb_true_iff in Htest. destruct Htest as [Hc Hs].
    apply negb_true_iff in Hs. auto.
  - intro d. reflexivity.
Qed.

(** C1 as stated fails: on that listing the vocals candidate is not
    [track_vocals.mp3]. *)
Lemma c1_vocals_is_not_track_vocals :
  Web.pick Examples.out_root Examples.listing <>
    (Some (Path.child Examples.out_root "track_vocals.mp3"),
     Some (Path.child Examples.out_root "track_no_vocals.mp3")).
Proof. vm_compute. discriminate. Qed.

(* ------------------------------------------------------------------ *)
(** ** The walk of a tree *)
(* ------------------------------------------------------------------ *)

(** Induction on trees: a directory has the property when its entries do. *)
Lemma node_induction : forall P : node -> Prop,
  (forall data, P (File data)) ->
  (forall es, Forall (fun e => P (snd e)) es -> P (Dir es)) ->
  forall n, P n.
Proof.
  intros P Hfile Hdir. fix IH 1. intros [data|es].
  - apply Hfile.
  - apply Hdir. induction es as [|[k c] es IHes].
    + constructor.
    + constructor; [exact (IH c) | exact IHes].
Qed.

Lemma walk_tree_dir : forall (top : path) (es : list (string * node)),
  FS.walk_tree top (Dir es) =
    (top, FS.dirs_of es, FS.files_of es) :: FS.walk_children top es.
Proof.
  intros top es. cbn. f_equal. unfold FS.walk_children.
  induction es as [|[k c] es IH]; cbn; [reflexivity | now rewrite IH].
Qed.

Lemma has_subdir_dir : forall (b : string) (es : list (string * node)),
  FS.has_subdir b (Dir es) = existsb (FS.child_has b) es.
Proof.
  intros b es. cbn.
  induction es as [|[k c] es IH]; cbn; [reflexivity | now rewrite IH].
Qed.

Lemma dirs_of_cons : forall (k : string) (c : node) (es : list (string * node)),
  FS.dirs_of ((k, c) :: es) =
    if FS.is_dir_node c then k :: FS.dirs_of es else FS.dirs_of es.
Proof. intros k c es. unfold FS.dirs_of. cbn. now destruct (FS.is_dir_node c). Qed.

(** Some item of the walk lists [b] among its directories exactly when a
    directory called [b] lies below the tree. *)
Lemma walk_lists_iff_has_subdir : forall (b : string) (n : node) (top : path),
  existsb (fun it : FS.walk_item => existsb (String.eqb b) (snd (fst it)))
          (FS.walk_tree top n) = FS.has_subdir b n.
Proof.
  intros b n. induction n as [data|es IH] using node_induction; intro top.
  - reflexivity.
  - rewrite walk_tree_dir, has_subdir_dir. cbn [existsb fst snd].
    induction es as [|[k c] es IHes].
    + reflexivity.
    + inversion IH as [|e l Hc Hes]; subst. cbn [snd] in Hc.
      specialize (IHes Hes).
      rewrite dirs_of_cons. unfold FS.walk_children in *. cbn [flat_map fst snd].
      rewrite existsb_app, Hc. cbn [existsb]. rewrite <- IHes.
      unfold FS.child_has. cbn [fst snd]. rewrite (String.eqb_sym k b).
      destruct (FS.is_dir_node c); cbn [existsb andb orb];
        destruct (String.eqb b k); destruct (FS.has_subdir b c);
        destruct (existsb (String.eqb b) (FS.dirs_of es)); reflexivity.
Qed.

(** Some directory visited by the walk is called [b] exactly when the top
    is, or a directory called [b] lies below it. *)
Lemma walk_visits_iff_has_subdir : forall (b : string) (n : node) (top : path),
  existsb (fun it : FS.walk_item => String.eqb (Path.name (fst (fst it))) b)
          (FS.walk_tree top n) =
  (FS.is_dir_node n && String.eqb (Path.name top) b) || FS.has_subdir b n.
Proof.
  intros b n. induction n as [data|es IH] using node_induction; intro top.
  - reflexivity.
  - rewrite walk_tree_dir, has_subdir_dir. cbn [existsb fst snd FS.is_dir_node andb].
    f_equal.
    induction es as [|[k c] es IHes].
    + reflexivity.
    + inversion IH as [|e l Hc Hes]; subst. cbn [snd] in Hc.
      unfold FS.walk_children in *. cbn [flat_map fst snd existsb].
      rewrite existsb_app, Hc, name_child, (IHes Hes). reflexivity.
Qed.

(** [has_subdir] read as a statement about paths. *)
Lemma has_subdir_at_path : forall (b : string) (n : node),
  FS.has_subdir b n = true <->
  exists p es, FS.at_path (p ++ [b]) n (Dir es).
Proof.
  intros b n. split.
  - induction n as [data|es IH] using node_induction; [discriminate|].
    rewrite has_subdir_dir, existsb_exists. intros [[k c] [Hin Hc]].
    unfold FS.child_has in Hc. cbn [fst snd] in Hc.
    apply orb_true_iff in Hc. destruct Hc as [Hc|Hc].
    + apply andb_true_iff in Hc. destruct Hc as [Hd Hk].
      apply String.eqb_eq in Hk. subst k. destruct c as [|es']; [discriminate|].
      exists [], es'. cbn. eapply FS.at_step; [exact Hin | constructor].
    + rewrite Forall_forall in IH. destruct (IH _ Hin Hc) as [p [es' Hp]].
      exists (k :: p), es'. cbn. eapply FS.at_step; eauto.
  - intros [p [es' H]]. revert n H.
    induction p as [|k p IH]; intros n H; cbn in H; inversion H; subst.
    + match goal with Hp : FS.at_path [] _ _ |- _ => inversion Hp; subst end.
      rewrite has_subdir_dir, existsb_exists. eexists. split; [eassumption|].
      unfold FS.child_has. cbn. now rewrite String.eqb_refl.
    + rewrite has_subdir_dir, existsb_exists. eexists. split; [eassumption|].
      unfold FS.child_has. cbn [snd]. erewrite IH by eassumption.
      apply orb_true_r.
Qed.

Lemma assoc_in : forall (k : string) (es : list (string * node)) (c : node),
  FS.assoc k es = Some c -> In (k, c) es.
Proof.
  intros k es c. induction es as [|[k' v] es IH]; cbn; [discriminate|].
  destruct (String.eqb k k') eqn:E.
  - intro H. injection H as ->. apply String.eqb_eq in E. subst. now left.
  - intro H. right. now apply IH.
Qed.

Lemma lookup_at_path : forall (p : path) (n m : node),
  FS.lookup p n = Some m -> FS.at_path p n m.
Proof.
  induction p as [|k p IH]; intros n m H; cbn in H.
  - injection H as ->. constructor.
  - destruct n as [data|es]; [discriminate|].
    destruct (FS.assoc k es) as [c|] eqn:Ec; [|discriminate].
    eapply FS.at_step; [apply assoc_in; exact Ec | now apply IH].
Qed.

Lemma lookup_app : forall (p q : path) (n m : node),
  FS.lookup p n = Some m -> FS.lookup (p ++ q) n = FS.lookup q m.
Proof.
  induction p as [|k p IH]; intros q n m H; cbn in H.
  - now injection H as ->.
  - destruct n as [data|es]; [discriminate|]. cbn.
    destruct (FS.assoc k es) as [c|]; [now apply IH | discriminate].
Qed.

(** A directory found at [root/.../b] is a directory called [b] below
    [root]. *)
Lemma isdir_dir_named_under : forall (root p : path) (b : string) (fs : node),
  FS.isdir root fs = true ->
  FS.isdir (root ++ p ++ [b]) fs = true ->
  FS.dir_named_under b root fs = true.
Proof.
  intros root p b fs Hroot H. unfold FS.isdir, FS.dir_named_under in *.
  destruct (FS.lookup root fs) as [n|] eqn:En; [|discriminate].
  rewrite (lookup_app _ _ _ _ En) in H.
  destruct (FS.lookup (p ++ [b]) n) as [[data|es]|] eqn:Ep; try discriminate.
  apply has_subdir_at_path. exists p, es. now apply lookup_at_path.
Qed.

(* ------------------------------------------------------------------ *)
(** ** Output locator *)
(* ------------------------------------------------------------------ *)

Lemma scan_dirs_spec : forall (b : string) (root : path) (dirs : list string)
                              (found : option path),
  Web.scan_dirs b root dirs found =
    if existsb (String.eqb b) dirs then Some (Path.child root b) else found.
Proof.
  intros b root dirs found. induction dirs as [|d dirs IH]; cbn.
  - reflexivity.
  - rewrite (String.eqb_sym b d). destruct (String.eqb d b) eqn:E; cbn.
    + apply String.eqb_eq in E. now subst d.
    + exact IH.
Qed.

(** The web search keeps the last item of the walk that lists [b]. *)
Lemma search_is_last_match : forall (b : string) (items : list FS.walk_item),
  Web.search b items = Spec.first_dir_named b (rev items).
Proof.
  intros b items. unfold Web.search, FS.walk_item in *.
  induction items as [|it items IH] using rev_ind.
  - reflexivity.
  - rewrite fold_left_app, rev_app_distr. cbn [fold_left rev app].
    rewrite scan_dirs_spec, IH. destruct it as [[root dirs] files]. reflexivity.
Qed.

Lemma first_dir_named_none : forall (b : string) (items : list FS.walk_item),
  existsb (fun it : FS.walk_item => existsb (String.eqb b) (snd (fst it))) items = false ->
  Spec.first_dir_named b items = None.
Proof.
  intros b items. induction items as [|[[root dirs] files] items IH]; cbn.
  - reflexivity.
  - intro H. apply orb_false_iff in H. destruct H as [H1 H2].
    rewrite H1. auto.
Qed.

Lemma first_dir_named_some : forall (b : string) (items : list FS.walk_item),
  existsb (fun it : FS.walk_item => existsb (String.eqb b) (snd (fst it))) items = true ->
  exists root dirs files,
    In (root, dirs, files) items /\
    Spec.first_dir_named b items = Some (Path.child root b).
Proof.
  intros b items. induction items as [|[[root dirs] files] items IH]; cbn.
  - discriminate.
  - destruct (existsb (String.eqb b) dirs) eqn:E; cbn.
    + intros _. exists root, dirs, files. auto.
    + intro H. destruct (IH H) as [r [ds [fls [Hin Heq]]]].
      exists r, ds, fls. auto.
Qed.

(** The roots of a walk are its top and paths below it. *)
Lemma walk_tree_roots : forall (n : node) (top : path) (it : FS.walk_item),
  In it (FS.walk_tree top n) -> fst (fst it) = top \/ Spec.below top (fst (fst it)).
Proof.
  intro n. induction n as [data|es IH] using node_induction; intros top it Hin.
  - destruct Hin.
  - rewrite walk_tree_dir in Hin. destruct Hin as [<-|Hin]; [now left|]. right.
    unfold FS.walk_children in Hin. apply in_flat_map in Hin.
    destruct Hin as [[k c] [Hk Hit]]. cbn [fst snd] in Hit.
    rewrite Forall_forall in IH. destruct (IH _ Hk _ _ Hit) as [->|Hb].
    + apply below_child.
    + eapply below_trans; [apply below_child | exact Hb].
Qed.

Lemma first_named_none : forall (b : string) (items : list FS.walk_item),
  existsb (fun it : FS.walk_item => String.eqb (Path.name (fst (fst it))) b) items = false ->
  Desktop.first_named b items = None.
Proof.
  intros b items.
  induction items as [|[[root dirs] files] items IH];
    cbn [existsb Desktop.first_named fst snd].
  - reflexivity.
  - intro H. apply orb_false_iff in H. destruct H as [H1 H2].
    rewrite H1. auto.
Qed.

Lemma first_named_some : forall (b : string) (items : list FS.walk_item),
  existsb (fun it : FS.walk_item => String.eqb (Path.name (fst (fst it))) b) items = true ->
  exists r, Desktop.first_named b items = Some r /\ Path.name r = b.
Proof.
  intros b items.
  induction items as [|[[root dirs] files] items IH];
    cbn [existsb Desktop.first_named fst snd].
  - discriminate.
  - destruct (String.eqb (Path.name root) b) eqn:E; cbn [orb].
    + intros _. exists root. split; [reflexivity | now apply String.eqb_eq].
    + exact IH.
Qed.

(** What the web locator does, by cases. *)
Lemma web_locate_run : forall (out_root : path) (b : string) (w : Web.world),
  Web.locate out_root b w =
    let expected := Path.child (Path.child out_root Web.MODEL_NAME) b in
    let w1 := {| Web.fs := Web.fs w; Web.trace := Web.trace w ++ [EIsDir expected] |} in
    let w2 := {| Web.fs := Web.fs w;
                 Web.trace := (Web.trace w ++ [EIsDir expected]) ++ [EWalk out_root] |} in
    if FS.isdir expected (Web.fs w) then (inr expected, w1)
    else
      match Web.search b (FS.walk out_root (Web.fs w)) with
      | Some found => (inr found, w2)
      | None => (inl Web.locate_error, w2)
      end.
Proof.
  intros out_root b w. unfold Web.locate, Web.is_dir, Web.walk, Web.emit, Web.read, bind.
  cbn. destruct (FS.isdir _ (Web.fs w)); cbn; [reflexivity|].
  destruct (Web.search b _); reflexivity.
Qed.

(** What the desktop locator does, by cases. *)
Lemma desktop_locate_run : forall (out_root : path) (m : string) (audio : path)
                                  (a : Desktop.app),
  Desktop.locate_output_dir out_root m audio a =
    let base := Path.stem audio in
    let expected := Path.child (Path.child out_root m) base in
    if FS.isdir expected (Desktop.fs a) then
      (inr (Some expected),
       {| Desktop.fs := Desktop.fs a;
          Desktop.trace := Desktop.trace a ++ [EIsDir expected];
          Desktop.result_dir := Desktop.result_dir a |})
    else
      (inr (Desktop.first_named base (FS.walk out_root (Desktop.fs a))),
       {| Desktop.fs := Desktop.fs a;
          Desktop.trace := (Desktop.trace a ++ [EIsDir expected]) ++ [EWalk out_root];
          Desktop.result_dir := Desktop.result_dir a |}).
Proof.
  intros out_root m audio a.
  unfold Desktop.locate_output_dir, Desktop.isdir, Desktop.walk, Desktop.emit,
    Desktop.read, bind.
  cbn. destruct (FS.isdir _ (Desktop.fs a)); reflexivity.
Qed.

(** C5. When the directory root/m/b exists, both locators return exactly
    that path, and the only call they make is the directory test: no walk.
    (The web front-end has one model name, [MODEL_NAME].) *)
Theorem c5_expected_directory_is_returned :
  (forall (w : Web.world) (out_root : path) (b : string),
     FS.isdir (Path.child (Path.child out_root Web.MODEL_NAME) b) (Web.fs w) = true ->
     Web.locate out_root b w =
       (inr (Path.child (Path.child out_root Web.MODEL_NAME) b),
        {| Web.fs := Web.fs w;
           Web.trace := Web.trace w
                        ++ [EIsDir (Path.child (Path.child out_root Web.MODEL_NAME) b)] |}))
  /\
  (forall (a : Desktop.app) (out_root : path) (m : string) (audio : path),
     FS.isdir (Path.child (Path.child out_root m) (Path.stem audio)) (Desktop.fs a) = true ->
     Desktop.locate_output_dir out_root m audio a =
       (inr (Some (Path.child (Path.child out_root m) (Path.stem audio))),
        {| Desktop.fs := Desktop.fs a;
           Desktop.trace := Desktop.trace a
                            ++ [EIsDir (Path.child (Path.child out_root m) (Path.stem audio))];
           Desktop.result_dir := Desktop.result_dir a |})).
Proof.
  split.
  - intros w out_root b H. rewrite web_locate_run. cbv zeta. now rewrite H.
  - intros a out_root m audio H. rewrite desktop_locate_run. cbv zeta. now rewrite H.
Qed.

(** C6. When root/m/b is not a directory but some directory called b lies
    below the output root, both locators return a path whose final
    component is b. *)
Theorem c6_fallback_result_ends_in_base :
  (forall (w : Web.world) (out_root : path) (b : string),
     FS.isdir (Path.child (Path.child out_root Web.MODEL_NAME) b) (Web.fs w) = false ->
     FS.dir_named_under b out_root (Web.fs w) = true ->
     exists found w',
       Web.locate out_root b w = (inr found, w') /\ Path.name found = b)
  /\
  (forall (a : Desktop.app) (out_root : path) (m : string) (audio : path),
     FS.isdir (Path.child (Path.child out_root m) (Path.stem audio)) (Desktop.fs a) = false ->
     FS.dir_named_under (Path.stem audio) out_root (Desktop.fs a) = true ->
     exists r a',
       Desktop.locate_output_dir out_root m audio a = (inr (Some r), a')
       /\ Path.name r = Path.stem audio).
Proof.
  split.
  - intros w out_root b Hexp Hdir. rewrite web_locate_run. cbv zeta. rewrite Hexp.
    unfold FS.dir_named_under, FS.walk in *.
    destruct (FS.lookup out_root (Web.fs w)) as [n|]; [|discriminate].
    rewrite search_is_last_match.
    rewrite <- (walk_lists_iff_has_subdir b n out_root), <- existsb_rev in Hdir.
    destruct (first_dir_named_some _ _ Hdir) as [r [ds [fls [_ Heq]]]].
    rewrite Heq. eexists. eexists. split; [reflexivity | apply name_child].
  - intros a out_root m audio Hexp Hdir. rewrite desktop_locate_run. cbv zeta.
    rewrite Hexp. unfold FS.dir_named_under, FS.walk in *.
    destruct (FS.lookup out_root (Desktop.fs a)) as [n|]; [|discriminate].
    assert (Hv : existsb
                   (fun it : FS.walk_item =>
                      String.eqb (Path.name (fst (fst it))) (Path.stem audio))
                   (FS.walk_tree out_root n) = true).
    { rewrite walk_visits_iff_has_subdir, Hdir. apply orb_true_r. }
    destruct (first_named_some _ _ Hv) as [r [Heq Hname]].
    rewrite Heq. eauto.
Qed.

(** A failure of the locator is the failure of the web job. *)
Lemma web_finish_locate_fails :
  forall (R : path) (job_id : string) (input_path : path) (process : ProcessResult)
         (w w' : Web.world) (e : exn),
  returncode process = 0%Z ->
  Web.locate (Path.child (Path.child R job_id) "raw") (Path.stem input_path) w = (inl e, w') ->
  Web.finish R job_id input_path process w = (inl e, w').
Proof.
  intros R job_id input_path process w w' e Hcode Hloc.
  unfold Web.finish. rewrite Hcode. cbn [Z.eqb negb]. unfold bind at 1.
  now rewrite Hloc.
Qed.

(** C7, on the code: when root/m/b is not a directory and no directory
    called b lies below the output root, the web locator raises the locate
    failure, which ends the job; the desktop locator returns no result
    provided the output root itself is not called b. *)
Theorem c7_not_found_without_directory_named_base :
  (forall (w : Web.world) (out_root : path) (b : string),
     FS.isdir (Path.child (Path.child out_root Web.MODEL_NAME) b) (Web.fs w) = false ->
     FS.dir_named_under b out_root (Web.fs w) = false ->
     Web.locate out_root b w =
       (inl (RuntimeError "Could not locate Demucs output folder."),
        {| Web.fs := Web.fs w;
           Web.trace :=
             (Web.trace w
              ++ [EIsDir (Path.child (Path.child out_root Web.MODEL_NAME) b)])
             ++ [EWalk out_root] |}))
  /\
  (forall (R : path) (job_id : string) (input_path : path) (process : ProcessResult)
          (w : Web.world),
     returncode process = 0%Z ->
     FS.isdir (Path.child (Path.child (Path.child (Path.child R job_id) "raw")
                                      Web.MODEL_NAME) (Path.stem input_path))
              (Web.fs w) = false ->
     FS.dir_named_under (Path.stem input_path) (Path.child (Path.child R job_id) "raw")
                        (Web.fs w) = false ->
     exists w',
       Web.finish R job_id input_path process w =
         (inl (RuntimeError "Could not locate Demucs output folder."), w')
       /\ Web.fs w' = Web.fs w)
  /\
  (forall (a : Desktop.app) (out_root : path) (m : string) (audio : path),
     FS.isdir (Path.child (Path.child out_root m) (Path.stem audio)) (Desktop.fs a) = false ->
     FS.dir_named_under (Path.stem audio) out_root (Desktop.fs a) = false ->
     Path.name out_root <> Path.stem audio ->
     fst (Desktop.locate_output_dir out_root m audio a) = inr None).
Proof.
  assert (Hweb : forall (w : Web.world) (out_root : path) (b : string),
     FS.isdir (Path.child (Path.child out_root Web.MODEL_NAME) b) (Web.fs w) = false ->
     FS.dir_named_under b out_root (Web.fs w) = false ->
     Web.locate out_root b w =
       (inl Web.locate_error,
        {| Web.fs := Web.fs w;
           Web.trace :=
             (Web.trace w
              ++ [EIsDir (Path.child (Path.child out_root Web.MODEL_NAME) b)])
             ++ [EWalk out_root] |})).
  { intros w out_root b Hexp Hdir. rewrite web_locate_run. cbv zeta. rewrite Hexp.
    rewrite search_is_last_match. rewrite first_dir_named_none; [reflexivity|].
    rewrite existsb_rev. unfold FS.dir_named_under, FS.walk in *.
    destruct (FS.lookup out_root (Web.fs w)) as [n|]; [|reflexivity].
    now rewrite walk_lists_iff_has_subdir. }
  split; [exact Hweb | split].
  - intros R job_id input_path process w Hcode Hexp Hdir.
    eexists. split.
    + eapply web_finish_locate_fails; [exact Hcode | apply Hweb; assumption].
    + reflexivity.
  - intros a out_root m audio Hexp Hdir Hname. rewrite desktop_locate_run.
    cbv zeta. rewrite Hexp. cbn [fst]. f_equal. apply first_named_none.
    unfold FS.dir_named_under, FS.walk in *.
    destruct (FS.lookup out_root (Desktop.fs a)) as [n|]; [|reflexivity].
    rewrite walk_visits_iff_has_subdir, Hdir.
    apply String.eqb_neq in Hname. rewrite Hname.
    now rewrite andb_false_r.
Qed.

(** C7 as stated fails for the desktop locator: below [/music/song] there
    is no directory called [song] and [/music/song/htdemucs_ft/song] does
    not exist, yet for [song.mp3] the locator returns [/music/song]. *)
Lemma c7_desktop_returns_root_called_base :
  FS.isdir (Path.child (Path.child Examples.song_root Desktop.MODEL)
                       (Path.stem Examples.audio)) Examples.music = false
  /\ FS.dir_named_under (Path.stem Examples.audio) Examples.song_root Examples.music = false
  /\ fst (Desktop.locate_output_dir Examples.song_root Desktop.MODEL Examples.audio
            (Desktop.start Examples.music)) = inr (Some Examples.song_root)
  /\ fst (Desktop.locate_output_dir Examples.song_root Desktop.MODEL Examples.audio
            (Desktop.start Examples.music)) <> inr None.
Proof. vm_compute. repeat split; discriminate. Qed.

(** C2 on the code, at a job whose [raw] folder holds [a/song] and
    [b/song] (in that order) and no [htdemucs_ft/song]: the first directory
    called [song] in walk order is [raw/a/song], which is also what the
    desktop loop returns, but the web locator returns [raw/b/song]. In
    general the web search returns the last item of the walk that lists
    the base name, since its [break] leaves the inner loop only. *)
Theorem c2_web_fallback_returns_last_match :
  FS.isdir (Path.child (Path.child Examples.out_root Web.MODEL_NAME) "song")
           (Examples.server_with Examples.two_songs) = false
  /\ fst (Web.locate Examples.out_root "song"
            (Web.start (Examples.server_with Examples.two_songs))) =
       inr (Examples.out_root ++ ["b"; "song"])
  /\ Spec.first_dir_named "song"
       (FS.walk Examples.out_root (Examples.server_with Examples.two_songs)) =
       Some (Examples.out_root ++ ["a"; "song"])
  /\ Desktop.first_named "song"
       (FS.walk Examples.out_root (Examples.server_with Examples.two_songs)) =
       Some (Examples.out_root ++ ["a"; "song"])
  /\ (forall (b : string) (items : list FS.walk_item),
        Web.search b items = Spec.first_dir_named b (rev items)).
Proof.
  repeat split; try reflexivity. apply search_is_last_match.
Qed.

(* ------------------------------------------------------------------ *)
(** ** Running computations step by step *)
(* ------------------------------------------------------------------ *)

Lemma bind_run : forall (S A B : Type) (m : M S A) (k : A -> M S B) (s s' : S) (a : A),
  m s = (inr a, s') -> bind m k s = k a s'.
Proof. intros S A B m k s s' a H. unfold bind. now rewrite H. Qed.

Section Steps.

Context {S : Type} (R : S -> S -> Prop).
Hypothesis R_refl : forall s, R s s.
Hypothesis R_trans : forall s1 s2 s3, R s1 s2 -> R s2 s3 -> R s1 s3.

Lemma steps_ret : forall (A : Type) (a : A), steps R (ret a).
Proof using R_refl. intros A a s r s' H. injection H as _ <-. apply R_refl. Qed.

Lemma steps_raise : forall (A : Type) (e : exn), steps R (@raise S A e).
Proof using R_refl. intros A e s r s' H. injection H as _ <-. apply R_refl. Qed.

Lemma steps_bind : forall (A B : Type) (m : M S A) (k : A -> M S B),
  steps R m -> (forall a, steps R (k a)) -> steps R (bind m k).
Proof using R_trans.
  intros A B m k Hm Hk s r s' H. unfold bind in H.
  destruct (m s) as [[e|a] s1] eqn:E.
  - injection H as _ <-. eapply Hm; eauto.
  - eapply R_trans; [eapply Hm | eapply Hk]; eauto.
Qed.

End Steps.

Lemma web_adds_no_refl : forall (Q : event -> bool) (w : Web.world), Web.adds_no Q w w.
Proof. intros Q w. exists []. now rewrite app_nil_r. Qed.

Lemma web_adds_no_trans : forall (Q : event -> bool) (w1 w2 w3 : Web.world),
  Web.adds_no Q w1 w2 -> Web.adds_no Q w2 w3 -> Web.adds_no Q w1 w3.
Proof.
  intros Q w1 w2 w3 [n1 [E1 H1]] [n2 [E2 H2]]. exists (n1 ++ n2). split.
  - now rewrite E2, E1, app_assoc.
  - now rewrite existsb_app, H1, H2.
Qed.

Lemma web_emit_adds_no : forall (Q : event -> bool) (e : event),
  Q e = false -> steps (Web.adds_no Q) (Web.emit e).
Proof.
  intros Q e He w r w' H. injection H as _ <-. exists [e]. cbn. now rewrite He.
Qed.

Lemma web_update_adds_no : forall (Q : event -> bool) (f : node -> exn + node),
  steps (Web.adds_no Q) (Web.update f).
Proof.
  intros Q f w r w' H. unfold Web.update in H.
  destruct (f (Web.fs w)); injection H as _ <-; exists []; cbn; now rewrite app_nil_r.
Qed.

Lemma web_run_adds_no : forall (Q : event -> bool) (demucs : tool) (cmd : list string),
  Q (ERun cmd) = false -> steps (Web.adds_no Q) (Web.subprocess_run demucs cmd).
Proof.
  intros Q demucs cmd HQ. unfold Web.subprocess_run.
  apply steps_bind; [apply web_adds_no_trans | now apply web_emit_adds_no |].
  intros _ w r w' H. destruct (demucs cmd (Web.fs w)) as [[e|p] f'];
    injection H as _ <-; exists []; cbn; now rewrite app_nil_r.
Qed.

(** Preparing the job and running the tool only adds [mkdir], [print] and
    the run itself to the trace. *)
Lemma launch_adds_no :
  forall (Q : event -> bool) (R : path) (demucs : tool) (job_id : string)
         (input_path : path),
  (forall p, Q (EMkdir p) = false) ->
  (forall t, Q (EPrint t) = false) ->
  (forall c, Q (ERun c) = false) ->
  steps (Web.adds_no Q) (Web.launch R demucs job_id input_path).
Proof.
  intros Q R demucs job_id input_path Hmk Hpr Hrun.
  unfold Web.launch, Web.mkdir, Web.print.
  repeat first
    [ apply steps_ret; apply web_adds_no_refl
    | apply web_update_adds_no
    | apply web_run_adds_no; apply Hrun
    | apply web_emit_adds_no; first [apply Hmk | apply Hpr]
    | apply steps_bind; [apply web_adds_no_trans | | intro] ].
Qed.

(* ------------------------------------------------------------------ *)
(** ** Process runner: a non-zero exit status *)
(* ------------------------------------------------------------------ *)

Lemma web_finish_nonzero :
  forall (R : path) (job_id : string) (input_path : path) (process : ProcessResult)
         (w : Web.world),
  returncode process <> 0%Z ->
  Web.finish R job_id input_path process w =
    (inl (Web.exit_error (returncode process)), w).
Proof.
  intros R job_id input_path process w H. unfold Web.finish.
  apply Z.eqb_neq in H. now rewrite H.
Qed.

Lemma desktop_popen_run :
  forall (demucs : tool) (cmd : list string) (a : Desktop.app)
         (r : exn + ProcessResult) (f' : node),
  demucs cmd (Desktop.fs a) = (r, f') ->
  Desktop.popen demucs cmd a =
    (r, {| Desktop.fs := f'; Desktop.trace := Desktop.trace a ++ [ERun cmd];
           Desktop.result_dir := Desktop.result_dir a |}).
Proof.
  intros demucs cmd a r f' H. unfold Desktop.popen, Desktop.emit, bind. cbn.
  rewrite H. now destruct r.
Qed.

Lemma desktop_stream_run : forall (lines : list string) (a : Desktop.app),
  for_each lines Desktop.append_log a =
    (inr tt, {| Desktop.fs := Desktop.fs a;
                Desktop.trace := Desktop.trace a ++ map ELog lines;
                Desktop.result_dir := Desktop.result_dir a |}).
Proof.
  induction lines as [|l lines IH]; intro a; cbn [for_each map].
  - unfold ret. rewrite app_nil_r. now destruct a.
  - unfold bind, Desktop.append_log, Desktop.emit. rewrite IH. cbn.
    now rewrite <- app_assoc.
Qed.

(** C4. Whenever the tool has run and exited with a non-zero status, the
    job fails with an error that carries the exit code, whatever the tool
    left in the file system. Web: [run_demucs_debug] raises the error in
    the very state in which the run ended, and up to there no call of the
    locator, the classifier or the publisher was made. Desktop: after the
    streamed output, [worker] logs and shows the error and re-enables the
    button; it makes no other call and leaves [result_dir] as it was. *)
Theorem c4_nonzero_exit_fails_the_job :
  (forall (R : path) (demucs : tool) (job_id : string) (input_path : path)
          (w w1 : Web.world) (process : ProcessResult),
     Web.launch R demucs job_id input_path w = (inr process, w1) ->
     returncode process <> 0%Z ->
     Web.run_demucs_debug R demucs job_id input_path w =
       (inl (RuntimeError ("Demucs error (exit code "
                           ++ Str.of_Z (returncode process)
                           ++ "). See above output.")), w1)
     /\ Web.adds_no Spec.stage_event w w1)
  /\
  (forall (demucs : tool) (cmd : list string) (out_root audio : path)
          (a : Desktop.app) (proc : ProcessResult) (f' : node),
     demucs cmd (Desktop.fs a) = (inr proc, f') ->
     returncode proc <> 0%Z ->
     Desktop.worker demucs cmd out_root audio a =
       (inr tt,
        {| Desktop.fs := f';
           Desktop.trace :=
             Desktop.trace a
             ++ [ERun cmd] ++ map ELog (stdout proc)
             ++ [ELog (Str.nl ++ "[ERROR] Demucs exited with code "
                       ++ Str.of_Z (returncode proc) ++ Str.nl);
                 EShowError "Separation failed"
                            ("Demucs exited with code " ++ Str.of_Z (returncode proc));
                 EButton true];
           Desktop.result_dir := Desktop.result_dir a |})).
Proof.
  split.
  - intros R demucs job_id input_path w w1 process Hrun Hcode. split.
    + unfold Web.run_demucs_debug. rewrite (bind_run _ _ _ _ _ _ _ _ Hrun).
      now rewrite web_finish_nonzero.
    + apply (launch_adds_no Spec.stage_event R demucs job_id input_path)
        with (r := inr process); [reflexivity.. | exact Hrun].
  - intros demucs cmd out_root audio a proc f' Hrun Hcode.
    unfold Desktop.worker, finally, try_except, Desktop.attempt.
    rewrite (bind_run _ _ _ _ _ _ _ _ (desktop_popen_run _ _ _ _ _ Hrun)).
    rewrite (bind_run _ _ _ _ _ _ _ _ (desktop_stream_run _ _)).
    apply Z.eqb_neq in Hcode. rewrite Hcode. cbn.
    now rewrite <- !app_assoc.
Qed.

(* ------------------------------------------------------------------ *)
(** ** Classification failures *)
(* ------------------------------------------------------------------ *)

Lemma web_classify_run : forall (d : path) (w : Web.world),
  Web.classify d w =
    let w1 := {| Web.fs := Web.fs w; Web.trace := Web.trace w ++ [EListDir d] |} in
    match FS.listdir d (Web.fs w) with
    | inl e => (inl e, w1)
    | inr names =>
        match Web.pick d names with
        | (Some vocals, Some inst) => (inr (vocals, inst), w1)
        | _ => (inl Web.classify_error, w1)
        end
    end.
Proof.
  intros d w. unfold Web.classify, Web.listdir, Web.emit, Web.read, bind. cbn.
  destruct (FS.listdir d (Web.fs w)) as [e|names]; cbn; [reflexivity|].
  destruct (Web.pick d names) as [[v|] [i|]]; reflexivity.
Qed.

Lemma web_locate_keeps_fs : forall (out_root : path) (b : string) (w w' : Web.world)
                                   (r : exn + path),
  Web.locate out_root b w = (r, w') ->
  Web.fs w' = Web.fs w /\ Web.adds_no Spec.copy_event w w'.
Proof.
  intros out_root b w w' r H. rewrite web_locate_run in H. cbv zeta in H.
  destruct (FS.isdir _ (Web.fs w)).
  - injection H as _ <-. split; [reflexivity|]. eexists. split; reflexivity.
  - destruct (Web.search b _); injection H as _ <-;
      (split; [reflexivity|]); rewrite <- app_assoc; eexists; split; reflexivity.
Qed.

Lemma web_finish_classify_fails :
  forall (R : path) (job_id : string) (input_path : path) (process : ProcessResult)
         (w w2 : Web.world) (model_dir : path) (names : list string),
  returncode process = 0%Z ->
  Web.locate (Path.child (Path.child R job_id) "raw") (Path.stem input_path) w
    = (inr model_dir, w2) ->
  FS.listdir model_dir (Web.fs w) = inr names ->
  fst (Web.pick model_dir names) = None \/ snd (Web.pick model_dir names) = None ->
  Web.finish R job_id input_path process w =
    (inl Web.classify_error,
     {| Web.fs := Web.fs w;
        Web.trace :=
          Web.trace w2
          ++ [EPrint ("Located Demucs output folder: " ++ Path.str model_dir);
              EListDir model_dir] |}).
Proof.
  intros R job_id input_path process w w2 model_dir names Hcode Hloc Hls Hmiss.
  destruct (web_locate_keeps_fs _ _ _ _ _ Hloc) as [Hfs _].
  unfold Web.finish. rewrite Hcode. cbn [Z.eqb negb].
  rewrite (bind_run _ _ _ _ _ _ _ _ Hloc). unfold Web.print.
  unfold bind at 1. cbn [Web.emit].
  unfold bind. rewrite web_classify_run. cbv zeta. cbn [Web.fs Web.trace].
  rewrite Hfs, Hls.
  destruct (Web.pick model_dir names) as [[v|] [i|]]; cbn in Hmiss;
    try (destruct Hmiss; discriminate); now rewrite <- app_assoc.
Qed.

Lemma desktop_adds_no_refl : forall (Q : event -> bool) (a : Desktop.app),
  Desktop.adds_no Q a a.
Proof. intros Q a. exists []. now rewrite app_nil_r. Qed.

Lemma desktop_adds_no_trans : forall (Q : event -> bool) (a1 a2 a3 : Desktop.app),
  Desktop.adds_no Q a1 a2 -> Desktop.adds_no Q a2 a3 -> Desktop.adds_no Q a1 a3.
Proof.
  intros Q a1 a2 a3 [n1 [E1 H1]] [n2 [E2 H2]]. exists (n1 ++ n2). split.
  - now rewrite E2, E1, app_assoc.
  - now rewrite existsb_app, H1, H2.
Qed.

Lemma desktop_emit_adds_no : forall (Q : event -> bool) (e : event),
  Q e = false -> steps (Desktop.adds_no Q) (Desktop.emit e).
Proof.
  intros Q e He a r a' H. injection H as _ <-. exists [e]. cbn. now rewrite He.
Qed.

Lemma desktop_read_adds_no : forall (Q : event -> bool) (A : Type) (f : node -> A),
  steps (Desktop.adds_no Q) (Desktop.read f).
Proof. intros Q A f a r a' H. injection H as _ <-. apply desktop_adds_no_refl. Qed.

Lemma desktop_set_result_dir_adds_no : forall (Q : event -> bool) (d : option path),
  steps (Desktop.adds_no Q) (Desktop.set_result_dir d).
Proof.
  intros Q d a r a' H. injection H as _ <-. exists []. cbn. now rewrite app_nil_r.
Qed.

(** Locating the output and showing the result never opens the error
    dialog. *)
Lemma show_result_is_quiet : forall (out_root audio : path),
  steps (Desktop.adds_no Desktop.is_failure) (Desktop.show_result out_root audio).
Proof.
  intros out_root audio.
  unfold Desktop.show_result, Desktop.locate_output_dir, Desktop.isdir, Desktop.walk,
    Desktop.listdir, Desktop.append_log.
  repeat first
    [ apply steps_ret; apply desktop_adds_no_refl
    | apply steps_raise; apply desktop_adds_no_refl
    | apply desktop_read_adds_no
    | apply desktop_set_result_dir_adds_no
    | apply desktop_emit_adds_no; reflexivity
    | apply steps_bind; [apply desktop_adds_no_trans | | intro]
    | match goal with
      | |- steps _ (if ?b then _ else _) => destruct b
      | |- steps _ (match ?x with _ => _ end) => destruct x
      | |- steps _ (Desktop.log_if ?x _) => unfold Desktop.log_if, Desktop.append_log
      end ].
Qed.

Lemma isdir_listdir : forall (d : path) (f : node),
  FS.isdir d f = true -> exists names, FS.listdir d f = inr names.
Proof.
  intros d f H. unfold FS.isdir, FS.listdir in *.
  destruct (FS.lookup d f) as [[data|es]|]; try discriminate. eauto.
Qed.

Lemma listdir_isdir : forall (d : path) (f : node) (names : list string),
  FS.listdir d f = inr names -> FS.isdir d f = true.
Proof.
  intros d f names H. unfold FS.listdir, FS.isdir in *.
  destruct (FS.lookup d f) as [[data|es]|]; try discriminate. reflexivity.
Qed.

Lemma show_result_succeeds : forall (out_root audio : path) (a : Desktop.app),
  exists a', Desktop.show_result out_root audio a = (inr tt, a').
Proof.
  intros out_root audio a.
  assert (K : forall (od : option path) (a0 : Desktop.app), exists a',
    (Desktop.set_result_dir od ;;
     match od with
     | Some d =>
         is_d <- Desktop.isdir d ;;
         if is_d then
           names <- Desktop.listdir d ;;
           let '(vocals, instrumental) := Desktop.pick d names in
           Desktop.append_log (Str.nl ++ "=== Done ===" ++ Str.nl) ;;
           Desktop.log_if vocals "Vocals:       " ;;
           Desktop.log_if instrumental "Instrumental: " ;;
           Desktop.log_if od "Folder:       "
         else Desktop.append_log (Str.nl ++ "Could not find output folder." ++ Str.nl)
     | None => Desktop.append_log (Str.nl ++ "Could not find output folder." ++ Str.nl)
     end ;;
     Desktop.append_log
       (Str.nl ++ "Tip: Click 'Open Output Folder' to view your files." ++ Str.nl)) a0
    = (inr tt, a')).
  { intros [d|] a0.
    - destruct (FS.isdir d (Desktop.fs a0)) eqn:E.
      + destruct (isdir_listdir _ _ E) as [names Hn].
        unfold bind, Desktop.set_result_dir, Desktop.isdir, Desktop.listdir,
          Desktop.emit, Desktop.read, Desktop.append_log, ret.
        cbn. rewrite E. cbn. rewrite Hn.
        destruct (Desktop.pick d names) as [[v|] [i|]]; cbn; eexists; reflexivity.
      + unfold bind, Desktop.set_result_dir, Desktop.isdir, Desktop.emit,
          Desktop.read, Desktop.append_log.
        cbn. rewrite E. eexists; reflexivity.
    - eexists; reflexivity. }
  unfold Desktop.show_result. unfold bind at 1. rewrite desktop_locate_run. cbv zeta.
  destruct (FS.isdir _ (Desktop.fs a)); apply K.
Qed.

Lemma worker_is_quiet_after_zero_exit :
  forall (demucs : tool) (cmd : list string) (out_root audio : path)
         (a : Desktop.app) (proc : ProcessResult) (f' : node),
  demucs cmd (Desktop.fs a) = (inr proc, f') ->
  returncode proc = 0%Z ->
  exists a', Desktop.worker demucs cmd out_root audio a = (inr tt, a')
             /\ Desktop.adds_no Desktop.is_failure a a'.
Proof.
  intros demucs cmd out_root audio a proc f' Hrun Hcode.
  unfold Desktop.worker, finally, try_except, Desktop.attempt.
  rewrite (bind_run _ _ _ _ _ _ _ _ (desktop_popen_run _ _ _ _ _ Hrun)).
  rewrite (bind_run _ _ _ _ _ _ _ _ (desktop_stream_run _ _)).
  rewrite Hcode. cbn [Z.eqb negb Desktop.fs Desktop.trace Desktop.result_dir].
  match goal with |- context [Desktop.show_result _ _ ?s] =>
    destruct (show_result_succeeds out_root audio s) as [a1 H1];
    destruct (show_result_is_quiet out_root audio s _ _ H1) as [new [Htr Hq]]
  end.
  rewrite H1. cbn. eexists. split; [reflexivity|].
  exists ([ERun cmd] ++ map ELog (stdout proc) ++ new ++ [EButton true]). split.
  - cbn [Desktop.trace] in *. rewrite Htr. now rewrite <- !app_assoc.
  - assert (Hlog : forall l, existsb Desktop.is_failure (map ELog l) = false)
      by (induction l; auto).
    rewrite !existsb_app, Hlog, Hq. reflexivity.
Qed.

(** The run of [worker] after a zero exit status when the locator finds
    the directory [d] and [d] can be listed. *)
Lemma worker_run_with_located_directory :
  forall (demucs : tool) (cmd : list string) (out_root audio : path)
         (a : Desktop.app) (proc : ProcessResult) (f' : node)
         (d : path) (names : list string),
  demucs cmd (Desktop.fs a) = (inr proc, f') ->
  returncode proc = 0%Z ->
  (if FS.isdir (Path.child (Path.child out_root Desktop.MODEL) (Path.stem audio)) f'
   then Some (Path.child (Path.child out_root Desktop.MODEL) (Path.stem audio))
   else Desktop.first_named (Path.stem audio) (FS.walk out_root f')) = Some d ->
  FS.listdir d f' = inr names ->
  Desktop.worker demucs cmd out_root audio a =
    (inr tt,
     {| Desktop.fs := f';
        Desktop.trace :=
          Desktop.trace a
          ++ [ERun cmd] ++ map ELog (stdout proc)
          ++ [EIsDir (Path.child (Path.child out_root Desktop.MODEL) (Path.stem audio))]
          ++ (if FS.isdir (Path.child (Path.child out_root Desktop.MODEL)
                                      (Path.stem audio)) f'
              then [] else [EWalk out_root])
          ++ [EIsDir d; EListDir d; ELog (Str.nl ++ "=== Done ===" ++ Str.nl)]
          ++ match fst (Desktop.pick d names) with
             | Some v => [ELog ("Vocals:       " ++ Path.str v ++ Str.nl)]
             | None => []
             end
          ++ match snd (Desktop.pick d names) with
             | Some i => [ELog ("Instrumental: " ++ Path.str i ++ Str.nl)]
             | None => []
             end
          ++ [ELog ("Folder:       " ++ Path.str d ++ Str.nl);
              ELog (Str.nl ++ "Tip: Click 'Open Output Folder' to view your files."
                    ++ Str.nl);
              EButton true];
        Desktop.result_dir := Some d |}).
Proof.
  intros demucs cmd out_root audio a proc f' d names Hrun Hcode Hloc Hls.
  unfold Desktop.worker, finally, try_except, Desktop.attempt.
  rewrite (bind_run _ _ _ _ _ _ _ _ (desktop_popen_run _ _ _ _ _ Hrun)).
  rewrite (bind_run _ _ _ _ _ _ _ _ (desktop_stream_run _ _)).
  rewrite Hcode. cbn [Z.eqb negb].
  unfold Desktop.show_result. unfold bind at 1. rewrite desktop_locate_run.
  cbv zeta. cbn [Desktop.fs Desktop.trace Desktop.result_dir].
  destruct (FS.isdir (Path.child (Path.child out_root Desktop.MODEL) (Path.stem audio)) f')
    eqn:He; [injection Hloc as <- | rewrite Hloc];
    pose proof (listdir_isdir _ _ _ Hls) as Hd;
    unfold Desktop.set_result_dir, Desktop.isdir, Desktop.listdir,
      Desktop.append_log, Desktop.emit, Desktop.read, bind;
    cbn [Desktop.fs Desktop.trace Desktop.result_dir]; rewrite Hd;
    cbn [Desktop.fs Desktop.trace Desktop.result_dir]; rewrite Hls;
    unfold ret; cbn [Desktop.fs Desktop.trace Desktop.result_dir];
    destruct (Desktop.pick _ names) as [[v|] [i|]];
    cbn [Desktop.log_if Desktop.append_log Desktop.emit ret fst snd
         Desktop.fs Desktop.trace Desktop.result_dir Desktop.run_btn app];
    rewrite <- !app_assoc; reflexivity.
Qed.

(** C3, on the code. Web: when the tool has exited with 0, the output
    directory is located and its listing leaves the vocals or the
    instrumental category without a candidate, the job fails with the
    classification error (one message for both categories); for the
    listing [x_other.mp3] the instrumental candidate is found, the vocals
    candidate is missing, and that is such a failure. Desktop: a missing
    category is no failure. After a zero exit status the worker ends
    normally and the run opens no error dialog, whatever the tool left.
    When the locator finds a directory that can be listed, the worker logs
    "=== Done ===", then a line "Vocals:" exactly when a vocals candidate
    was found and a line "Instrumental:" exactly when an instrumental
    candidate was found, then the folder and the tip, and it enables the
    button again; for the listing [x_other.mp3] that is the instrumental
    line alone. *)
Theorem c3_missing_category_fails_web_job_only :
  (forall (R : path) (job_id : string) (input_path : path) (process : ProcessResult)
          (w w2 : Web.world) (model_dir : path) (names : list string),
     returncode process = 0%Z ->
     Web.locate (Path.child (Path.child R job_id) "raw") (Path.stem input_path) w
       = (inr model_dir, w2) ->
     FS.listdir model_dir (Web.fs w) = inr names ->
     fst (Web.pick model_dir names) = None \/ snd (Web.pick model_dir names) = None ->
     exists w',
       Web.finish R job_id input_path process w =
         (inl (RuntimeError "Could not find vocals/instrumental files."), w'))
  /\
  (forall d : path,
     Web.pick d ["x_other.mp3"] = (None, Some (Path.child d "x_other.mp3"))
     /\ Desktop.pick d ["x_other.mp3"] = (None, Some (Path.child d "x_other.mp3")))
  /\
  (forall (demucs : tool) (cmd : list string) (out_root audio : path)
          (a : Desktop.app) (proc : ProcessResult) (f' : node),
     demucs cmd (Desktop.fs a) = (inr proc, f') ->
     returncode proc = 0%Z ->
     exists a',
       Desktop.worker demucs cmd out_root audio a = (inr tt, a')
       /\ Desktop.adds_no Desktop.is_failure a a')
  /\
  (forall (demucs : tool) (cmd : list string) (out_root audio : path)
          (a : Desktop.app) (proc : ProcessResult) (f' : node)
          (d : path) (names : list string),
     demucs cmd (Desktop.fs a) = (inr proc, f') ->
     returncode proc = 0%Z ->
     (if FS.isdir (Path.child (Path.child out_root Desktop.MODEL) (Path.stem audio)) f'
      then Some (Path.child (Path.child out_root Desktop.MODEL) (Path.stem audio))
      else Desktop.first_named (Path.stem audio) (FS.walk out_root f')) = Some d ->
     FS.listdir d f' = inr names ->
     Desktop.worker demucs cmd out_root audio a =
       (inr tt,
        {| Desktop.fs := f';
           Desktop.trace :=
             Desktop.trace a
             ++ [ERun cmd] ++ map ELog (stdout proc)
             ++ [EIsDir (Path.child (Path.child out_root Desktop.MODEL) (Path.stem audio))]
             ++ (if FS.isdir (Path.child (Path.child out_root Desktop.MODEL)
                                         (Path.stem audio)) f'
                 then [] else [EWalk out_root])
             ++ [EIsDir d; EListDir d; ELog (Str.nl ++ "=== Done ===" ++ Str.nl)]
             ++ match fst (Desktop.pick d names) with
                | Some v => [ELog ("Vocals:       " ++ Path.str v ++ Str.nl)]
                | None => []
                end
             ++ match snd (Desktop.pick d names) with
                | Some i => [ELog ("Instrumental: " ++ Path.str i ++ Str.nl)]
                | None => []
                end
             ++ [ELog ("Folder:       " ++ Path.str d ++ Str.nl);
                 ELog (Str.nl ++ "Tip: Click 'Open Output Folder' to view your files."
                       ++ Str.nl);
                 EButton true];
           Desktop.result_dir := Some d |})).
Proof.
  split; [|split; [|split]].
  - intros R job_id input_path process w w2 model_dir names Hcode Hloc Hls Hmiss.
    eexists. eapply web_finish_classify_fails; eassumption.
  - intro d. split; reflexivity.
  - exact worker_is_quiet_after_zero_exit.
  - exact worker_run_with_located_directory.
Qed.

(** C3 as stated fails for the desktop front-end: with the single file
    [x_other.mp3] in the located directory there is no vocals candidate,
    and the job ends without a failure. *)
Lemma c3_desktop_job_succeeds_without_vocals :
  FS.listdir (Examples.home_root ++ ["htdemucs_ft"; "song"])
             (Examples.home_with Examples.only_other) = inr ["x_other.mp3"]
  /\ fst (Desktop.pick (Examples.home_root ++ ["htdemucs_ft"; "song"]) ["x_other.mp3"]) = None
  /\ fst (Desktop.worker (Examples.tool_exit 0)
            (Desktop.command Examples.home_root Examples.audio)
            Examples.home_root Examples.audio
            (Desktop.start (Examples.home_with Examples.only_other))) = inr tt
  /\ Desktop.failed
       (snd (Desktop.worker (Examples.tool_exit 0)
               (Desktop.command Examples.home_root Examples.audio)
               Examples.home_root Examples.audio
               (Desktop.start (Examples.home_with Examples.only_other)))) = false
  /\ Desktop.result_dir
       (snd (Desktop.worker (Examples.tool_exit 0)
               (Desktop.command Examples.home_root Examples.audio)
               Examples.home_root Examples.audio
               (Desktop.start (Examples.home_with Examples.only_other)))) =
     Some (Examples.home_root ++ ["htdemucs_ft"; "song"]).
Proof. vm_compute. repeat split. Qed.

(** C10. Web: when the tool has run and exited with 0, the output
    directory is located and its listing leaves the vocals or the
    instrumental category without a candidate, the job ends with the
    classification error in a file system that is the one the tool left:
    the job folder is unchanged, and from the start of the job to its end
    no copy was made. *)
Theorem c10_failed_classification_publishes_nothing :
  forall (R : path) (demucs : tool) (job_id : string) (input_path : path)
         (w w1 w2 : Web.world) (process : ProcessResult) (model_dir : path)
         (names : list string),
  Web.launch R demucs job_id input_path w = (inr process, w1) ->
  returncode process = 0%Z ->
  Web.locate (Path.child (Path.child R job_id) "raw") (Path.stem input_path) w1
    = (inr model_dir, w2) ->
  FS.listdir model_dir (Web.fs w1) = inr names ->
  fst (Web.pick model_dir names) = None \/ snd (Web.pick model_dir names) = None ->
  exists w',
    Web.run_demucs_debug R demucs job_id input_path w =
      (inl (RuntimeError "Could not find vocals/instrumental files."), w')
    /\ Web.fs w' = Web.fs w1
    /\ FS.lookup (Path.child R job_id) (Web.fs w') = FS.lookup (Path.child R job_id) (Web.fs w1)
    /\ Web.adds_no Spec.copy_event w w'.
Proof.
  intros R demucs job_id input_path w w1 w2 process model_dir names
         Hrun Hcode Hloc Hls Hmiss.
  eexists. split; [|split; [|split]].
  - unfold Web.run_demucs_debug. rewrite (bind_run _ _ _ _ _ _ _ _ Hrun).
    eapply web_finish_classify_fails; eassumption.
  - reflexivity.
  - reflexivity.
  - eapply web_adds_no_trans.
    + apply (launch_adds_no Spec.copy_event R demucs job_id input_path)
        with (r := inr process); [reflexivity.. | exact Hrun].
    + eapply web_adds_no_trans.
      * exact (proj2 (web_locate_keeps_fs _ _ _ _ _ Hloc)).
      * eexists. split; reflexivity.
Qed.

(* ------------------------------------------------------------------ *)
(** ** Result publisher *)
(* ------------------------------------------------------------------ *)

Lemma string_length_append : forall s1 s2 : string,
  String.length (s1 ++ s2)%string = String.length s1 + String.length s2.
Proof. induction s1 as [|c s1 IH]; intro s2; cbn; [reflexivity | now rewrite IH]. Qed.

Lemma string_append_cancel : forall s s1 s2 : string,
  (s ++ s1 = s ++ s2)%string -> s1 = s2.
Proof.
  induction s as [|c s IH]; intros s1 s2 H; cbn in H; [exact H|].
  injection H as H. now apply IH.
Qed.

(** The published names differ from each other and from [raw]. *)
Lemma published_names_distinct : forall base sv si : string,
  (base ++ "_vocals" ++ sv <> base ++ "_instrumental" ++ si)%string
  /\ (base ++ "_vocals" ++ sv)%string <> "raw"
  /\ (base ++ "_instrumental" ++ si)%string <> "raw".
Proof.
  intros base sv si. repeat split.
  - intro H. apply string_append_cancel in H. discriminate H.
  - intro H. apply (f_equal String.length) in H.
    rewrite !string_length_append in H. cbn in H. lia.
  - intro H. apply (f_equal String.length) in H.
    rewrite !string_length_append in H. cbn in H. lia.
Qed.

Lemma assoc_set_same : forall (k : string) (v : node) (es : list (string * node)),
  FS.assoc k (FS.set_entry k v es) = Some v.
Proof.
  intros k v es. induction es as [|[k' v'] es IH]; cbn.
  - now rewrite String.eqb_refl.
  - destruct (String.eqb k k') eqn:E; cbn.
    + now rewrite String.eqb_refl.
    + now rewrite E.
Qed.

Lemma assoc_set_other : forall (k k' : string) (v : node) (es : list (string * node)),
  k <> k' -> FS.assoc k' (FS.set_entry k v es) = FS.assoc k' es.
Proof.
  intros k k' v es Hne. induction es as [|[k0 v0] es IH]; cbn.
  - apply not_eq_sym in Hne. apply String.eqb_neq in Hne. now rewrite Hne.
  - destruct (String.eqb k k0) eqn:E; cbn.
    + apply String.eqb_eq in E. subst k0.
      apply not_eq_sym in Hne. apply String.eqb_neq in Hne. now rewrite Hne.
    + now rewrite IH.
Qed.

Lemma set_entry_same : forall (k : string) (v : node) (es : list (string * node)),
  FS.assoc k es = Some v -> FS.set_entry k v es = es.
Proof.
  intros k v es. induction es as [|[k' v'] es IH]; cbn; [discriminate|].
  destruct (String.eqb k k') eqn:E.
  - intro H. injection H as ->. apply String.eqb_eq in E. now subst.
  - intro H. now rewrite IH.
Qed.

(** What [put] gives, one component at a time. *)
Lemma put_cons : forall (k : string) (p : path) (new n n' : node),
  FS.put (k :: p) new n = Some n' ->
  exists es x, n = Dir es /\ n' = Dir (FS.set_entry k x es)
    /\ (p = [] /\ x = new
        \/ p <> [] /\ exists c, FS.assoc k es = Some c /\ FS.put p new c = Some x).
Proof.
  intros k p new n n' H. cbn in H. destruct n as [data|es]; [discriminate|].
  destruct p as [|k' p'].
  - injection H as <-. exists es, new. auto.
  - destruct (FS.assoc k es) as [c|] eqn:Ec; [|discriminate].
    destruct (FS.put (k' :: p') new c) as [c'|] eqn:Ep; [|discriminate].
    injection H as <-. exists es, c'. repeat split. right. split; [discriminate|].
    exists c. auto.
Qed.

Lemma lookup_put_same : forall (p : path) (new n n' : node),
  FS.put p new n = Some n' -> FS.lookup p n' = Some new.
Proof.
  induction p as [|k p IH]; intros new n n' H; [discriminate|].
  destruct (put_cons _ _ _ _ _ H) as [es [x [-> [-> [[-> ->]|[_ [c [Hc Hp]]]]]]]];
    cbn; rewrite assoc_set_same; [reflexivity | eapply IH; eassumption].
Qed.

(** Writing at a path leaves alone what lies on another branch. *)
Lemma lookup_put_diverge :
  forall (pre : path) (a b : string) (q r : path) (new n n' : node),
  FS.put (pre ++ a :: q) new n = Some n' ->
  a <> b ->
  FS.lookup (pre ++ b :: r) n' = FS.lookup (pre ++ b :: r) n.
Proof.
  induction pre as [|k pre IH]; intros a b q r new n n' H Hne.
  - cbn [app] in *. destruct (put_cons _ _ _ _ _ H) as [es [x [-> [-> _]]]].
    cbn. now rewrite assoc_set_other.
  - cbn [app] in *.
    destruct (put_cons _ _ _ _ _ H) as [es [x [-> [-> [[Hnil _]|[_ [c [Hc Hp]]]]]]]].
    + destruct pre; discriminate Hnil.
    + cbn. rewrite assoc_set_same, Hc. eapply IH; eassumption.
Qed.

Lemma put_same_id : forall (p : path) (new n : node),
  p <> [] -> FS.lookup p n = Some new -> FS.put p new n = Some n.
Proof.
  induction p as [|k p IH]; intros new n Hp H; [congruence|].
  cbn in H. destruct n as [data|es]; [discriminate|].
  destruct (FS.assoc k es) as [c|] eqn:Ec; [|discriminate].
  cbn. destruct p as [|k' p'].
  - cbn in H. injection H as ->. now rewrite set_entry_same.
  - rewrite Ec, (IH new c); [|discriminate|exact H]. now rewrite set_entry_same.
Qed.

(** Writing inside a directory keeps it a directory. *)
Lemma isdir_put_inside : forall (d : path) (c : string) (new n n' : node),
  FS.isdir d n = true ->
  FS.put (d ++ [c]) new n = Some n' ->
  FS.isdir d n' = true.
Proof.
  induction d as [|k d IH]; intros c new n n' Hd H; cbn [app] in H;
    destruct (put_cons _ _ _ _ _ H) as [es [x [-> [-> Hx]]]].
  - reflexivity.
  - destruct Hx as [[Hnil _]|[_ [c0 [Hc Hp]]]]; [destruct d; discriminate Hnil|].
    unfold FS.isdir in *. cbn in *. rewrite assoc_set_same. rewrite Hc in Hd.
    eapply IH; eassumption.
Qed.

(** A successful copy, spelled out. *)
Lemma copy2_inr : forall (src dst : path) (f f' : node),
  FS.copy2 src dst f = inr f' ->
  exists data,
    FS.lookup src f = Some (File data)
    /\ src <> (if FS.isdir dst f then Path.child dst (Path.name src) else dst)
    /\ FS.put (if FS.isdir dst f then Path.child dst (Path.name src) else dst)
              (File data) f = Some f'.
Proof.
  intros src dst f f' H. unfold FS.copy2 in H.
  set (dst' := if FS.isdir dst f then Path.child dst (Path.name src) else dst) in *.
  destruct (FS.lookup src f) as [n|]; [|discriminate].
  destruct (Path.eqb src dst') eqn:E; [discriminate|].
  destruct n as [data|es]; [|discriminate].
  destruct (FS.isdir dst' f); [discriminate|].
  destruct (FS.put dst' (File data) f) as [f1|] eqn:Ep; [|discriminate].
  injection H as <-. exists data. repeat split; [|exact Ep].
  intro Heq. apply path_eqb_true in Heq. congruence.
Qed.

(** A copy whose target already holds the data of the source changes
    nothing. *)
Lemma copy2_in_place : forall (src dst : path) (f : node) (data : string),
  FS.lookup src f = Some (File data) ->
  src <> (if FS.isdir dst f then Path.child dst (Path.name src) else dst) ->
  FS.lookup (if FS.isdir dst f then Path.child dst (Path.name src) else dst) f
    = Some (File data) ->
  FS.copy2 src dst f = inr f.
Proof.
  intros src dst f data Hsrc Hne Hdst. unfold FS.copy2.
  set (dst' := if FS.isdir dst f then Path.child dst (Path.name src) else dst) in *.
  rewrite Hsrc, (path_eqb_false _ _ Hne).
  unfold FS.isdir at 1. rewrite Hdst.
  rewrite put_same_id; [reflexivity | | exact Hdst].
  intro Hnil. rewrite Hnil in Hdst. cbn in Hdst. injection Hdst as ->.
  destruct src; [congruence | discriminate Hsrc].
Qed.

(** A copy onto the entry [c] of the job folder leaves alone what lies
    under its other entries. *)
Lemma copy2_frame : forall (J : path) (c c' : string) (src r : path) (f f' : node),
  FS.copy2 src (Path.child J c) f = inr f' ->
  c <> c' ->
  FS.lookup (J ++ c' :: r) f' = FS.lookup (J ++ c' :: r) f.
Proof.
  intros J c c' src r f f' H Hne.
  destruct (copy2_inr _ _ _ _ H) as [data [_ [_ Hput]]].
  destruct (FS.isdir (Path.child J c) f).
  - unfold Path.child in Hput. rewrite <- app_assoc in Hput. cbn [app] in Hput.
    eapply lookup_put_diverge; eassumption.
  - unfold Path.child in Hput. eapply lookup_put_diverge; eassumption.
Qed.

Lemma isdir_frame : forall (J : path) (c c' : string) (src r : path) (f f' : node),
  FS.copy2 src (Path.child J c) f = inr f' ->
  c <> c' ->
  FS.isdir (J ++ c' :: r) f' = FS.isdir (J ++ c' :: r) f.
Proof.
  intros. unfold FS.isdir. erewrite copy2_frame; eauto.
Qed.

(** After a copy from another entry of the job folder, the target holds
    the data of the source. *)
Lemma copy2_installs : forall (J : path) (c c' : string) (r : path) (f f' : node),
  FS.copy2 (J ++ c' :: r) (Path.child J c) f = inr f' ->
  c <> c' ->
  exists data,
    FS.lookup (J ++ c' :: r) f' = Some (File data)
    /\ FS.isdir (Path.child J c) f' = FS.isdir (Path.child J c) f
    /\ FS.lookup (if FS.isdir (Path.child J c) f
                  then Path.child (Path.child J c) (Path.name (J ++ c' :: r))
                  else Path.child J c) f' = Some (File data).
Proof.
  intros J c c' r f f' H Hne.
  destruct (copy2_inr _ _ _ _ H) as [data [Hsrc [_ Hput]]].
  exists data. split; [|split].
  - rewrite (copy2_frame _ _ _ _ _ _ _ H Hne). exact Hsrc.
  - destruct (FS.isdir (Path.child J c) f) eqn:E.
    + eapply isdir_put_inside; eassumption.
    + unfold FS.isdir. now rewrite (lookup_put_same _ _ _ _ Hput).
  - eapply lookup_put_same; eassumption.
Qed.

(** Copying again right after a successful copy changes nothing. *)
Lemma copy2_again : forall (J : path) (c c' : string) (r : path) (f f' : node),
  FS.copy2 (J ++ c' :: r) (Path.child J c) f = inr f' ->
  c <> c' ->
  FS.copy2 (J ++ c' :: r) (Path.child J c) f' = inr f'.
Proof.
  intros J c c' r f f' H Hne.
  destruct (copy2_inr _ _ _ _ H) as [_ [_ [Hneq _]]].
  destruct (copy2_installs _ _ _ _ _ _ H Hne) as [data [Hsrc [Hd Hdst]]].
  eapply copy2_in_place; rewrite ?Hd; eassumption.
Qed.

(** A copy that changes nothing still changes nothing after a copy onto
    another entry of the job folder. *)
Lemma copy2_in_place_frame :
  forall (J : path) (c c' c2 : string) (r src2 : path) (f f2 : node),
  FS.copy2 (J ++ c' :: r) (Path.child J c) f = inr f ->
  FS.copy2 src2 (Path.child J c2) f = inr f2 ->
  c <> c' -> c2 <> c' -> c2 <> c ->
  FS.copy2 (J ++ c' :: r) (Path.child J c) f2 = inr f2.
Proof.
  intros J c c' c2 r src2 f f2 H H2 Hne Hne2 Hne3.
  destruct (copy2_inr _ _ _ _ H) as [_ [_ [Hneq _]]].
  destruct (copy2_installs _ _ _ _ _ _ H Hne) as [data [Hsrc [_ Hdst]]].
  assert (Hd : FS.isdir (Path.child J c) f2 = FS.isdir (Path.child J c) f)
    by (unfold Path.child; eapply isdir_frame; eassumption).
  eapply copy2_in_place with (data := data); rewrite ?Hd.
  - rewrite (copy2_frame _ _ _ _ _ _ _ H2 Hne2). exact Hsrc.
  - exact Hneq.
  - destruct (FS.isdir (Path.child J c) f); unfold Path.child in *.
    + rewrite <- app_assoc in *. cbn [app] in *.
      rewrite (copy2_frame _ _ _ _ _ _ _ H2 Hne3). exact Hdst.
    + rewrite (copy2_frame _ _ _ _ _ _ _ H2 Hne3). exact Hdst.
Qed.

(** The outcome of the publisher and the file system it leaves. *)
Lemma publish_outcome :
  forall (J : path) (base : string) (vocals inst : path) (w : Web.world),
  (fst (Web.publish J base vocals inst w),
   Web.fs (snd (Web.publish J base vocals inst w))) =
  let vocals_out := Path.child J (base ++ "_vocals" ++ Path.suffix vocals) in
  let inst_out := Path.child J (base ++ "_instrumental" ++ Path.suffix inst) in
  match FS.copy2 vocals vocals_out (Web.fs w) with
  | inl e => (inl e, Web.fs w)
  | inr f1 =>
      match FS.copy2 inst inst_out f1 with
      | inl e => (inl e, f1)
      | inr f2 => (inr (vocals_out, inst_out), f2)
      end
  end.
Proof.
  intros J base vocals inst w.
  unfold Web.publish, Web.copy2, Web.print, Web.update, Web.emit, bind. cbn.
  destruct (FS.copy2 vocals _ (Web.fs w)) as [e|f1]; cbn; [reflexivity|].
  destruct (FS.copy2 inst _ f1) as [e|f2]; reflexivity.
Qed.

Lemma first_dir_named_in : forall (b : string) (items : list FS.walk_item) (q : path),
  Spec.first_dir_named b items = Some q ->
  exists root dirs files, In (root, dirs, files) items /\ q = Path.child root b.
Proof.
  intros b items q. induction items as [|[[root dirs] files] items IH]; cbn.
  - discriminate.
  - destruct (existsb (String.eqb b) dirs).
    + intro H. injection H as <-. exists root, dirs, files. auto.
    + intro H. destruct (IH H) as [r [ds [fls [Hin Hq]]]]. exists r, ds, fls. auto.
Qed.

(** What the web locator and classifier hand to the publisher lies below
    the output root. *)
Lemma classified_inputs_below_root :
  forall (out_root : path) (b : string) (w w1 w2 : Web.world)
         (model_dir vocals inst : path),
  Web.locate out_root b w = (inr model_dir, w1) ->
  Web.classify model_dir w1 = (inr (vocals, inst), w2) ->
  Spec.below out_root vocals /\ Spec.below out_root inst.
Proof.
  intros out_root b w w1 w2 model_dir vocals inst Hloc Hcls.
  assert (Hdir : Spec.below out_root model_dir).
  { rewrite web_locate_run in Hloc. cbv zeta in Hloc.
    destruct (FS.isdir _ (Web.fs w)).
    - injection Hloc as <- _. eapply below_trans; apply below_child.
    - destruct (Web.search b _) as [found|] eqn:Es; [|discriminate].
      injection Hloc as <- _. rewrite search_is_last_match in Es.
      destruct (first_dir_named_in _ _ _ Es) as [root [ds [fls [Hin ->]]]].
      apply in_rev in Hin. unfold FS.walk in Hin.
      destruct (FS.lookup out_root (Web.fs w)) as [n|]; [|destruct Hin].
      destruct (walk_tree_roots _ _ _ Hin) as [Heq|Hb]; cbn [fst] in *.
      + subst root. apply below_child.
      + eapply below_trans; [exact Hb | apply below_child]. }
  rewrite web_classify_run in Hcls. cbv zeta in Hcls.
  destruct (FS.listdir model_dir (Web.fs w1)) as [e|names]; [discriminate|].
  destruct (Web.pick model_dir names) as [[v|] [i|]] eqn:Ep; try discriminate.
  injection Hcls as <- <- _.
  destruct (pick_vocals_sound model_dir names v) as [fv [_ [-> _]]];
    [now rewrite Ep|].
  destruct (pick_inst_sound model_dir names i) as [fi [_ [-> _]]];
    [now rewrite Ep|].
  split; (eapply below_trans; [exact Hdir | apply below_child]).
Qed.

(** C8. For inputs below the job's [raw] folder (where the classifier finds
    them), publishing a second time gives the outcome of the first time:
    the same result, hence the same two destination paths, and the very
    same file system, so the same contents and no further entry. The two
    destinations are [<base>_vocals<ext>] and [<base>_instrumental<ext>] in
    the job folder, and they differ. *)
Theorem c8_publish_twice_is_publish_once :
  forall (J : path) (base : string) (vocals inst : path) (w : Web.world),
  Spec.below (Path.child J "raw") vocals ->
  Spec.below (Path.child J "raw") inst ->
  fst (Web.publish J base vocals inst (snd (Web.publish J base vocals inst w)))
    = fst (Web.publish J base vocals inst w)
  /\ Web.fs (snd (Web.publish J base vocals inst (snd (Web.publish J base vocals inst w))))
    = Web.fs (snd (Web.publish J base vocals inst w))
  /\ (forall vocals_out inst_out : path,
        fst (Web.publish J base vocals inst w) = inr (vocals_out, inst_out) ->
        vocals_out = Path.child J (base ++ "_vocals" ++ Path.suffix vocals)
        /\ inst_out = Path.child J (base ++ "_instrumental" ++ Path.suffix inst)
        /\ vocals_out <> inst_out).
Proof.
  intros J base vocals inst w [cv [rv Hv]] [ci [ri Hi]].
  unfold Path.child in Hv, Hi. rewrite <- app_assoc in Hv, Hi. cbn [app] in Hv, Hi.
  destruct (published_names_distinct base (Path.suffix vocals) (Path.suffix inst))
    as [Hxy [Hx Hy]].
  pose proof (publish_outcome J base vocals inst w) as Once.
  pose proof (publish_outcome J base vocals inst
                (snd (Web.publish J base vocals inst w))) as Twice.
  cbv zeta in Once, Twice.
  set (once := Web.publish J base vocals inst w) in *.
  set (twice := Web.publish J base vocals inst (snd once)) in *.
  set (X := (base ++ "_vocals" ++ Path.suffix vocals)%string) in *.
  set (Y := (base ++ "_instrumental" ++ Path.suffix inst)%string) in *.
  destruct (FS.copy2 vocals (Path.child J X) (Web.fs w)) as [e|f1] eqn:E1.
  - injection Once as Hr Hf. rewrite Hf, E1 in Twice. injection Twice as Hr2 Hf2.
    repeat split; try congruence.
  - assert (A1 : FS.copy2 vocals (Path.child J X) f1 = inr f1).
    { subst vocals. eapply copy2_again; eassumption. }
    destruct (FS.copy2 inst (Path.child J Y) f1) as [e|f2] eqn:E2.
    + injection Once as Hr Hf. rewrite Hf, A1, E2 in Twice. injection Twice as Hr2 Hf2.
      repeat split; try congruence.
    + assert (A2 : FS.copy2 vocals (Path.child J X) f2 = inr f2).
      { subst vocals. eapply copy2_in_place_frame; eauto. }
      assert (A3 : FS.copy2 inst (Path.child J Y) f2 = inr f2).
      { subst inst. eapply copy2_again; eassumption. }
      injection Once as Hr Hf. rewrite Hf, A2, A3 in Twice. injection Twice as Hr2 Hf2.
      split; [congruence | split; [congruence|]].
      intros vocals_out inst_out Hout. rewrite Hr in Hout. injection Hout as <- <-.
      repeat split. intro Heq.
      unfold Path.child in Heq. apply app_inv_head in Heq. congruence.
Qed.

(* ------------------------------------------------------------------ *)
(** ** The statements at sample jobs *)
(* ------------------------------------------------------------------ *)

(** The vocals candidate of [vocals.mp3, no_vocals.mp3]. *)
Lemma c1_witness :
  fst (Web.pick Examples.out_root ["vocals.mp3"; "no_vocals.mp3"])
    = Some (Path.child Examples.out_root "vocals.mp3")
  /\ exists fn, In fn ["vocals.mp3"; "no_vocals.mp3"]
       /\ Path.child Examples.out_root "vocals.mp3" = Path.child Examples.out_root fn
       /\ Str.contains "vocals" (Str.lower fn) = true
       /\ Str.startswith "no_" (Str.lower fn) = false.
Proof.
  split; [reflexivity|].
  apply (proj1 (proj2 c1_prefix_test_on_whole_name)
           Examples.out_root ["vocals.mp3"; "no_vocals.mp3"]).
  reflexivity.
Defined.

(** The usual layout, in both front-ends. *)
Lemma c5_witness :
  FS.isdir (Path.child (Path.child Examples.out_root Web.MODEL_NAME) "song")
           (Examples.server_with Examples.usual) = true
  /\ Web.locate Examples.out_root "song" (Web.start (Examples.server_with Examples.usual)) =
       (inr (Path.child (Path.child Examples.out_root Web.MODEL_NAME) "song"),
        {| Web.fs := Examples.server_with Examples.usual;
           Web.trace :=
             [EIsDir (Path.child (Path.child Examples.out_root Web.MODEL_NAME) "song")] |})
  /\ FS.isdir (Path.child (Path.child Examples.home_root Desktop.MODEL)
                          (Path.stem Examples.audio))
              (Examples.home_with Examples.usual) = true
  /\ Desktop.locate_output_dir Examples.home_root Desktop.MODEL Examples.audio
       (Desktop.start (Examples.home_with Examples.usual)) =
       (inr (Some (Path.child (Path.child Examples.home_root Desktop.MODEL)
                              (Path.stem Examples.audio))),
        {| Desktop.fs := Examples.home_with Examples.usual;
           Desktop.trace :=
             [EIsDir (Path.child (Path.child Examples.home_root Desktop.MODEL)
                                 (Path.stem Examples.audio))];
           Desktop.result_dir := None |}).
Proof.
  split; [reflexivity|]. split.
  - apply (proj1 c5_expected_directory_is_returned
             (Web.start (Examples.server_with Examples.usual)) Examples.out_root "song").
    reflexivity.
  - split; [reflexivity|].
    apply (proj2 c5_expected_directory_is_returned
             (Desktop.start (Examples.home_with Examples.usual))
             Examples.home_root Desktop.MODEL Examples.audio).
    reflexivity.
Defined.

(** The directory [song] written under [mdx] instead of [htdemucs_ft]. *)
Lemma c6_witness :
  FS.isdir (Path.child (Path.child Examples.out_root Web.MODEL_NAME) "song")
           (Examples.server_with Examples.moved) = false
  /\ FS.dir_named_under "song" Examples.out_root (Examples.server_with Examples.moved) = true
  /\ (exists found w',
        Web.locate Examples.out_root "song"
          (Web.start (Examples.server_with Examples.moved)) = (inr found, w')
        /\ Path.name found = "song")
  /\ (exists r a',
        Desktop.locate_output_dir Examples.home_root Desktop.MODEL Examples.audio
          (Desktop.start (Examples.home_with Examples.moved)) = (inr (Some r), a')
        /\ Path.name r = Path.stem Examples.audio).
Proof.
  split; [reflexivity|]. split; [reflexivity|]. split.
  - apply (proj1 c6_fallback_result_ends_in_base
             (Web.start (Examples.server_with Examples.moved)) Examples.out_root "song");
      reflexivity.
  - apply (proj2 c6_fallback_result_ends_in_base
             (Desktop.start (Examples.home_with Examples.moved))
             Examples.home_root Desktop.MODEL Examples.audio);
      reflexivity.
Defined.

(** No directory [song] anywhere. *)
Lemma c7_witness :
  FS.dir_named_under "song" Examples.out_root (Examples.server_with Examples.no_song) = false
  /\ fst (Web.locate Examples.out_root "song"
            (Web.start (Examples.server_with Examples.no_song)))
       = inl (RuntimeError "Could not locate Demucs output folder.")
  /\ (exists w',
        Web.finish Examples.RESULTS_DIR Examples.job_id Examples.upload
          {| returncode := 0; stdout := [] |}
          (Web.start (Examples.server_with Examples.no_song)) =
          (inl (RuntimeError "Could not locate Demucs output folder."), w')
        /\ Web.fs w' = Examples.server_with Examples.no_song)
  /\ fst (Desktop.locate_output_dir Examples.home_root Desktop.MODEL Examples.audio
            (Desktop.start (Examples.home_with Examples.no_song))) = inr None.
Proof.
  destruct c7_not_found_without_directory_named_base as [Hweb [Hjob Hnone]].
  split; [reflexivity|]. split; [|split].
  - rewrite (Hweb (Web.start (Examples.server_with Examples.no_song))
               Examples.out_root "song"); reflexivity.
  - apply (Hjob Examples.RESULTS_DIR Examples.job_id Examples.upload
             {| returncode := 0; stdout := [] |}
             (Web.start (Examples.server_with Examples.no_song))); reflexivity.
  - apply (Hnone (Desktop.start (Examples.home_with Examples.no_song))
             Examples.home_root Desktop.MODEL Examples.audio);
      [reflexivity | reflexivity | vm_compute; discriminate].
Defined.

(** A run that ends with exit status 2 (web) and 3 (desktop), the tool
    having written its usual output. *)
Lemma c4_witness :
  returncode {| returncode := 2;
                stdout := [("Separating track" ++ Str.nl)%string] |} <> 0%Z
  /\ fst (Web.run_demucs_debug Examples.RESULTS_DIR
            (Examples.tool_writing Examples.usual 2) Examples.job_id Examples.upload
            (Web.start Examples.server)) =
       inl (RuntimeError "Demucs error (exit code 2). See above output.")
  /\ fst (Desktop.worker (Examples.tool_exit 3)
            (Desktop.command Examples.home_root Examples.audio)
            Examples.home_root Examples.audio
            (Desktop.start (Examples.home_with Examples.usual))) = inr tt
  /\ Desktop.failed
       (snd (Desktop.worker (Examples.tool_exit 3)
               (Desktop.command Examples.home_root Examples.audio)
               Examples.home_root Examples.audio
               (Desktop.start (Examples.home_with Examples.usual)))) = true.
Proof.
  destruct c4_nonzero_exit_fails_the_job as [Hweb Hdesk].
  split; [discriminate|]. split; [|split].
  - destruct (Hweb Examples.RESULTS_DIR (Examples.tool_writing Examples.usual 2)
                Examples.job_id Examples.upload (Web.start Examples.server)
                (snd (Web.launch Examples.RESULTS_DIR
                        (Examples.tool_writing Examples.usual 2)
                        Examples.job_id Examples.upload (Web.start Examples.server)))
                {| returncode := 2;
                   stdout := [("Separating track" ++ Str.nl)%string] |})
      as [Hrun _].
    + vm_compute. reflexivity.
    + discriminate.
    + rewrite Hrun. reflexivity.
  - rewrite (Hdesk (Examples.tool_exit 3)
               (Desktop.command Examples.home_root Examples.audio)
               Examples.home_root Examples.audio
               (Desktop.start (Examples.home_with Examples.usual))
               {| returncode := 3; stdout := [("demucs: done" ++ Str.nl)%string] |}
               (Examples.home_with Examples.usual));
      [reflexivity | reflexivity | discriminate].
  - rewrite (Hdesk (Examples.tool_exit 3)
               (Desktop.command Examples.home_root Examples.audio)
               Examples.home_root Examples.audio
               (Desktop.start (Examples.home_with Examples.usual))
               {| returncode := 3; stdout := [("demucs: done" ++ Str.nl)%string] |}
               (Examples.home_with Examples.usual));
      [reflexivity | reflexivity | discriminate].
Defined.

(** The located directory holds [x_other.mp3] only. *)
Lemma c3_witness :
  FS.listdir (Path.child (Path.child Examples.out_root Web.MODEL_NAME) "song")
             (Examples.server_with Examples.only_other) = inr ["x_other.mp3"]
  /\ fst (Web.pick (Path.child (Path.child Examples.out_root Web.MODEL_NAME) "song")
                   ["x_other.mp3"]) = None
  /\ (exists w',
        Web.finish Examples.RESULTS_DIR Examples.job_id Examples.upload
          {| returncode := 0; stdout := [] |}
          (Web.start (Examples.server_with Examples.only_other)) =
          (inl (RuntimeError "Could not find vocals/instrumental files."), w'))
  /\ (exists a',
        Desktop.worker (Examples.tool_exit 0)
          (Desktop.command Examples.home_root Examples.audio)
          Examples.home_root Examples.audio
          (Desktop.start (Examples.home_with Examples.only_other)) = (inr tt, a')
        /\ Desktop.adds_no Desktop.is_failure
             (Desktop.start (Examples.home_with Examples.only_other)) a')
  /\ Desktop.worker (Examples.tool_exit 0)
       (Desktop.command Examples.home_root Examples.audio)
       Examples.home_root Examples.audio
       (Desktop.start (Examples.home_with Examples.only_other)) =
     (inr tt,
      {| Desktop.fs := Examples.home_with Examples.only_other;
         Desktop.trace :=
           [ERun (Desktop.command Examples.home_root Examples.audio);
            ELog ("demucs: done" ++ Str.nl);
            EIsDir (Examples.home_root ++ ["htdemucs_ft"; "song"]);
            EIsDir (Examples.home_root ++ ["htdemucs_ft"; "song"]);
            EListDir (Examples.home_root ++ ["htdemucs_ft"; "song"]);
            ELog (Str.nl ++ "=== Done ===" ++ Str.nl);
            ELog ("Instrumental: /home/separated/htdemucs_ft/song/x_other.mp3" ++ Str.nl);
            ELog ("Folder:       /home/separated/htdemucs_ft/song" ++ Str.nl);
            ELog (Str.nl ++ "Tip: Click 'Open Output Folder' to view your files."
                  ++ Str.nl);
            EButton true];
         Desktop.result_dir := Some (Examples.home_root ++ ["htdemucs_ft"; "song"]) |}).
Proof.
  destruct c3_missing_category_fails_web_job_only as [Hweb [_ [Hquiet Hrun]]].
  split; [reflexivity|]. split; [reflexivity|]. split; [|split].
  - apply (Hweb Examples.RESULTS_DIR Examples.job_id Examples.upload
             {| returncode := 0; stdout := [] |}
             (Web.start (Examples.server_with Examples.only_other))
             (snd (Web.locate Examples.out_root "song"
                     (Web.start (Examples.server_with Examples.only_other))))
             (Path.child (Path.child Examples.out_root Web.MODEL_NAME) "song")
             ["x_other.mp3"]).
    + reflexivity.
    + vm_compute. reflexivity.
    + reflexivity.
    + left. reflexivity.
  - apply (Hquiet (Examples.tool_exit 0)
             (Desktop.command Examples.home_root Examples.audio)
             Examples.home_root Examples.audio
             (Desktop.start (Examples.home_with Examples.only_other))
             {| returncode := 0; stdout := [("demucs: done" ++ Str.nl)%string] |}
             (Examples.home_with Examples.only_other)); reflexivity.
  - rewrite (Hrun (Examples.tool_exit 0)
               (Desktop.command Examples.home_root Examples.audio)
               Examples.home_root Examples.audio
               (Desktop.start (Examples.home_with Examples.only_other))
               {| returncode := 0; stdout := [("demucs: done" ++ Str.nl)%string] |}
               (Examples.home_with Examples.only_other)
               (Examples.home_root ++ ["htdemucs_ft"; "song"]) ["x_other.mp3"]
               eq_refl eq_refl eq_refl eq_refl).
    reflexivity.
Defined.

(** A job whose tool writes [x_other.mp3] only and exits with 0. *)
Lemma c10_witness :
  exists w',
    Web.run_demucs_debug Examples.RESULTS_DIR (Examples.tool_writing Examples.only_other 0)
      Examples.job_id Examples.upload (Web.start Examples.server) =
      (inl (RuntimeError "Could not find vocals/instrumental files."), w')
    /\ Web.fs w' = Examples.server_with Examples.only_other
    /\ FS.lookup (Path.child Examples.RESULTS_DIR Examples.job_id) (Web.fs w') =
       FS.lookup (Path.child Examples.RESULTS_DIR Examples.job_id)
                 (Examples.server_with Examples.only_other)
    /\ Web.adds_no Spec.copy_event (Web.start Examples.server) w'.
Proof.
  apply (c10_failed_classification_publishes_nothing
           Examples.RESULTS_DIR (Examples.tool_writing Examples.only_other 0)
           Examples.job_id Examples.upload (Web.start Examples.server)
           (snd (Web.launch Examples.RESULTS_DIR
                   (Examples.tool_writing Examples.only_other 0)
                   Examples.job_id Examples.upload (Web.start Examples.server)))
           (snd (Web.locate Examples.out_root "song"
                   (snd (Web.launch Examples.RESULTS_DIR
                           (Examples.tool_writing Examples.only_other 0)
                           Examples.job_id Examples.upload (Web.start Examples.server)))))
           {| returncode := 0; stdout := [("Separating track" ++ Str.nl)%string] |}
           (Path.child (Path.child Examples.out_root Web.MODEL_NAME) "song")
           ["x_other.mp3"]).
  - vm_compute. reflexivity.
  - reflexivity.
  - vm_compute. reflexivity.
  - reflexivity.
  - left. reflexivity.
Defined.

(** Publishing the usual stems of [song] twice. *)
Lemma c8_witness :
  Spec.below (Path.child Examples.job_dir "raw")
             (Examples.out_root ++ ["htdemucs_ft"; "song"; "vocals.mp3"])
  /\ Spec.below (Path.child Examples.job_dir "raw")
                (Examples.out_root ++ ["htdemucs_ft"; "song"; "no_vocals.mp3"])
  /\ fst (Web.publish Examples.job_dir "song"
            (Examples.out_root ++ ["htdemucs_ft"; "song"; "vocals.mp3"])
            (Examples.out_root ++ ["htdemucs_ft"; "song"; "no_vocals.mp3"])
            (Web.start (Examples.server_with Examples.usual))) =
       inr (Examples.job_dir ++ ["song_vocals.mp3"],
            Examples.job_dir ++ ["song_instrumental.mp3"])
  /\ Web.fs (snd (Web.publish Examples.job_dir "song"
                    (Examples.out_root ++ ["htdemucs_ft"; "song"; "vocals.mp3"])
                    (Examples.out_root ++ ["htdemucs_ft"; "song"; "no_vocals.mp3"])
                    (snd (Web.publish Examples.job_dir "song"
                            (Examples.out_root ++ ["htdemucs_ft"; "song"; "vocals.mp3"])
                            (Examples.out_root ++ ["htdemucs_ft"; "song"; "no_vocals.mp3"])
                            (Web.start (Examples.server_with Examples.usual)))))) =
     Web.fs (snd (Web.publish Examples.job_dir "song"
                    (Examples.out_root ++ ["htdemucs_ft"; "song"; "vocals.mp3"])
                    (Examples.out_root ++ ["htdemucs_ft"; "song"; "no_vocals.mp3"])
                    (Web.start (Examples.server_with Examples.usual)))).
Proof.
  assert (Hv : Spec.below (Path.child Examples.job_dir "raw")
                 (Examples.out_root ++ ["htdemucs_ft"; "song"; "vocals.mp3"]))
    by (exists "htdemucs_ft", ["song"; "vocals.mp3"]; reflexivity).
  assert (Hi : Spec.below (Path.child Examples.job_dir "raw")
                 (Examples.out_root ++ ["htdemucs_ft"; "song"; "no_vocals.mp3"]))
    by (exists "htdemucs_ft", ["song"; "no_vocals.mp3"]; reflexivity).
  split; [exact Hv|]. split; [exact Hi|]. split; [reflexivity|].
  exact (proj1 (proj2 (c8_publish_twice_is_publish_once
                         Examples.job_dir "song" _ _
                         (Web.start (Examples.server_with Examples.usual)) Hv Hi))).
Defined.

(* ------------------------------------------------------------------ *)
(** ** Further properties: the stem classifier *)
(* ------------------------------------------------------------------ *)

(** X1. In both front-ends each candidate is the last listed name that passes
    the test of its category, and there is none exactly when no listed
    name passes it. *)
Theorem pick_is_last_match : forall (d : path) (names : list string),
  Web.pick d names =
    (option_map (Path.child d)
       (find (fun fn => is_vocals (Str.lower fn)) (rev names)),
     option_map (Path.child d)
       (find (fun fn => is_instrumental (Str.lower fn)) (rev names)))
  /\ Desktop.pick d names = Web.pick d names.
Proof.
  intros d names. split; [|reflexivity].
  induction names as [|fn names IH] using rev_ind.
  - reflexivity.
  - rewrite pick_snoc, IH, rev_app_distr. unfold Web.pick_step. cbn.
    destruct (is_vocals (Str.lower fn)), (is_instrumental (Str.lower fn)); reflexivity.
Qed.

(* ------------------------------------------------------------------ *)
(** ** Further properties: the output locator *)
(* ------------------------------------------------------------------ *)

Lemma first_named_in : forall (b : string) (items : list FS.walk_item) (r : path),
  Desktop.first_named b items = Some r ->
  Path.name r = b /\ exists dirs files, In (r, dirs, files) items.
Proof.
  intros b items r.
  induction items as [|[[root dirs] files] items IH]; cbn [Desktop.first_named].
  - discriminate.
  - destruct (String.eqb (Path.name root) b) eqn:E.
    + intro H. injection H as <-. split; [now apply String.eqb_eq|].
      exists dirs, files. now left.
    + intro H. destruct (IH H) as [Hn [ds [fls Hin]]]. split; [exact Hn|].
      exists ds, fls. now right.
Qed.

Lemma web_located_below :
  forall (out_root : path) (b : string) (w w' : Web.world) (model_dir : path),
  Web.locate out_root b w = (inr model_dir, w') ->
  Path.name model_dir = b /\ Spec.below out_root model_dir.
Proof.
  intros out_root b w w' model_dir H. rewrite web_locate_run in H. cbv zeta in H.
  destruct (FS.isdir _ (Web.fs w)).
  - injection H as <- _. split; [apply name_child|].
    eapply below_trans; apply below_child.
  - destruct (Web.search b _) as [found|] eqn:Es; [|discriminate].
    injection H as <- _. rewrite search_is_last_match in Es.
    destruct (first_dir_named_in _ _ _ Es) as [root [ds [fls [Hin ->]]]].
    split; [apply name_child|].
    apply in_rev in Hin. unfold FS.walk in Hin.
    destruct (FS.lookup out_root (Web.fs w)) as [n|]; [|destruct Hin].
    destruct (walk_tree_roots _ _ _ Hin) as [Heq|Hb]; cbn [fst] in *.
    + subst root. apply below_child.
    + eapply below_trans; [exact Hb | apply below_child].
Qed.

Lemma web_classified_children :
  forall (model_dir : path) (w w' : Web.world) (vocals inst : path),
  Web.classify model_dir w = (inr (vocals, inst), w') ->
  Spec.below model_dir vocals /\ Spec.below model_dir inst.
Proof.
  intros model_dir w w' vocals inst Hcls.
  rewrite web_classify_run in Hcls. cbv zeta in Hcls.
  destruct (FS.listdir model_dir (Web.fs w)) as [e|names]; [discriminate|].
  destruct (Web.pick model_dir names) as [[v|] [i|]] eqn:Ep; try discriminate.
  injection Hcls as <- <- _.
  destruct (pick_vocals_sound model_dir names v) as [fv [_ [-> _]]];
    [now rewrite Ep|].
  destruct (pick_inst_sound model_dir names i) as [fi [_ [-> _]]];
    [now rewrite Ep|].
  split; apply below_child.
Qed.

(** X2. Whatever directory a locator returns is called like the base name of
    the input and lies inside the output root: below it for the web
    front-end, below it or the root itself for the desktop front-end. *)
Theorem located_directory_is_inside_the_root :
  (forall (out_root : path) (b : string) (w w' : Web.world) (model_dir : path),
     Web.locate out_root b w = (inr model_dir, w') ->
     Path.name model_dir = b /\ Spec.below out_root model_dir)
  /\
  (forall (out_root : path) (m : string) (audio : path) (a a' : Desktop.app) (r : path),
     Desktop.locate_output_dir out_root m audio a = (inr (Some r), a') ->
     Path.name r = Path.stem audio /\ (r = out_root \/ Spec.below out_root r)).
Proof.
  split; [exact web_located_below|].
  intros out_root m audio a a' r H. rewrite desktop_locate_run in H. cbv zeta in H.
  destruct (FS.isdir _ (Desktop.fs a)).
  - injection H as <- _. split; [apply name_child|]. right.
    eapply below_trans; apply below_child.
  - injection H as H _. destruct (first_named_in _ _ _ H) as [Hn [ds [fls Hin]]].
    split; [exact Hn|]. unfold FS.walk in Hin.
    destruct (FS.lookup out_root (Desktop.fs a)) as [n|]; [|destruct Hin].
    destruct (walk_tree_roots _ _ _ Hin) as [Heq|Hb]; cbn [fst] in *; auto.
Qed.

(* ------------------------------------------------------------------ *)
(** ** Further properties: the desktop worker *)
(* ------------------------------------------------------------------ *)

Lemma bind_raise : forall (S A B : Type) (m : M S A) (k : A -> M S B) (s s' : S) (e : exn),
  m s = (inl e, s') -> bind m k s = (inl e, s').
Proof. intros S A B m k s s' e H. unfold bind. now rewrite H. Qed.

Section DesktopSteps.

Variable R : Desktop.app -> Desktop.app -> Prop.
Hypothesis R_refl : forall a, R a a.
Hypothesis R_trans : forall a1 a2 a3, R a1 a2 -> R a2 a3 -> R a1 a3.
Hypothesis R_emit : forall a e,
  R a {| Desktop.fs := Desktop.fs a; Desktop.trace := Desktop.trace a ++ [e];
         Desktop.result_dir := Desktop.result_dir a |}.

Lemma desktop_emit_steps : forall e : event, steps R (Desktop.emit e).
Proof using R_emit. intros e a r a' H. injection H as _ <-. apply R_emit. Qed.

Lemma desktop_read_steps : forall (A : Type) (f : node -> A), steps R (Desktop.read f).
Proof using R_refl. intros A f a r a' H. injection H as _ <-. apply R_refl. Qed.

Lemma desktop_isdir_steps : forall p : path, steps R (Desktop.isdir p).
Proof using R_refl R_trans R_emit.
  intro p. unfold Desktop.isdir.
  apply steps_bind; [exact R_trans | apply desktop_emit_steps |].
  intros _. apply desktop_read_steps.
Qed.

Lemma desktop_listdir_steps : forall p : path, steps R (Desktop.listdir p).
Proof using R_refl R_trans R_emit.
  intro p. unfold Desktop.listdir.
  apply steps_bind; [exact R_trans | apply desktop_emit_steps |]. intros _.
  apply steps_bind; [exact R_trans | apply desktop_read_steps |].
  intros [e|names]; [apply steps_raise | apply steps_ret]; exact R_refl.
Qed.

Lemma desktop_log_if_steps : forall (x : option path) (label : string),
  steps R (Desktop.log_if x label).
Proof using R_refl R_emit.
  intros [p|] label; cbn [Desktop.log_if].
  - apply desktop_emit_steps.
  - apply steps_ret. exact R_refl.
Qed.

Lemma desktop_locate_steps : forall (out_root : path) (m : string) (audio : path),
  steps R (Desktop.locate_output_dir out_root m audio).
Proof using R_refl R_trans R_emit.
  intros out_root m audio. unfold Desktop.locate_output_dir.
  apply steps_bind; [exact R_trans | apply desktop_isdir_steps |].
  intros [|]; [apply steps_ret; exact R_refl|].
  apply steps_bind; [exact R_trans | | intro; apply steps_ret; exact R_refl].
  unfold Desktop.walk.
  apply steps_bind; [exact R_trans | apply desktop_emit_steps |].
  intros _. apply desktop_read_steps.
Qed.

(** Lines 125-143: what follows the assignment of [result_dir]. *)
Lemma desktop_show_steps : forall (out_dir : option path),
  steps R
    (match out_dir with
     | Some d =>
         is_d <- Desktop.isdir d ;;
         if is_d then
           names <- Desktop.listdir d ;;
           let '(vocals, instrumental) := Desktop.pick d names in
           Desktop.append_log (Str.nl ++ "=== Done ===" ++ Str.nl) ;;
           Desktop.log_if vocals "Vocals:       " ;;
           Desktop.log_if instrumental "Instrumental: " ;;
           Desktop.log_if out_dir "Folder:       "
         else Desktop.append_log (Str.nl ++ "Could not find output folder." ++ Str.nl)
     | None => Desktop.append_log (Str.nl ++ "Could not find output folder." ++ Str.nl)
     end ;;
     Desktop.append_log
       (Str.nl ++ "Tip: Click 'Open Output Folder' to view your files." ++ Str.nl)).
Proof using R_refl R_trans R_emit.
  intro out_dir. unfold Desktop.append_log.
  apply steps_bind; [exact R_trans | | intro; apply desktop_emit_steps].
  destruct out_dir as [d|]; [|apply desktop_emit_steps].
  apply steps_bind; [exact R_trans | apply desktop_isdir_steps |].
  intros [|]; [|apply desktop_emit_steps].
  apply steps_bind; [exact R_trans | apply desktop_listdir_steps |].
  intro names. destruct (Desktop.pick d names) as [vocals instrumental].
  repeat first
    [ apply desktop_emit_steps
    | apply desktop_log_if_steps
    | apply steps_bind; [exact R_trans | | intro] ].
Qed.

End DesktopSteps.

Lemma desktop_show_result_keeps_fs :
  forall (out_root audio : path) (a a' : Desktop.app) (r : exn + unit),
  Desktop.show_result out_root audio a = (r, a') -> Desktop.fs a' = Desktop.fs a.
Proof.
  intros out_root audio a a' r H.
  refine (steps_bind (fun a a' => Desktop.fs a' = Desktop.fs a) _ _ _ _ _ _ _ a r a' H).
  - intros a1 a2 a3 H1 H2. now rewrite H2.
  - apply desktop_locate_steps; [reflexivity | intros a1 a2 a3 H1 H2; now rewrite H2
                                 | reflexivity].
  - intro od. apply steps_bind.
    + intros a1 a2 a3 H1 H2. now rewrite H2.
    + intros s r0 s' Hs. now injection Hs as _ <-.
    + intros _. apply desktop_show_steps;
        [reflexivity | intros a1 a2 a3 H1 H2; now rewrite H2 | reflexivity].
Qed.

Lemma desktop_attempt_keeps_tool_output :
  forall (demucs : tool) (cmd : list string) (out_root audio : path)
         (a a0 : Desktop.app) (r : exn + ProcessResult) (r0 : exn + unit) (f' : node),
  demucs cmd (Desktop.fs a) = (r, f') ->
  Desktop.attempt demucs cmd out_root audio a = (r0, a0) ->
  Desktop.fs a0 = f'.
Proof.
  intros demucs cmd out_root audio a a0 r r0 f' Hrun H.
  unfold Desktop.attempt in H.
  pose proof (desktop_popen_run _ _ _ _ _ Hrun) as Hp.
  destruct r as [e|proc].
  - rewrite (bind_raise _ _ _ _ _ _ _ _ Hp) in H. now injection H as _ <-.
  - rewrite (bind_run _ _ _ _ _ _ _ _ Hp) in H.
    rewrite (bind_run _ _ _ _ _ _ _ _ (desktop_stream_run _ _)) in H.
    destruct (negb (returncode proc =? 0)%Z).
    + now injection H as _ <-.
    + apply desktop_show_result_keeps_fs in H. exact H.
Qed.

Lemma desktop_worker_fs :
  forall (demucs : tool) (cmd : list string) (out_root audio : path)
         (a : Desktop.app) (r : exn + ProcessResult) (f' : node),
  demucs cmd (Desktop.fs a) = (r, f') ->
  Desktop.fs (snd (Desktop.worker demucs cmd out_root audio a)) = f'.
Proof.
  intros demucs cmd out_root audio a r f' Hrun.
  unfold Desktop.worker, finally, try_except.
  destruct (Desktop.attempt demucs cmd out_root audio a) as [[e|u] a0] eqn:E;
    cbn; eapply desktop_attempt_keeps_tool_output; eassumption.
Qed.

(** X3. The desktop front-end leaves the files where the tool wrote them:
    whatever the outcome of a run, the file system after [worker] is the
    one the tool left. *)
Theorem desktop_worker_leaves_files_in_place :
  forall (demucs : tool) (cmd : list string) (out_root audio : path)
         (a : Desktop.app) (r : exn + ProcessResult) (f' : node),
  demucs cmd (Desktop.fs a) = (r, f') ->
  Desktop.fs (snd (Desktop.worker demucs cmd out_root audio a)) = f'.
Proof. exact desktop_worker_fs. Qed.

Lemma desktop_attempt_is_quiet :
  forall (demucs : tool) (cmd : list string) (out_root audio : path),
  steps (Desktop.adds_no Desktop.is_failure) (Desktop.attempt demucs cmd out_root audio).
Proof.
  intros demucs cmd out_root audio. unfold Desktop.attempt.
  apply steps_bind; [apply desktop_adds_no_trans | |].
  - intros a r a' H. destruct (demucs cmd (Desktop.fs a)) as [r0 f'] eqn:E.
    rewrite (desktop_popen_run _ _ _ _ _ E) in H. injection H as _ <-.
    exists [ERun cmd]. split; reflexivity.
  - intro proc. apply steps_bind; [apply desktop_adds_no_trans | |].
    + intros a r a' H. rewrite desktop_stream_run in H. injection H as _ <-.
      exists (map ELog (stdout proc)). split; [reflexivity|].
      induction (stdout proc); auto.
    + intros _. destruct (negb (returncode proc =? 0)%Z).
      * apply steps_raise. apply desktop_adds_no_refl.
      * apply show_result_is_quiet.
Qed.

(** X4. No exception leaves [worker], and it always ends by enabling the
    start button again, from whatever state it starts. The body of the
    [try] opens no error dialog itself. When it ends normally nothing is
    added but the button. When it raises [e], for whatever reason, one
    text is logged after "[ERROR]" and then shown, once, in the dialog
    "Separation failed"; for a [RuntimeError] that text is its message. *)
Theorem desktop_worker_reports_every_exception :
  forall (demucs : tool) (cmd : list string) (out_root audio : path) (a : Desktop.app),
  match Desktop.attempt demucs cmd out_root audio a with
  | (inr _, a0) =>
      Desktop.worker demucs cmd out_root audio a =
        (inr tt,
         {| Desktop.fs := Desktop.fs a0;
            Desktop.trace := Desktop.trace a0 ++ [EButton true];
            Desktop.result_dir := Desktop.result_dir a0 |})
      /\ Desktop.adds_no Desktop.is_failure a a0
  | (inl e, a0) =>
      (exists text : string,
         Desktop.worker demucs cmd out_root audio a =
           (inr tt,
            {| Desktop.fs := Desktop.fs a0;
               Desktop.trace :=
                 Desktop.trace a0
                 ++ [ELog (Str.nl ++ "[ERROR] " ++ text ++ Str.nl);
                     EShowError "Separation failed" text;
                     EButton true];
               Desktop.result_dir := Desktop.result_dir a0 |})
         /\ (forall msg : string, e = RuntimeError msg -> text = msg))
      /\ Desktop.adds_no Desktop.is_failure a a0
  end.
Proof.
  intros demucs cmd out_root audio a.
  unfold Desktop.worker, finally, try_except.
  destruct (Desktop.attempt demucs cmd out_root audio a) as [[e|[]] a0] eqn:E;
    pose proof (desktop_attempt_is_quiet _ _ _ _ _ _ _ E) as Hq.
  - split; [|exact Hq]. exists (exn_str e). split.
    + unfold Desktop.report, Desktop.append_log, Desktop.showerror, Desktop.run_btn,
        Desktop.emit, bind.
      cbn [Desktop.fs Desktop.trace Desktop.result_dir fst snd].
      now rewrite <- !app_assoc.
    + intros msg ->. reflexivity.
  - split; [reflexivity | exact Hq].
Qed.

Lemma desktop_show_result_sets_result_dir :
  forall (out_root audio : path) (a a' : Desktop.app) (r : exn + unit),
  Desktop.show_result out_root audio a = (r, a') ->
  Desktop.result_dir a' =
    (if FS.isdir (Path.child (Path.child out_root Desktop.MODEL) (Path.stem audio))
                 (Desktop.fs a)
     then Some (Path.child (Path.child out_root Desktop.MODEL) (Path.stem audio))
     else Desktop.first_named (Path.stem audio) (FS.walk out_root (Desktop.fs a))).
Proof.
  intros out_root audio a a' r H. unfold Desktop.show_result in H.
  unfold bind at 1 in H. rewrite desktop_locate_run in H. cbv zeta in H.
  set (od := if FS.isdir _ (Desktop.fs a) then Some _ else Desktop.first_named _ _).
  assert (K : forall a3, Desktop.fs a3 = Desktop.fs a ->
    (Desktop.set_result_dir od ;;
     match od with
     | Some d =>
         is_d <- Desktop.isdir d ;;
         if is_d then
           names <- Desktop.listdir d ;;
           let '(vocals, instrumental) := Desktop.pick d names in
           Desktop.append_log (Str.nl ++ "=== Done ===" ++ Str.nl) ;;
           Desktop.log_if vocals "Vocals:       " ;;
           Desktop.log_if instrumental "Instrumental: " ;;
           Desktop.log_if od "Folder:       "
         else Desktop.append_log (Str.nl ++ "Could not find output folder." ++ Str.nl)
     | None => Desktop.append_log (Str.nl ++ "Could not find output folder." ++ Str.nl)
     end ;;
     Desktop.append_log
       (Str.nl ++ "Tip: Click 'Open Output Folder' to view your files." ++ Str.nl)) a3
    = (r, a') -> Desktop.result_dir a' = od).
  { intros a3 _ Hk. unfold bind at 1 in Hk. cbn [Desktop.set_result_dir] in Hk.
    apply (desktop_show_steps (fun x y => Desktop.result_dir y = Desktop.result_dir x))
      in Hk; [exact Hk | reflexivity | intros a1 a2 a4 H1 H2; now rewrite H2 | reflexivity]. }
  subst od. destruct (FS.isdir _ (Desktop.fs a)); eapply K; try exact H; reflexivity.
Qed.

Lemma desktop_result_dir_unstarted :
  forall (demucs : tool) (cmd : list string) (out_root audio : path)
         (a : Desktop.app) (e : exn) (f' : node),
  demucs cmd (Desktop.fs a) = (inl e, f') ->
  Desktop.result_dir (snd (Desktop.worker demucs cmd out_root audio a)) =
    Desktop.result_dir a.
Proof.
  intros demucs cmd out_root audio a e f' Hrun.
  unfold Desktop.worker, finally, try_except, Desktop.attempt.
  rewrite (bind_raise _ _ _ _ _ _ _ _ (desktop_popen_run _ _ _ _ _ Hrun)).
  reflexivity.
Qed.

Lemma desktop_result_dir_nonzero :
  forall (demucs : tool) (cmd : list string) (out_root audio : path)
         (a : Desktop.app) (proc : ProcessResult) (f' : node),
  demucs cmd (Desktop.fs a) = (inr proc, f') ->
  returncode proc <> 0%Z ->
  Desktop.result_dir (snd (Desktop.worker demucs cmd out_root audio a)) =
    Desktop.result_dir a.
Proof.
  intros demucs cmd out_root audio a proc f' Hrun Hcode.
  unfold Desktop.worker, finally, try_except, Desktop.attempt.
  rewrite (bind_run _ _ _ _ _ _ _ _ (desktop_popen_run _ _ _ _ _ Hrun)).
  rewrite (bind_run _ _ _ _ _ _ _ _ (desktop_stream_run _ _)).
  apply Z.eqb_neq in Hcode. rewrite Hcode. reflexivity.
Qed.

Lemma desktop_result_dir_zero :
  forall (demucs : tool) (cmd : list string) (out_root audio : path)
         (a : Desktop.app) (proc : ProcessResult) (f' : node),
  demucs cmd (Desktop.fs a) = (inr proc, f') ->
  returncode proc = 0%Z ->
  Desktop.result_dir (snd (Desktop.worker demucs cmd out_root audio a)) =
    (if FS.isdir (Path.child (Path.child out_root Desktop.MODEL) (Path.stem audio)) f'
     then Some (Path.child (Path.child out_root Desktop.MODEL) (Path.stem audio))
     else Desktop.first_named (Path.stem audio) (FS.walk out_root f')).
Proof.
  intros demucs cmd out_root audio a proc f' Hrun Hcode.
  unfold Desktop.worker, finally, try_except, Desktop.attempt.
  rewrite (bind_run _ _ _ _ _ _ _ _ (desktop_popen_run _ _ _ _ _ Hrun)).
  rewrite (bind_run _ _ _ _ _ _ _ _ (desktop_stream_run _ _)).
  rewrite Hcode. cbn [Z.eqb negb].
  match goal with |- context [Desktop.show_result _ _ ?s] =>
    destruct (show_result_succeeds out_root audio s) as [a1 H1];
    pose proof (desktop_show_result_sets_result_dir _ _ _ _ _ H1) as Hrd
  end.
  rewrite H1. cbn in *. exact Hrd.
Qed.

(** X5. [result_dir], which "Open Output Folder" uses, after a run. When the
    tool cannot be started it keeps its value. When the tool exits with 0
    it becomes what the locator returns on the files the tool left: the
    expected directory when it exists, else the first directory of the
    walk called like the input, else nothing, so that an earlier result
    is forgotten. *)
Theorem desktop_result_dir_after_run :
  (forall (demucs : tool) (cmd : list string) (out_root audio : path)
          (a : Desktop.app) (e : exn) (f' : node),
     demucs cmd (Desktop.fs a) = (inl e, f') ->
     Desktop.result_dir (snd (Desktop.worker demucs cmd out_root audio a)) =
       Desktop.result_dir a)
  /\
  (forall (demucs : tool) (cmd : list string) (out_root audio : path)
          (a : Desktop.app) (proc : ProcessResult) (f' : node),
     demucs cmd (Desktop.fs a) = (inr proc, f') ->
     returncode proc = 0%Z ->
     Desktop.result_dir (snd (Desktop.worker demucs cmd out_root audio a)) =
       (if FS.isdir (Path.child (Path.child out_root Desktop.MODEL) (Path.stem audio)) f'
        then Some (Path.child (Path.child out_root Desktop.MODEL) (Path.stem audio))
        else Desktop.first_named (Path.stem audio) (FS.walk out_root f'))).
Proof. split; [exact desktop_result_dir_unstarted | exact desktop_result_dir_zero]. Qed.

(** X6. What the desktop user reads after a run that exited with 0. When the
    expected directory exists: the streamed output, "=== Done ===", one
    line for each candidate that was found (none for a missing one), the
    folder and the tip. When no directory is located: "Could not find
    output folder." and the tip. In both cases the run ends without an
    error and the button is enabled again. *)
Theorem desktop_log_after_zero_exit :
  (forall (demucs : tool) (cmd : list string) (out_root audio : path)
          (a : Desktop.app) (proc : ProcessResult) (f' : node) (names : list string),
     demucs cmd (Desktop.fs a) = (inr proc, f') ->
     returncode proc = 0%Z ->
     FS.listdir (Path.child (Path.child out_root Desktop.MODEL) (Path.stem audio)) f'
       = inr names ->
     Desktop.trace (snd (Desktop.worker demucs cmd out_root audio a)) =
       Desktop.trace a
       ++ [ERun cmd] ++ map ELog (stdout proc)
       ++ [EIsDir (Path.child (Path.child out_root Desktop.MODEL) (Path.stem audio));
           EIsDir (Path.child (Path.child out_root Desktop.MODEL) (Path.stem audio));
           EListDir (Path.child (Path.child out_root Desktop.MODEL) (Path.stem audio));
           ELog (Str.nl ++ "=== Done ===" ++ Str.nl)]
       ++ match fst (Desktop.pick
                       (Path.child (Path.child out_root Desktop.MODEL) (Path.stem audio))
                       names) with
          | Some v => [ELog ("Vocals:       " ++ Path.str v ++ Str.nl)]
          | None => []
          end
       ++ match snd (Desktop.pick
                       (Path.child (Path.child out_root Desktop.MODEL) (Path.stem audio))
                       names) with
          | Some i => [ELog ("Instrumental: " ++ Path.str i ++ Str.nl)]
          | None => []
          end
       ++ [ELog ("Folder:       "
                 ++ Path.str (Path.child (Path.child out_root Desktop.MODEL)
                                         (Path.stem audio))
                 ++ Str.nl);
           ELog (Str.nl ++ "Tip: Click 'Open Output Folder' to view your files."
                 ++ Str.nl);
           EButton true])
  /\
  (forall (demucs : tool) (cmd : list string) (out_root audio : path)
          (a : Desktop.app) (proc : ProcessResult) (f' : node),
     demucs cmd (Desktop.fs a) = (inr proc, f') ->
     returncode proc = 0%Z ->
     FS.isdir (Path.child (Path.child out_root Desktop.MODEL) (Path.stem audio)) f' = false ->
     Desktop.first_named (Path.stem audio) (FS.walk out_root f') = None ->
     Desktop.trace (snd (Desktop.worker demucs cmd out_root audio a)) =
       Desktop.trace a
       ++ [ERun cmd] ++ map ELog (stdout proc)
       ++ [EIsDir (Path.child (Path.child out_root Desktop.MODEL) (Path.stem audio));
           EWalk out_root;
           ELog (Str.nl ++ "Could not find output folder." ++ Str.nl);
           ELog (Str.nl ++ "Tip: Click 'Open Output Folder' to view your files."
                 ++ Str.nl);
           EButton true]).
Proof.
  split.
  - intros demucs cmd out_root audio a proc f' names Hrun Hcode Hls.
    pose proof (listdir_isdir _ _ _ Hls) as Hd.
    unfold Desktop.worker, finally, try_except, Desktop.attempt.
    rewrite (bind_run _ _ _ _ _ _ _ _ (desktop_popen_run _ _ _ _ _ Hrun)).
    rewrite (bind_run _ _ _ _ _ _ _ _ (desktop_stream_run _ _)).
    rewrite Hcode. cbn [Z.eqb negb].
    unfold Desktop.show_result. unfold bind at 1. rewrite desktop_locate_run.
    cbv zeta. cbn [Desktop.fs Desktop.trace Desktop.result_dir]. rewrite Hd.
    unfold Desktop.set_result_dir, Desktop.isdir, Desktop.listdir,
      Desktop.append_log, Desktop.emit, Desktop.read, bind.
    cbn [Desktop.fs Desktop.trace Desktop.result_dir]. rewrite Hd.
    cbn [Desktop.fs Desktop.trace Desktop.result_dir]. rewrite Hls.
    unfold ret. cbn [Desktop.fs Desktop.trace Desktop.result_dir].
    destruct (Desktop.pick _ names) as [[v|] [i|]];
      cbn [Desktop.log_if Desktop.append_log Desktop.emit ret fst snd
           Desktop.fs Desktop.trace Desktop.result_dir Desktop.run_btn app];
      rewrite <- !app_assoc; reflexivity.
  - intros demucs cmd out_root audio a proc f' Hrun Hcode Hd Hnone.
    unfold Desktop.worker, finally, try_except, Desktop.attempt.
    rewrite (bind_run _ _ _ _ _ _ _ _ (desktop_popen_run _ _ _ _ _ Hrun)).
    rewrite (bind_run _ _ _ _ _ _ _ _ (desktop_stream_run _ _)).
    rewrite Hcode. cbn [Z.eqb negb].
    unfold Desktop.show_result. unfold bind at 1. rewrite desktop_locate_run.
    cbv zeta. cbn [Desktop.fs Desktop.trace Desktop.result_dir]. rewrite Hd, Hnone.
    unfold Desktop.set_result_dir, Desktop.append_log, Desktop.emit, bind.
    cbn [Desktop.fs Desktop.trace Desktop.result_dir Desktop.run_btn Desktop.emit snd].
    rewrite <- !app_assoc. reflexivity.
Qed.

(* ------------------------------------------------------------------ *)
(** ** Further properties: the result publisher *)
(* ------------------------------------------------------------------ *)

(** A copy onto a path through the entry [a] of a directory leaves alone
    what lies under its other entries. *)
Lemma copy2_frame_branch :
  forall (pre : path) (a b : string) (q r src : path) (f f' : node),
  FS.copy2 src (pre ++ a :: q) f = inr f' ->
  a <> b ->
  FS.lookup (pre ++ b :: r) f' = FS.lookup (pre ++ b :: r) f.
Proof.
  intros pre a b q r src f f' H Hne.
  destruct (copy2_inr _ _ _ _ H) as [data [_ [_ Hput]]].
  destruct (FS.isdir (pre ++ a :: q) f).
  - unfold Path.child in Hput. rewrite <- app_assoc in Hput. cbn [app] in Hput.
    eapply lookup_put_diverge; eassumption.
  - eapply lookup_put_diverge; eassumption.
Qed.

Lemma publish_frame_branch :
  forall (pre : path) (a b : string) (q r : path) (base : string)
         (vocals inst : path) (w : Web.world),
  a <> b ->
  FS.lookup (pre ++ b :: r)
            (Web.fs (snd (Web.publish (pre ++ a :: q) base vocals inst w))) =
  FS.lookup (pre ++ b :: r) (Web.fs w).
Proof.
  intros pre a b q r base vocals inst w Hne.
  pose proof (publish_outcome (pre ++ a :: q) base vocals inst w) as Hout.
  cbv zeta in Hout. unfold Path.child in Hout. rewrite <- !app_assoc in Hout.
  cbn [app] in Hout.
  destruct (FS.copy2 vocals _ (Web.fs w)) as [e|f1] eqn:E1.
  - injection Hout as _ ->. reflexivity.
  - destruct (FS.copy2 inst _ f1) as [e|f2] eqn:E2; injection Hout as _ ->.
    + eapply copy2_frame_branch; eassumption.
    + rewrite (copy2_frame_branch _ _ _ _ _ _ _ _ E2 Hne).
      eapply copy2_frame_branch; eassumption.
Qed.

Lemma publish_frame_sibling :
  forall (J : path) (base : string) (vocals inst : path) (w : Web.world)
         (c : string) (r : path),
  c <> (base ++ "_vocals" ++ Path.suffix vocals)%string ->
  c <> (base ++ "_instrumental" ++ Path.suffix inst)%string ->
  FS.lookup (J ++ c :: r) (Web.fs (snd (Web.publish J base vocals inst w))) =
  FS.lookup (J ++ c :: r) (Web.fs w).
Proof.
  intros J base vocals inst w c r Hx Hy.
  pose proof (publish_outcome J base vocals inst w) as Hout. cbv zeta in Hout.
  destruct (FS.copy2 vocals _ (Web.fs w)) as [e|f1] eqn:E1.
  - injection Hout as _ ->. reflexivity.
  - destruct (FS.copy2 inst _ f1) as [e|f2] eqn:E2; injection Hout as _ ->.
    + eapply copy2_frame; eauto.
    + rewrite (copy2_frame _ _ c _ r _ _ E2); [|congruence].
      eapply copy2_frame; eauto.
Qed.

Lemma publish_frame_raw :
  forall (J : path) (base : string) (vocals inst : path) (w : Web.world) (r : path),
  FS.lookup (J ++ "raw" :: r) (Web.fs (snd (Web.publish J base vocals inst w))) =
  FS.lookup (J ++ "raw" :: r) (Web.fs w).
Proof.
  intros J base vocals inst w r.
  destruct (published_names_distinct base (Path.suffix vocals) (Path.suffix inst))
    as [_ [Hx Hy]].
  apply publish_frame_sibling; congruence.
Qed.

(** X7. The publisher writes at its two destinations and nowhere else,
    whether it succeeds or fails: nothing changes under [raw], under any
    other entry of the job folder, or on any branch of the file system
    that does not lead to the job folder. *)
Theorem publish_touches_only_its_destinations :
  (forall (J : path) (base : string) (vocals inst : path) (w : Web.world) (r : path),
     FS.lookup (J ++ "raw" :: r) (Web.fs (snd (Web.publish J base vocals inst w))) =
     FS.lookup (J ++ "raw" :: r) (Web.fs w))
  /\
  (forall (J : path) (base : string) (vocals inst : path) (w : Web.world)
          (c : string) (r : path),
     c <> (base ++ "_vocals" ++ Path.suffix vocals)%string ->
     c <> (base ++ "_instrumental" ++ Path.suffix inst)%string ->
     FS.lookup (J ++ c :: r) (Web.fs (snd (Web.publish J base vocals inst w))) =
     FS.lookup (J ++ c :: r) (Web.fs w))
  /\
  (forall (pre : path) (a b : string) (q r : path) (base : string)
          (vocals inst : path) (w : Web.world),
     a <> b ->
     FS.lookup (pre ++ b :: r)
               (Web.fs (snd (Web.publish (pre ++ a :: q) base vocals inst w))) =
     FS.lookup (pre ++ b :: r) (Web.fs w)).
Proof.
  split; [exact publish_frame_raw
         | split; [exact publish_frame_sibling | exact publish_frame_branch]].
Qed.

Lemma put_beside : forall (J : path) (c x : string) (r : path) (new n f : node),
  FS.lookup (J ++ c :: r) f = Some n ->
  exists f', FS.put (J ++ [x]) new f = Some f'.
Proof.
  induction J as [|k J IH]; intros c x r new n f H; cbn [app] in *.
  - cbn in H. destruct f as [data|es]; [discriminate|]. cbn. eauto.
  - cbn in H. destruct f as [data|es]; [discriminate|].
    destruct (FS.assoc k es) as [c0|] eqn:Ec; [|discriminate].
    destruct (IH c x r new n c0 H) as [c0' Hp]. cbn.
    destruct (J ++ [x]) as [|k' p'] eqn:Ej; [destruct J; discriminate|].
    rewrite Ec, Hp. eauto.
Qed.

(** A copy of a file onto a free or file entry of the job folder, from
    under another entry, succeeds and installs the data. *)
Lemma copy2_onto_entry :
  forall (J : path) (c x : string) (r : path) (data : string) (f : node),
  FS.lookup (J ++ c :: r) f = Some (File data) ->
  FS.isdir (Path.child J x) f = false ->
  x <> c ->
  exists f', FS.copy2 (J ++ c :: r) (Path.child J x) f = inr f'
             /\ FS.lookup (Path.child J x) f' = Some (File data).
Proof.
  intros J c x r data f Hsrc Hd Hne.
  destruct (put_beside J c x r (File data) _ f Hsrc) as [f' Hput].
  exists f'. split; [|eapply lookup_put_same; exact Hput].
  unfold FS.copy2. rewrite Hd, Hsrc, Hd.
  rewrite path_eqb_false.
  - unfold Path.child. now rewrite Hput.
  - unfold Path.child. intro Heq. apply app_inv_head in Heq. congruence.
Qed.

Lemma publish_installs_both_stems_lemma :
  forall (J : path) (base : string) (vocals inst : path) (w : Web.world)
         (dv di : string),
  Spec.below (Path.child J "raw") vocals ->
  Spec.below (Path.child J "raw") inst ->
  FS.lookup vocals (Web.fs w) = Some (File dv) ->
  FS.lookup inst (Web.fs w) = Some (File di) ->
  FS.isdir (Path.child J (base ++ "_vocals" ++ Path.suffix vocals)) (Web.fs w) = false ->
  FS.isdir (Path.child J (base ++ "_instrumental" ++ Path.suffix inst)) (Web.fs w) = false ->
  fst (Web.publish J base vocals inst w) =
    inr (Path.child J (base ++ "_vocals" ++ Path.suffix vocals),
         Path.child J (base ++ "_instrumental" ++ Path.suffix inst))
  /\ FS.lookup (Path.child J (base ++ "_vocals" ++ Path.suffix vocals))
               (Web.fs (snd (Web.publish J base vocals inst w))) = Some (File dv)
  /\ FS.lookup (Path.child J (base ++ "_instrumental" ++ Path.suffix inst))
               (Web.fs (snd (Web.publish J base vocals inst w))) = Some (File di)
  /\ FS.lookup vocals (Web.fs (snd (Web.publish J base vocals inst w))) = Some (File dv)
  /\ FS.lookup inst (Web.fs (snd (Web.publish J base vocals inst w))) = Some (File di).
Proof.
  intros J base vocals inst w dv di [cv [rv Hv]] [ci [ri Hi]] Hlv Hli Hdv Hdi.
  unfold Path.child in Hv, Hi. rewrite <- app_assoc in Hv, Hi. cbn [app] in Hv, Hi.
  destruct (published_names_distinct base (Path.suffix vocals) (Path.suffix inst))
    as [Hxy [Hx Hy]].
  pose proof (publish_frame_raw J base vocals inst w (cv :: rv)) as Hrv.
  pose proof (publish_frame_raw J base vocals inst w (ci :: ri)) as Hri.
  rewrite <- Hv, Hlv in Hrv. rewrite <- Hi, Hli in Hri.
  pose proof (publish_outcome J base vocals inst w) as Hout. cbv zeta in Hout.
  set (X := (base ++ "_vocals" ++ Path.suffix vocals)%string) in *.
  set (Y := (base ++ "_instrumental" ++ Path.suffix inst)%string) in *.
  assert (E1 : exists f1, FS.copy2 vocals (Path.child J X) (Web.fs w) = inr f1
                          /\ FS.lookup (Path.child J X) f1 = Some (File dv)).
  { rewrite Hv in *. apply copy2_onto_entry; assumption. }
  destruct E1 as [f1 [E1 L1]]. rewrite E1 in Hout.
  assert (E2 : exists f2, FS.copy2 inst (Path.child J Y) f1 = inr f2
                          /\ FS.lookup (Path.child J Y) f2 = Some (File di)).
  { rewrite Hi in *. apply copy2_onto_entry.
    - rewrite (copy2_frame _ _ _ _ _ _ _ E1 Hx). exact Hli.
    - unfold Path.child in *. unfold FS.isdir.
      rewrite (copy2_frame _ _ _ _ _ _ _ E1 Hxy). exact Hdi.
    - exact Hy. }
  destruct E2 as [f2 [E2 L2]]. rewrite E2 in Hout. injection Hout as Hr Hf.
  rewrite Hr. split; [reflexivity|].
  split; [|split; [rewrite Hf; exact L2 | split; assumption]].
  rewrite Hf. unfold Path.child in *.
  rewrite (copy2_frame _ _ X _ [] _ _ E2); [exact L1 | congruence].
Qed.

(** X8. Publishing two files found under [raw] onto destinations that are not
    directories succeeds: it returns the two destination paths, each
    destination then holds the data of its source, and the sources are
    still there. *)
Theorem publish_installs_both_stems :
  forall (J : path) (base : string) (vocals inst : path) (w : Web.world)
         (dv di : string),
  Spec.below (Path.child J "raw") vocals ->
  Spec.below (Path.child J "raw") inst ->
  FS.lookup vocals (Web.fs w) = Some (File dv) ->
  FS.lookup inst (Web.fs w) = Some (File di) ->
  FS.isdir (Path.child J (base ++ "_vocals" ++ Path.suffix vocals)) (Web.fs w) = false ->
  FS.isdir (Path.child J (base ++ "_instrumental" ++ Path.suffix inst)) (Web.fs w) = false ->
  fst (Web.publish J base vocals inst w) =
    inr (Path.child J (base ++ "_vocals" ++ Path.suffix vocals),
         Path.child J (base ++ "_instrumental" ++ Path.suffix inst))
  /\ FS.lookup (Path.child J (base ++ "_vocals" ++ Path.suffix vocals))
               (Web.fs (snd (Web.publish J base vocals inst w))) = Some (File dv)
  /\ FS.lookup (Path.child J (base ++ "_instrumental" ++ Path.suffix inst))
               (Web.fs (snd (Web.publish J base vocals inst w))) = Some (File di)
  /\ FS.lookup vocals (Web.fs (snd (Web.publish J base vocals inst w))) = Some (File dv)
  /\ FS.lookup inst (Web.fs (snd (Web.publish J base vocals inst w))) = Some (File di).
Proof. exact publish_installs_both_stems_lemma. Qed.

(* ------------------------------------------------------------------ *)
(** ** Further properties: the web job from start to end *)
(* ------------------------------------------------------------------ *)

Lemma mkdir_isdir : forall (p : path) (f f' : node),
  FS.mkdir p f = inr f' -> FS.isdir p f' = true.
Proof.
  intros p f f' H. unfold FS.mkdir in H.
  destruct (FS.lookup p f) as [[data|es]|] eqn:E; try discriminate.
  - injection H as <-. unfold FS.isdir. now rewrite E.
  - destruct (FS.put p (Dir []) f) as [f1|] eqn:Ep; [|discriminate].
    injection H as <-. unfold FS.isdir. now rewrite (lookup_put_same _ _ _ _ Ep).
Qed.

Lemma mkdir_child_keeps_parent : forall (p : path) (c : string) (f f' : node),
  FS.isdir p f = true ->
  FS.mkdir (Path.child p c) f = inr f' ->
  FS.isdir p f' = true.
Proof.
  intros p c f f' Hp H. unfold FS.mkdir in H.
  destruct (FS.lookup (Path.child p c) f) as [[data|es]|]; try discriminate.
  - now injection H as <-.
  - destruct (FS.put (Path.child p c) (Dir []) f) as [f1|] eqn:Ep; [|discriminate].
    injection H as <-. eapply isdir_put_inside; eassumption.
Qed.

(** X9. Whenever the tool has been run by a web job, it was started on a file
    system in which the job folder and the [--out] directory [raw] both
    exist as directories. *)
Theorem web_tool_starts_with_output_root :
  forall (R : path) (demucs : tool) (job_id : string) (input_path : path)
         (w w1 : Web.world) (process : ProcessResult),
  Web.launch R demucs job_id input_path w = (inr process, w1) ->
  exists f0,
    FS.isdir (Path.child R job_id) f0 = true
    /\ FS.isdir (Path.child (Path.child R job_id) "raw") f0 = true
    /\ demucs (Web.command (Path.child (Path.child R job_id) "raw") input_path) f0
       = (inr process, Web.fs w1).
Proof.
  intros R demucs job_id input_path w w1 process H.
  unfold Web.launch, Web.mkdir, Web.print, Web.subprocess_run, Web.update, Web.emit,
    bind, ret in H.
  cbn [Web.fs Web.trace] in H.
  destruct (FS.mkdir (Path.child R job_id) (Web.fs w)) as [e|f1] eqn:E1;
    [discriminate|].
  cbn [Web.fs Web.trace] in H.
  destruct (FS.mkdir (Path.child (Path.child R job_id) "raw") f1) as [e|f2] eqn:E2;
    [discriminate|].
  cbn [Web.fs Web.trace] in H.
  destruct (demucs _ f2) as [[e|p] f3] eqn:E3; [discriminate|].
  cbn [Web.fs Web.trace] in H. injection H as <- <-. cbn [Web.fs].
  exists f2. repeat split.
  - eapply mkdir_child_keeps_parent; [eapply mkdir_isdir|]; eassumption.
  - eapply mkdir_isdir; eassumption.
  - exact E3.
Qed.

Lemma lookup_none_app : forall (p q : path) (f : node),
  FS.lookup p f = None -> FS.lookup (p ++ q) f = None.
Proof.
  induction p as [|k p IH]; intros q f H; cbn in *; [discriminate|].
  destruct f as [data|es]; [reflexivity|].
  destruct (FS.assoc k es) as [c|]; [now apply IH | reflexivity].
Qed.

Lemma put_none_below : forall (p : path) (x : string) (new f : node),
  FS.lookup p f = None -> FS.put (p ++ [x]) new f = None.
Proof.
  induction p as [|k p IH]; intros x new f H; cbn in H; [discriminate|].
  cbn [app]. cbn. destruct f as [data|es]; [reflexivity|].
  destruct (p ++ [x]) as [|k' p'] eqn:Ep; [destruct p; discriminate|].
  destruct (FS.assoc k es) as [c|]; [|reflexivity].
  rewrite <- Ep, (IH x new c H). reflexivity.
Qed.

(** X10. When the results directory is not there, a web job fails at its first
    step: the tool is not run and the file system is left as it was. *)
Theorem web_job_without_results_directory :
  forall (R : path) (demucs : tool) (job_id : string) (input_path : path)
         (w : Web.world),
  FS.lookup R (Web.fs w) = None ->
  exists e,
    Web.run_demucs_debug R demucs job_id input_path w =
      (inl e, {| Web.fs := Web.fs w;
                 Web.trace := Web.trace w ++ [EMkdir (Path.child R job_id)] |}).
Proof.
  intros R demucs job_id input_path w H.
  exists (FS.unresolved (Path.child R job_id) (Web.fs w)).
  unfold Web.run_demucs_debug, Web.launch.
  assert (Hm : Web.mkdir (Path.child R job_id) w =
               (inl (FS.unresolved (Path.child R job_id) (Web.fs w)),
                {| Web.fs := Web.fs w;
                   Web.trace := Web.trace w ++ [EMkdir (Path.child R job_id)] |})).
  { unfold Web.mkdir, Web.update, Web.emit, bind. cbn [Web.fs Web.trace].
    unfold FS.mkdir, Path.child.
    now rewrite (lookup_none_app _ _ _ H), (put_none_below _ _ _ _ H). }
  rewrite (bind_raise _ _ _ _ _ _ _ _
             (bind_raise _ _ _ _ _ _ _ _ Hm)).
  reflexivity.
Qed.

(** X11. The whole successful job. When the tool has exited with 0, the output
    directory is located, its listing gives a vocals and an instrumental
    candidate that are files, and the two destination names are not taken
    by directories, [run_demucs_debug] returns
    [<job>/<stem>_vocals<ext>] and [<job>/<stem>_instrumental<ext>], where
    [<stem>] is the stem of the input and [<ext>] the extension of the
    candidate, and each of them holds the data of its candidate. *)
Theorem web_job_publishes_the_classified_stems :
  forall (R : path) (demucs : tool) (job_id : string) (input_path : path)
         (w w1 w2 : Web.world) (process : ProcessResult) (model_dir : path)
         (names : list string) (v i : path) (dv di : string),
  Web.launch R demucs job_id input_path w = (inr process, w1) ->
  returncode process = 0%Z ->
  Web.locate (Path.child (Path.child R job_id) "raw") (Path.stem input_path) w1
    = (inr model_dir, w2) ->
  FS.listdir model_dir (Web.fs w1) = inr names ->
  Web.pick model_dir names = (Some v, Some i) ->
  FS.lookup v (Web.fs w1) = Some (File dv) ->
  FS.lookup i (Web.fs w1) = Some (File di) ->
  FS.isdir (Path.child (Path.child R job_id)
              (Path.stem input_path ++ "_vocals" ++ Path.suffix v)) (Web.fs w1) = false ->
  FS.isdir (Path.child (Path.child R job_id)
              (Path.stem input_path ++ "_instrumental" ++ Path.suffix i)) (Web.fs w1)
    = false ->
  fst (Web.run_demucs_debug R demucs job_id input_path w) =
    inr (Path.child (Path.child R job_id)
           (Path.stem input_path ++ "_vocals" ++ Path.suffix v),
         Path.child (Path.child R job_id)
           (Path.stem input_path ++ "_instrumental" ++ Path.suffix i))
  /\ FS.lookup (Path.child (Path.child R job_id)
                  (Path.stem input_path ++ "_vocals" ++ Path.suffix v))
               (Web.fs (snd (Web.run_demucs_debug R demucs job_id input_path w)))
     = Some (File dv)
  /\ FS.lookup (Path.child (Path.child R job_id)
                  (Path.stem input_path ++ "_instrumental" ++ Path.suffix i))
               (Web.fs (snd (Web.run_demucs_debug R demucs job_id input_path w)))
     = Some (File di).
Proof.
  intros R demucs job_id input_path w w1 w2 process model_dir names v i dv di
         Hrun Hcode Hloc Hls Hpick Hv Hi Hdv Hdi.
  destruct (web_locate_keeps_fs _ _ _ _ _ Hloc) as [Hfs _].
  set (w4 := {| Web.fs := Web.fs w1;
                Web.trace :=
                  Web.trace w2
                  ++ [EPrint ("Located Demucs output folder: " ++ Path.str model_dir);
                      EListDir model_dir] |}).
  assert (Hcls : Web.classify model_dir
                   {| Web.fs := Web.fs w2;
                      Web.trace :=
                        Web.trace w2
                        ++ [EPrint ("Located Demucs output folder: "
                                    ++ Path.str model_dir)] |}
                 = (inr (v, i), w4)).
  { rewrite web_classify_run. cbv zeta. cbn [Web.fs Web.trace].
    rewrite Hfs, Hls, Hpick. unfold w4. now rewrite <- app_assoc. }
  assert (Hjob : Web.run_demucs_debug R demucs job_id input_path w =
                 Web.publish (Path.child R job_id) (Path.stem input_path) v i w4).
  { unfold Web.run_demucs_debug. rewrite (bind_run _ _ _ _ _ _ _ _ Hrun).
    unfold Web.finish. rewrite Hcode. cbn [Z.eqb negb].
    rewrite (bind_run _ _ _ _ _ _ _ _ Hloc). unfold Web.print.
    unfold bind at 1. cbn [Web.emit].
    now rewrite (bind_run _ _ _ _ _ _ _ _ Hcls). }
  assert (Hbelow : Spec.below (Path.child (Path.child R job_id) "raw") v
                   /\ Spec.below (Path.child (Path.child R job_id) "raw") i).
  { destruct (web_located_below _ _ _ _ _ Hloc) as [_ Hd].
    destruct (web_classified_children _ _ _ _ _ Hcls) as [Hcv Hci].
    split; eapply below_trans; eassumption. }
  destruct Hbelow as [Hbv Hbi]. rewrite Hjob.
  destruct (publish_installs_both_stems_lemma (Path.child R job_id)
              (Path.stem input_path) v i w4 dv di Hbv Hbi Hv Hi Hdv Hdi)
    as [H1 [H2 [H3 _]]].
  auto.
Qed.

(* ------------------------------------------------------------------ *)
(** ** Further properties: the route [/separate] *)
(* ------------------------------------------------------------------ *)

Lemma string_append_nil_r : forall s : string, (s ++ "")%string = s.
Proof. induction s as [|c s IH]; cbn; [reflexivity | now rewrite IH]. Qed.

Lemma substring_full : forall s : string, String.substring 0 (String.length s) s = s.
Proof. induction s as [|c s IH]; cbn; [reflexivity | now rewrite IH]. Qed.

Lemma take_append : forall s t : string, Str.take (String.length s) (s ++ t) = s.
Proof.
  unfold Str.take. induction s as [|c s IH]; intro t; cbn.
  - now destruct t.
  - now rewrite IH.
Qed.

Lemma drop_append : forall s t : string, Str.drop (String.length s) (s ++ t) = t.
Proof.
  unfold Str.drop. induction s as [|c s IH]; intro t.
  - cbn. rewrite Nat.sub_0_r. apply substring_full.
  - cbn [String.length append]. cbn [String.substring]. cbn [Nat.sub]. apply IH.
Qed.

(** From the last dot on, a name reads: a dot, then a text without dots. *)
Lemma drop_at_last_dot : forall (n : string) (i : nat),
  Str.rfind_dot n = Some i ->
  exists t, Str.drop i n = String "."%char t
            /\ Str.rfind_dot t = None
            /\ String.length n = i + 1 + String.length t.
Proof.
  induction n as [|c n IH]; intros i H; cbn in H; [discriminate|].
  destruct (Str.rfind_dot n) as [j|] eqn:E.
  - injection H as <-. destruct (IH j eq_refl) as [t [Hd [Ht Hl]]].
    exists t. split; [|split; [exact Ht | cbn; lia]].
    unfold Str.drop in *. cbn [String.length String.substring Nat.sub]. exact Hd.
  - destruct (Ascii.eqb c "."%char) eqn:Ec; [|discriminate].
    injection H as <-. apply Ascii.eqb_eq in Ec. subst c.
    exists n. split; [|split; [exact E | cbn; lia]].
    unfold Str.drop. rewrite Nat.sub_0_r. apply substring_full.
Qed.

Lemma rfind_dot_before_suffix : forall s t : string,
  Str.rfind_dot t = None ->
  Str.rfind_dot (s ++ String "."%char t) = Some (String.length s).
Proof.
  intros s t Ht. induction s as [|c s IH]; cbn.
  - now rewrite Ht.
  - now rewrite IH.
Qed.

(** An extension is empty, or a dot followed by a non-empty text without
    dots. *)
Lemma suffix_of_shape : forall n : string,
  Path.suffix_of n = ""
  \/ exists t, Path.suffix_of n = String "."%char t
               /\ Str.rfind_dot t = None /\ t <> "".
Proof.
  intro n. unfold Path.suffix_of.
  destruct (Str.rfind_dot n) as [i|] eqn:E; [|now left].
  destruct ((0 <? i)%nat && (i <? String.length n - 1)%nat) eqn:Ei; [|now left].
  right. destruct (drop_at_last_dot n i E) as [t [Hd [Ht Hl]]].
  exists t. repeat split; try assumption.
  intros ->. cbn in Hl. apply andb_true_iff in Ei. destruct Ei as [_ Ei].
  apply Nat.ltb_lt in Ei. lia.
Qed.

(** A name made of a text without dots and an extension splits back into
    the two. *)
Lemma stem_suffix_of_joined : forall (id n : string),
  id <> "" ->
  Str.rfind_dot id = None ->
  Path.stem_of (id ++ Path.suffix_of n) = id
  /\ Path.suffix_of (id ++ Path.suffix_of n) = Path.suffix_of n.
Proof.
  intros id n Hne Hid.
  destruct (suffix_of_shape n) as [->|[t [-> [Ht Htne]]]].
  - rewrite string_append_nil_r. unfold Path.stem_of, Path.suffix_of.
    now rewrite Hid.
  - unfold Path.stem_of, Path.suffix_of.
    rewrite (rfind_dot_before_suffix id t Ht).
    assert (Hlen : ((0 <? String.length id)%nat
                    && (String.length id <? String.length (id ++ String "."%char t) - 1)%nat)
                   = true).
    { rewrite string_length_append. cbn [String.length].
      apply andb_true_iff. split; apply Nat.ltb_lt.
      - destruct id; [congruence | cbn; lia].
      - destruct t; [congruence | cbn; lia]. }
    rewrite Hlen. split; [apply take_append | apply drop_append].
Qed.

Lemma web_update_run : forall (u : node -> exn + node) (w : Web.world) (f' : node),
  u (Web.fs w) = inr f' ->
  Web.update u w = (inr tt, {| Web.fs := f'; Web.trace := Web.trace w |}).
Proof. intros u w f' H. unfold Web.update. now rewrite H. Qed.

(** X12. The upload is stored in the upload directory under the fresh
    identifier followed by the extension of the client's file name, with
    the client's content; when the identifier is a non-empty text without
    dots (as the hexadecimal text of a UUID), the stem of the stored name,
    which then names the published files, is the identifier, and its
    extension is the client's. *)
Theorem upload_is_named_by_its_identifier :
  forall (UPLOAD_DIR : path) (upload_id : string) (file : Route.FileStorage)
         (w w1 : Web.world) (upload_path : path),
  upload_id <> "" ->
  Str.rfind_dot upload_id = None ->
  Route.receive UPLOAD_DIR upload_id file w = (inr upload_path, w1) ->
  upload_path =
    Path.child UPLOAD_DIR
      (upload_id ++ Path.suffix (Route.parts (Route.filename file)))
  /\ Path.stem upload_path = upload_id
  /\ Path.suffix upload_path = Path.suffix (Route.parts (Route.filename file))
  /\ FS.lookup upload_path (Web.fs w1) = Some (File (Route.content file)).
Proof.
  intros UPLOAD_DIR upload_id file w w1 upload_path Hne Hid H.
  unfold Route.receive in H.
  set (p := Path.child UPLOAD_DIR
              (upload_id ++ Path.suffix (Route.parts (Route.filename file)))) in *.
  destruct (Route.save p (Route.content file) (Web.fs w)) as [e|f'] eqn:Es.
  - unfold bind at 1, Web.update in H. rewrite Es in H. discriminate H.
  - rewrite (bind_run _ _ _ _ _ _ _ _ (web_update_run _ _ _ Es)) in H.
    unfold bind, Web.print, Web.emit, ret in H. cbn [Web.fs Web.trace] in H.
    injection H as <- <-. cbn [Web.fs].
    destruct (stem_suffix_of_joined upload_id
                (Path.name (Route.parts (Route.filename file))) Hne Hid) as [Hs Hx].
    split; [reflexivity|]. unfold Path.stem, Path.suffix, p. rewrite !name_child.
    split; [exact Hs | split; [exact Hx|]].
    unfold Route.save in Es. destruct (FS.isdir _ (Web.fs w)); [discriminate|].
    destruct (FS.put _ _ (Web.fs w)) as [f1|] eqn:Ep; [|discriminate].
    injection Es as <-. eapply lookup_put_same; exact Ep.
Qed.

Lemma relative_to_app : forall base q : path, Route.relative_to (base ++ q) base = Some q.
Proof.
  induction base as [|b base IH]; intro q.
  - now destruct q.
  - cbn. now rewrite String.eqb_refl.
Qed.

Lemma publish_result_paths :
  forall (J : path) (base : string) (vocals inst : path) (w w' : Web.world)
         (a b : path),
  Web.publish J base vocals inst w = (inr (a, b), w') ->
  a = Path.child J (base ++ "_vocals" ++ Path.suffix vocals)
  /\ b = Path.child J (base ++ "_instrumental" ++ Path.suffix inst).
Proof.
  intros J base vocals inst w w' a b H.
  pose proof (publish_outcome J base vocals inst w) as Hout. cbv zeta in Hout.
  rewrite H in Hout. cbn [fst snd] in Hout.
  destruct (FS.copy2 vocals _ (Web.fs w)) as [e|f1]; [discriminate|].
  destruct (FS.copy2 inst _ f1) as [e|f2]; [discriminate|].
  injection Hout as -> -> _. auto.
Qed.

(** The paths a job returns are two entries of its folder, named after
    the stem of the input. *)
Lemma web_job_result_paths :
  forall (R : path) (demucs : tool) (job_id : string) (input_path : path)
         (w w' : Web.world) (a b : path),
  Web.run_demucs_debug R demucs job_id input_path w = (inr (a, b), w') ->
  exists vocals inst,
    a = Path.child (Path.child R job_id)
          (Path.stem input_path ++ "_vocals" ++ Path.suffix vocals)
    /\ b = Path.child (Path.child R job_id)
             (Path.stem input_path ++ "_instrumental" ++ Path.suffix inst).
Proof.
  intros R demucs job_id input_path w w' a b H.
  unfold Web.run_demucs_debug in H. unfold bind at 1 in H.
  destruct (Web.launch R demucs job_id input_path w) as [[e|process] w1];
    [discriminate|].
  unfold Web.finish in H.
  destruct (negb (returncode process =? 0)%Z); [discriminate|].
  unfold bind at 1 in H.
  destruct (Web.locate _ _ w1) as [[e|model_dir] w2]; [discriminate|].
  unfold bind at 1 in H.
  destruct (Web.print _ w2) as [[e|u] w3]; [discriminate|].
  unfold bind at 1 in H.
  destruct (Web.classify model_dir w3) as [[e|[vocals inst]] w4]; [discriminate|].
  exists vocals, inst. eapply publish_result_paths. exact H.
Qed.

(** X13. What [/separate] answers. Without a file, or with a file whose name
    is empty, it flashes "No file uploaded." and touches nothing. With a
    saved upload the answer follows the job. When the job raises [e], one
    text is printed after "ERROR:" and flashed, and the form is shown
    again; for a [RuntimeError], as the job raises for a non-zero exit
    status, a missing output folder and a missing stem, that text is its
    message. When the job returns, the answer is the results page, whose
    two links are the job identifier followed by the published names:
    [relative_to] never fails on what the job returns. *)
Theorem separate_answers_as_the_job_ends :
  (forall (U R : path) (demucs : tool) (upload_id job_id : string)
          (file : option Route.FileStorage) (w : Web.world),
     (file = None \/ exists data, file = Some {| Route.filename := "";
                                                  Route.content := data |}) ->
     Route.separate U R demucs upload_id job_id file w =
       (Route.Redirect "No file uploaded.", w))
  /\
  (forall (U R : path) (demucs : tool) (upload_id job_id : string)
          (file : Route.FileStorage) (w w1 w2 : Web.world) (upload_path : path)
          (e : exn),
     Route.filename file <> "" ->
     Route.receive U upload_id file w = (inr upload_path, w1) ->
     Web.run_demucs_debug R demucs job_id upload_path w1 = (inl e, w2) ->
     exists text : string,
       Route.separate U R demucs upload_id job_id (Some file) w =
         (Route.Redirect text,
          {| Web.fs := Web.fs w2;
             Web.trace := Web.trace w2 ++ [EPrint ("ERROR: " ++ text)] |})
       /\ (forall msg : string, e = RuntimeError msg -> text = msg))
  /\
  (forall (U R : path) (demucs : tool) (upload_id job_id : string)
          (file : Route.FileStorage) (w w1 w2 : Web.world)
          (upload_path vocals_out inst_out : path),
     Route.filename file <> "" ->
     Route.receive U upload_id file w = (inr upload_path, w1) ->
     Web.run_demucs_debug R demucs job_id upload_path w1
       = (inr (vocals_out, inst_out), w2) ->
     exists vocals inst,
       Route.separate U R demucs upload_id job_id (Some file) w =
         (Route.Results
            [job_id; (Path.stem upload_path ++ "_vocals" ++ Path.suffix vocals)%string]
            [job_id; (Path.stem upload_path ++ "_instrumental"
                      ++ Path.suffix inst)%string],
          w2)).
Proof.
  split; [|split].
  - intros U R demucs upload_id job_id file w [->|[data ->]]; reflexivity.
  - intros U R demucs upload_id job_id file w w1 w2 upload_path e Hname Hrec Hjob.
    exists (exn_str e). split.
    + unfold Route.separate. apply String.eqb_neq in Hname.
      now rewrite Hname, Hrec, Hjob.
    + intros msg ->. reflexivity.
  - intros U R demucs upload_id job_id file w w1 w2 upload_path vocals_out inst_out
           Hname Hrec Hjob.
    destruct (web_job_result_paths _ _ _ _ _ _ _ _ Hjob) as [vocals [inst [-> ->]]].
    exists vocals, inst.
    unfold Route.separate. apply String.eqb_neq in Hname.
    rewrite Hname, Hrec, Hjob. unfold Route.results_page, Path.child.
    rewrite <- !app_assoc. cbn [app]. now rewrite !relative_to_app.
Qed.

(* ------------------------------------------------------------------ *)
(** ** Further properties: the window *)
(* ------------------------------------------------------------------ *)

Lemma lift_run : forall (A : Type) (m : M Desktop.app A) (g : Gui.gui)
                        (r : exn + A) (a' : Desktop.app),
  m (Gui.app g) = (r, a') ->
  Gui.lift m g =
    (r, {| Gui.app := a'; Gui.inp_var := Gui.inp_var g; Gui.out_var := Gui.out_var g;
           Gui.actions := Gui.actions g |}).
Proof. intros A m g r a' H. unfold Gui.lift. now rewrite H. Qed.

Lemma makedirs_from_isdir : forall (rest done : path) (f f' : node),
  Gui.makedirs_from done rest f = inr f' ->
  FS.isdir done f = true ->
  FS.isdir (done ++ rest) f' = true.
Proof.
  induction rest as [|c rest IH]; intros done f f' H Hd; cbn in H.
  - injection H as <-. now rewrite app_nil_r.
  - change (done ++ c :: rest) with (done ++ [c] ++ rest). rewrite app_assoc.
    destruct (FS.lookup (Path.child done c) f) as [[data|es]|] eqn:E.
    + destruct rest; discriminate.
    + apply (IH _ _ _ H). unfold FS.isdir. now rewrite E.
    + destruct (FS.put (Path.child done c) (Dir []) f) as [f1|] eqn:Ep; [|discriminate].
      apply (IH _ _ _ H). unfold FS.isdir.
      now rewrite (lookup_put_same _ _ _ _ Ep).
Qed.

(** X14. [start_separation]. Without an input path, or with one that does not
    exist, it shows the error "Please choose an existing audio file." and
    does nothing else: no directory is made, nothing is logged, the button
    stays enabled and no thread is started. With an existing input it
    makes the output root (the chosen one, else [separated] in the home
    directory), which is then a directory, logs the command line, disables
    the button and starts the worker on the command of the job submitter.
    When the output root cannot be made the exception leaves the function
    before anything is logged or disabled. *)
Theorem start_separation_checks_input_and_prepares_the_run :
  (forall (home : path) (g : Gui.gui),
     (Gui.inp_var g = None
      \/ exists p, Gui.inp_var g = Some p
                   /\ Gui.exists_ p (Desktop.fs (Gui.app g)) = false) ->
     Gui.start_separation home g =
       (inr None,
        {| Gui.app :=
             {| Desktop.fs := Desktop.fs (Gui.app g);
                Desktop.trace :=
                  Desktop.trace (Gui.app g)
                  ++ [EShowError "Input" "Please choose an existing audio file."];
                Desktop.result_dir := Desktop.result_dir (Gui.app g) |};
           Gui.inp_var := Gui.inp_var g; Gui.out_var := Gui.out_var g;
           Gui.actions := Gui.actions g |}))
  /\
  (forall (home : path) (g : Gui.gui) (audio : path) (f' : node),
     Gui.inp_var g = Some audio ->
     Gui.exists_ audio (Desktop.fs (Gui.app g)) = true ->
     FS.isdir [] (Desktop.fs (Gui.app g)) = true ->
     Gui.makedirs (match Gui.out_var g with
                   | Some o => o
                   | None => Path.child home "separated"
                   end) (Desktop.fs (Gui.app g)) = inr f' ->
     Gui.start_separation home g =
       (inr (Some {| Gui.cmd :=
                       Desktop.command (match Gui.out_var g with
                                        | Some o => o
                                        | None => Path.child home "separated"
                                        end) audio;
                     Gui.out_root := match Gui.out_var g with
                                     | Some o => o
                                     | None => Path.child home "separated"
                                     end;
                     Gui.audio := audio |}),
        {| Gui.app :=
             {| Desktop.fs := f';
                Desktop.trace :=
                  Desktop.trace (Gui.app g)
                  ++ [ELog ("$ "
                            ++ Str.join " "
                                 (map Gui.shlex_quote
                                    (Desktop.command
                                       (match Gui.out_var g with
                                        | Some o => o
                                        | None => Path.child home "separated"
                                        end) audio))
                            ++ Str.nl);
                      EButton false];
                Desktop.result_dir := Desktop.result_dir (Gui.app g) |};
           Gui.inp_var := Gui.inp_var g; Gui.out_var := Gui.out_var g;
           Gui.actions := Gui.actions g |})
     /\ FS.isdir (match Gui.out_var g with
                  | Some o => o
                  | None => Path.child home "separated"
                  end) f' = true)
  /\
  (forall (home : path) (g : Gui.gui) (audio : path) (e : exn),
     Gui.inp_var g = Some audio ->
     Gui.exists_ audio (Desktop.fs (Gui.app g)) = true ->
     Gui.makedirs (match Gui.out_var g with
                   | Some o => o
                   | None => Path.child home "separated"
                   end) (Desktop.fs (Gui.app g)) = inl e ->
     Gui.start_separation home g = (inl e, g)).
Proof.
  split; [|split].
  - intros home [a i o acts] [H|[p [H Hp]]]; cbn in H; subst i;
      unfold Gui.start_separation; cbn [Gui.inp_var Gui.app];
      [|cbn [Gui.app] in Hp; rewrite Hp]; reflexivity.
  - intros home [a i o acts] audio f' Hin Hex Hroot Hmk. cbn in Hin. subst i.
    cbn [Gui.app Gui.out_var] in *. split.
    + unfold Gui.start_separation. cbn [Gui.inp_var Gui.app Gui.out_var].
      rewrite Hex. unfold bind at 1, Gui.update. cbn [Gui.app]. rewrite Hmk.
      unfold bind, Gui.lift, Desktop.append_log, Desktop.run_btn, Desktop.emit, ret.
      cbn [Gui.app Gui.inp_var Gui.out_var Gui.actions
           Desktop.fs Desktop.trace Desktop.result_dir].
      now rewrite <- app_assoc.
    + apply (makedirs_from_isdir _ [] _ _ Hmk Hroot).
  - intros home [a i o acts] audio e Hin Hex Hmk. cbn in Hin. subst i.
    cbn [Gui.app Gui.out_var] in *.
    unfold Gui.start_separation. cbn [Gui.inp_var Gui.app Gui.out_var].
    rewrite Hex. unfold bind at 1, Gui.update. cbn [Gui.app]. now rewrite Hmk.
Qed.

(** What [open_output] does on a window whose [result_dir] is [d], an
    existing directory, by cases on the system and on the host. *)
Lemma open_output_on_directory :
  forall (sys : Gui.system) (h : Gui.host) (g : Gui.gui) (d : path),
  Desktop.result_dir (Gui.app g) = Some d ->
  FS.isdir d (Desktop.fs (Gui.app g)) = true ->
  Gui.open_output sys h g =
    (inr tt,
     {| Gui.app :=
          {| Desktop.fs := Desktop.fs (Gui.app g);
             Desktop.trace :=
               Desktop.trace (Gui.app g) ++ [EIsDir d]
               ++ match h (match sys with
                           | Gui.Windows => Gui.Startfile d
                           | Gui.Darwin => Gui.Spawn ["open"; Path.str d]
                           | Gui.Other => Gui.Spawn ["xdg-open"; Path.str d]
                           end) with
                  | Some e => [EShowError "Open Folder"
                                 ("Could not open folder:" ++ Str.nl ++ exn_str e)]
                  | None => []
                  end;
             Desktop.result_dir := Desktop.result_dir (Gui.app g) |};
        Gui.inp_var := Gui.inp_var g; Gui.out_var := Gui.out_var g;
        Gui.actions :=
          Gui.actions g
          ++ [match sys with
              | Gui.Windows => Gui.Startfile d
              | Gui.Darwin => Gui.Spawn ["open"; Path.str d]
              | Gui.Other => Gui.Spawn ["xdg-open"; Path.str d]
              end] |}).
Proof.
  intros sys h [[f tr rd] i o acts] d Hrd Hd.
  cbn [Gui.app Desktop.result_dir Desktop.fs] in Hrd, Hd. subst rd.
  unfold Gui.open_output. cbn [Gui.app Desktop.result_dir].
  unfold Gui.lift, Desktop.isdir, Desktop.emit, Desktop.read, bind.
  cbn [Gui.app Gui.inp_var Gui.out_var Gui.actions
       Desktop.fs Desktop.trace Desktop.result_dir].
  rewrite Hd.
  unfold Gui.open_in_file_manager, try_except, Gui.ask, Gui.act, Gui.lift,
    Desktop.showerror, Desktop.emit, bind, ret, raise.
  destruct sys;
    cbn [Gui.app Gui.inp_var Gui.out_var Gui.actions
         Desktop.fs Desktop.trace Desktop.result_dir];
    match goal with |- context [h ?x] => destruct (h x) as [e|] end;
    cbn [Gui.app Gui.inp_var Gui.out_var Gui.actions
         Desktop.fs Desktop.trace Desktop.result_dir app];
    rewrite <- ?app_assoc, ?app_nil_r; reflexivity.
Qed.

Lemma open_output_without_directory :
  forall (sys : Gui.system) (h : Gui.host) (g : Gui.gui),
  (Desktop.result_dir (Gui.app g) = None
   \/ exists d, Desktop.result_dir (Gui.app g) = Some d
                /\ FS.isdir d (Desktop.fs (Gui.app g)) = false) ->
  fst (Gui.open_output sys h g) = inr tt
  /\ Gui.actions (snd (Gui.open_output sys h g)) =
       Gui.actions g ++ [Gui.ShowInfo "Output" "No output yet. Run a separation first."].
Proof.
  intros sys h [[f tr rd] i o acts] H.
  cbn [Gui.app Desktop.result_dir Desktop.fs] in H.
  unfold Gui.open_output. cbn [Gui.app Desktop.result_dir].
  destruct H as [->|[d [-> Hd]]].
  - split; reflexivity.
  - unfold Gui.lift, Desktop.isdir, Desktop.emit, Desktop.read, bind.
    cbn [Gui.app Gui.inp_var Gui.out_var Gui.actions
         Desktop.fs Desktop.trace Desktop.result_dir].
    rewrite Hd. split; reflexivity.
Qed.

(** X15. [open_output] never raises. On a window whose [result_dir] is an
    existing directory it asks the host once to open that directory, with
    [os.startfile] on Windows, [open] on Darwin and [xdg-open] elsewhere,
    and shows the error dialog "Open Folder", once, exactly when the host
    refuses, with a text that begins with "Could not open folder:".
    Without a [result_dir], or when it is no directory any more, it shows
    "No output yet. Run a separation first." and asks nothing else. *)
Theorem open_output_opens_the_result_directory :
  (forall (sys : Gui.system) (h : Gui.host) (g : Gui.gui),
     fst (Gui.open_output sys h g) = inr tt)
  /\
  (forall (sys : Gui.system) (h : Gui.host) (g : Gui.gui) (d : path),
     Desktop.result_dir (Gui.app g) = Some d ->
     FS.isdir d (Desktop.fs (Gui.app g)) = true ->
     Gui.actions (snd (Gui.open_output sys h g)) =
       Gui.actions g
       ++ [match sys with
           | Gui.Windows => Gui.Startfile d
           | Gui.Darwin => Gui.Spawn ["open"; Path.str d]
           | Gui.Other => Gui.Spawn ["xdg-open"; Path.str d]
           end]
     /\ match h (match sys with
                 | Gui.Windows => Gui.Startfile d
                 | Gui.Darwin => Gui.Spawn ["open"; Path.str d]
                 | Gui.Other => Gui.Spawn ["xdg-open"; Path.str d]
                 end) with
        | Some _ =>
            exists text : string,
              Desktop.trace (Gui.app (snd (Gui.open_output sys h g))) =
                Desktop.trace (Gui.app g)
                ++ [EIsDir d;
                    EShowError "Open Folder"
                      ("Could not open folder:" ++ Str.nl ++ text)]
        | None =>
            Desktop.trace (Gui.app (snd (Gui.open_output sys h g))) =
              Desktop.trace (Gui.app g) ++ [EIsDir d]
        end)
  /\
  (forall (sys : Gui.system) (h : Gui.host) (g : Gui.gui),
     (Desktop.result_dir (Gui.app g) = None
      \/ exists d, Desktop.result_dir (Gui.app g) = Some d
                   /\ FS.isdir d (Desktop.fs (Gui.app g)) = false) ->
     Gui.actions (snd (Gui.open_output sys h g)) =
       Gui.actions g ++ [Gui.ShowInfo "Output" "No output yet. Run a separation first."]).
Proof.
  split; [|split].
  - intros sys h g. destruct (Desktop.result_dir (Gui.app g)) as [d|] eqn:Hrd.
    + destruct (FS.isdir d (Desktop.fs (Gui.app g))) eqn:Hd.
      * now rewrite (open_output_on_directory sys h g d Hrd Hd).
      * apply open_output_without_directory. right. exists d. auto.
    + apply open_output_without_directory. now left.
  - intros sys h g d Hrd Hd.
    rewrite (open_output_on_directory sys h g d Hrd Hd). split; [reflexivity|].
    cbn [snd Gui.app Desktop.trace].
    destruct sys;
      match goal with |- context [h ?x] => destruct (h x) as [e|] end;
      try (exists (exn_str e)); reflexivity.
  - intros sys h g H. now apply open_output_without_directory.
Qed.

(** X16. "Open Output Folder" after a run. After a run that exited with 0 and
    left the expected directory, it opens that directory. After a run that
    exited with another status it opens the directory of the earlier run,
    when there was one and it is still there: the failed run has not
    touched [result_dir]. *)
Theorem open_output_after_a_run :
  (forall (sys : Gui.system) (h : Gui.host) (demucs : tool) (t : Gui.thread)
          (g : Gui.gui) (proc : ProcessResult) (f' : node),
     demucs (Gui.cmd t) (Desktop.fs (Gui.app g)) = (inr proc, f') ->
     returncode proc = 0%Z ->
     FS.isdir (Path.child (Path.child (Gui.out_root t) Desktop.MODEL)
                          (Path.stem (Gui.audio t))) f' = true ->
     Gui.actions (snd (Gui.open_output sys h (snd (Gui.run demucs t g)))) =
       Gui.actions g
       ++ [match sys with
           | Gui.Windows =>
               Gui.Startfile (Path.child (Path.child (Gui.out_root t) Desktop.MODEL)
                                         (Path.stem (Gui.audio t)))
           | Gui.Darwin =>
               Gui.Spawn ["open";
                          Path.str (Path.child (Path.child (Gui.out_root t) Desktop.MODEL)
                                               (Path.stem (Gui.audio t)))]
           | Gui.Other =>
               Gui.Spawn ["xdg-open";
                          Path.str (Path.child (Path.child (Gui.out_root t) Desktop.MODEL)
                                               (Path.stem (Gui.audio t)))]
           end])
  /\
  (forall (sys : Gui.system) (h : Gui.host) (demucs : tool) (t : Gui.thread)
          (g : Gui.gui) (proc : ProcessResult) (f' : node) (d : path),
     demucs (Gui.cmd t) (Desktop.fs (Gui.app g)) = (inr proc, f') ->
     returncode proc <> 0%Z ->
     Desktop.result_dir (Gui.app g) = Some d ->
     FS.isdir d f' = true ->
     Gui.actions (snd (Gui.open_output sys h (snd (Gui.run demucs t g)))) =
       Gui.actions g
       ++ [match sys with
           | Gui.Windows => Gui.Startfile d
           | Gui.Darwin => Gui.Spawn ["open"; Path.str d]
           | Gui.Other => Gui.Spawn ["xdg-open"; Path.str d]
           end]).
Proof.
  split.
  - intros sys h demucs t g proc f' Hrun Hcode Hd.
    pose proof (desktop_worker_fs demucs (Gui.cmd t) (Gui.out_root t) (Gui.audio t)
                  (Gui.app g) _ f' Hrun) as Hfs.
    pose proof (desktop_result_dir_zero demucs (Gui.cmd t) (Gui.out_root t)
                  (Gui.audio t) (Gui.app g) proc f' Hrun Hcode) as Hrd.
    rewrite Hd in Hrd. unfold Gui.run, Gui.lift.
    destruct (Desktop.worker demucs (Gui.cmd t) (Gui.out_root t) (Gui.audio t)
                (Gui.app g)) as [r a'].
    cbn [snd] in *.
    rewrite (open_output_on_directory sys h
               {| Gui.app := a'; Gui.inp_var := Gui.inp_var g;
                  Gui.out_var := Gui.out_var g; Gui.actions := Gui.actions g |}
               _ Hrd); [reflexivity|].
    cbn [Gui.app]. now rewrite Hfs.
  - intros sys h demucs t g proc f' d Hrun Hcode Hold Hd.
    pose proof (desktop_worker_fs demucs (Gui.cmd t) (Gui.out_root t) (Gui.audio t)
                  (Gui.app g) _ f' Hrun) as Hfs.
    pose proof (desktop_result_dir_nonzero demucs (Gui.cmd t) (Gui.out_root t)
                  (Gui.audio t) (Gui.app g) proc f' Hrun Hcode) as Hrd.
    rewrite Hold in Hrd. unfold Gui.run, Gui.lift.
    destruct (Desktop.worker demucs (Gui.cmd t) (Gui.out_root t) (Gui.audio t)
                (Gui.app g)) as [r a'].
    cbn [snd] in *.
    rewrite (open_output_on_directory sys h
               {| Gui.app := a'; Gui.inp_var := Gui.inp_var g;
                  Gui.out_var := Gui.out_var g; Gui.actions := Gui.actions g |}
               _ Hrd); [reflexivity|].
    cbn [Gui.app]. now rewrite Hfs.
Qed.

(* ------------------------------------------------------------------ *)
(** ** Further properties: what a web job writes *)
(* ------------------------------------------------------------------ *)

Section WebFrame.

(** The path [pre ++ b :: r] lies on another branch than the paths through
    [pre ++ [a]]. *)
Variables (pre : path) (a b : string) (r : path).
Hypothesis a_b : a <> b.

Lemma same_trans : forall w1 w2 w3 : Web.world,
  Frame.keeps (pre ++ b :: r) w1 w2 -> Frame.keeps (pre ++ b :: r) w2 w3 ->
  Frame.keeps (pre ++ b :: r) w1 w3.
Proof. unfold Frame.keeps. intros w1 w2 w3 H1 H2. now rewrite H2. Qed.

Lemma emit_same : forall e : event, steps (Frame.keeps (pre ++ b :: r)) (Web.emit e).
Proof. intros e w r0 w' H. injection H as _ <-. reflexivity. Qed.

Lemma read_same : forall (A : Type) (f : node -> A), steps (Frame.keeps (pre ++ b :: r)) (Web.read f).
Proof. intros A f w r0 w' H. injection H as _ <-. reflexivity. Qed.

Lemma mkdir_same : forall q : path, steps (Frame.keeps (pre ++ b :: r)) (Web.mkdir (pre ++ a :: q)).
Proof using a_b.
  intro q. unfold Web.mkdir.
  apply steps_bind; [exact same_trans | apply emit_same | intros _].
  intros w r0 w' H. unfold Web.update, FS.mkdir in H.
  destruct (FS.lookup (pre ++ a :: q) (Web.fs w)) as [[data|es]|].
  - injection H as _ <-. reflexivity.
  - injection H as _ <-. reflexivity.
  - destruct (FS.put (pre ++ a :: q) (Dir []) (Web.fs w)) as [f1|] eqn:Ep;
      injection H as _ <-; [|reflexivity].
    unfold Frame.keeps. cbn [Web.fs]. eapply lookup_put_diverge; eassumption.
Qed.

Lemma copy2_same : forall (src q : path), steps (Frame.keeps (pre ++ b :: r)) (Web.copy2 src (pre ++ a :: q)).
Proof using a_b.
  intros src q. unfold Web.copy2.
  apply steps_bind; [exact same_trans | apply emit_same | intros _].
  intros w r0 w' H. unfold Web.update in H.
  destruct (FS.copy2 src (pre ++ a :: q) (Web.fs w)) as [e|f1] eqn:Ec;
    injection H as _ <-; [reflexivity|].
  unfold Frame.keeps. cbn [Web.fs]. eapply copy2_frame_branch; eassumption.
Qed.

Lemma locate_same : forall (out_root : path) (base : string),
  steps (Frame.keeps (pre ++ b :: r)) (Web.locate out_root base).
Proof.
  intros out_root base w r0 w' H.
  destruct (web_locate_keeps_fs _ _ _ _ _ H) as [Hfs _]. unfold Frame.keeps. now rewrite Hfs.
Qed.

Lemma classify_same : forall model_dir : path, steps (Frame.keeps (pre ++ b :: r)) (Web.classify model_dir).
Proof.
  intros model_dir w r0 w' H. rewrite web_classify_run in H. cbv zeta in H.
  destruct (FS.listdir model_dir (Web.fs w)) as [e|names].
  - injection H as _ <-. reflexivity.
  - destruct (Web.pick model_dir names) as [[v|] [i|]]; injection H as _ <-; reflexivity.
Qed.

Lemma job_same :
  forall (R : path) (demucs : tool) (job_id : string) (input_path : path) (q : path),
  Path.child R job_id = pre ++ a :: q ->
  (forall (cmd : list string) (f : node),
     FS.lookup (pre ++ b :: r) (snd (demucs cmd f)) = FS.lookup (pre ++ b :: r) f) ->
  steps (Frame.keeps (pre ++ b :: r)) (Web.run_demucs_debug R demucs job_id input_path).
Proof using a_b.
  intros R demucs job_id input_path q HJ Htool.
  assert (Hraw : forall c, Path.child (Path.child R job_id) c = pre ++ a :: (q ++ [c])).
  { intro c. unfold Path.child in *. rewrite HJ, <- app_assoc. reflexivity. }
  unfold Web.run_demucs_debug.
  apply steps_bind; [exact same_trans | |].
  - unfold Web.launch. rewrite Hraw, HJ. unfold Web.print.
    repeat first
      [ apply steps_ret; reflexivity
      | apply mkdir_same
      | apply emit_same
      | apply steps_bind; [exact same_trans | | intro] ].
    intros w r0 w' H. specialize (Htool (Web.command (pre ++ a :: q ++ ["raw"]) input_path)
                                        (Web.fs w)).
    destruct (demucs _ (Web.fs w)) as [[e|p] f']; injection H as _ <-; exact Htool.
  - intro process. unfold Web.finish.
    destruct (negb (returncode process =? 0)%Z); [apply steps_raise; reflexivity|].
    apply steps_bind; [exact same_trans | apply locate_same | intro model_dir].
    apply steps_bind; [exact same_trans | apply emit_same | intros _].
    apply steps_bind; [exact same_trans | apply classify_same | intros [vocals inst]].
    unfold Web.publish, Web.print. rewrite !Hraw.
    repeat first
      [ apply steps_ret; reflexivity
      | apply copy2_same
      | apply emit_same
      | apply steps_bind; [exact same_trans | | intro] ].
Qed.

End WebFrame.

(** X17. A web job writes in its own folder only: whatever lies on a branch
    of the file system that does not lead to the job folder, such as the
    upload or the folder of another job, and is left alone by the tool,
    is the same after the job as before, however the job ends. *)
Theorem web_job_writes_in_its_folder_only :
  forall (R : path) (demucs : tool) (job_id : string) (input_path : path)
         (w : Web.world) (pre : path) (a b : string) (q r : path),
  Path.child R job_id = pre ++ a :: q ->
  a <> b ->
  (forall (cmd : list string) (f : node),
     FS.lookup (pre ++ b :: r) (snd (demucs cmd f)) = FS.lookup (pre ++ b :: r) f) ->
  FS.lookup (pre ++ b :: r)
            (Web.fs (snd (Web.run_demucs_debug R demucs job_id input_path w))) =
  FS.lookup (pre ++ b :: r) (Web.fs w).
Proof.
  intros R demucs job_id input_path w pre a b q r HJ Hab Htool.
  destruct (Web.run_demucs_debug R demucs job_id input_path w) as [r0 w'] eqn:E.
  exact (job_same pre a b r Hab R demucs job_id input_path q HJ Htool w r0 w' E).
Qed.

(* ------------------------------------------------------------------ *)
(** ** The further properties at sample jobs, requests and windows *)
(* ------------------------------------------------------------------ *)

(** The directory [song] written under [mdx]; the output root [/music/song]. *)
Lemma located_directory_witness :
  (Path.name (Examples.out_root ++ ["mdx"; "song"]) = "song"
   /\ Spec.below Examples.out_root (Examples.out_root ++ ["mdx"; "song"]))
  /\ (Path.name Examples.song_root = Path.stem Examples.audio
      /\ (Examples.song_root = Examples.song_root
          \/ Spec.below Examples.song_root Examples.song_root)).
Proof.
  split.
  - apply (proj1 located_directory_is_inside_the_root
             Examples.out_root "song"
             (Web.start (Examples.server_with Examples.moved))
             (snd (Web.locate Examples.out_root "song"
                     (Web.start (Examples.server_with Examples.moved))))).
    vm_compute. reflexivity.
  - apply (proj2 located_directory_is_inside_the_root
             Examples.song_root Desktop.MODEL Examples.audio
             (Desktop.start Examples.music)
             (snd (Desktop.locate_output_dir Examples.song_root Desktop.MODEL
                     Examples.audio (Desktop.start Examples.music)))).
    vm_compute. reflexivity.
Defined.

(** A desktop run on the usual output. *)
Lemma desktop_files_in_place_witness :
  Desktop.fs (snd (Desktop.worker (Examples.tool_exit 0)
                     (Desktop.command Examples.home_root Examples.audio)
                     Examples.home_root Examples.audio
                     (Desktop.start (Examples.home_with Examples.usual)))) =
  Examples.home_with Examples.usual.
Proof.
  apply (desktop_worker_leaves_files_in_place (Examples.tool_exit 0)
           (Desktop.command Examples.home_root Examples.audio)
           Examples.home_root Examples.audio
           (Desktop.start (Examples.home_with Examples.usual))
           (inr {| returncode := 0; stdout := [("demucs: done" ++ Str.nl)%string] |})).
  reflexivity.
Defined.

(** A run that ends with exit status 3: the message of the error is
    logged and shown, and nothing is raised. *)
Lemma desktop_exception_witness :
  Desktop.worker (Examples.tool_exit 3)
    (Desktop.command Examples.home_root Examples.audio)
    Examples.home_root Examples.audio
    (Desktop.start (Examples.home_with Examples.usual)) =
  (inr tt,
   {| Desktop.fs := Examples.home_with Examples.usual;
      Desktop.trace :=
        [ERun (Desktop.command Examples.home_root Examples.audio);
         ELog ("demucs: done" ++ Str.nl);
         ELog (Str.nl ++ "[ERROR] Demucs exited with code 3" ++ Str.nl);
         EShowError "Separation failed" "Demucs exited with code 3";
         EButton true];
      Desktop.result_dir := None |}).
Proof.
  pose proof (desktop_worker_reports_every_exception (Examples.tool_exit 3)
                (Desktop.command Examples.home_root Examples.audio)
                Examples.home_root Examples.audio
                (Desktop.start (Examples.home_with Examples.usual))) as H.
  vm_compute in H. destruct H as [[text [Hw Ht]] _].
  rewrite (Ht _ eq_refl) in Hw. vm_compute. exact Hw.
Defined.

(** [result_dir] after a run that could not start, and after a run on the
    usual output. *)
Lemma desktop_result_dir_witness :
  Desktop.result_dir
    (snd (Desktop.worker Samples.tool_missing
            (Desktop.command Examples.home_root Examples.audio)
            Examples.home_root Examples.audio
            (Gui.app (Samples.window_after (Examples.home_with Examples.usual)
                        Examples.song_root)))) = Some Examples.song_root
  /\ Desktop.result_dir
       (snd (Desktop.worker (Examples.tool_exit 0)
               (Desktop.command Examples.home_root Examples.audio)
               Examples.home_root Examples.audio
               (Desktop.start (Examples.home_with Examples.usual)))) =
     Some (Examples.home_root ++ ["htdemucs_ft"; "song"]).
Proof.
  split.
  - apply (proj1 desktop_result_dir_after_run Samples.tool_missing
             (Desktop.command Examples.home_root Examples.audio)
             Examples.home_root Examples.audio
             (Gui.app (Samples.window_after (Examples.home_with Examples.usual)
                         Examples.song_root))
             FileNotFoundError (Examples.home_with Examples.usual)).
    reflexivity.
  - rewrite (proj2 desktop_result_dir_after_run (Examples.tool_exit 0)
               (Desktop.command Examples.home_root Examples.audio)
               Examples.home_root Examples.audio
               (Desktop.start (Examples.home_with Examples.usual))
               {| returncode := 0; stdout := [("demucs: done" ++ Str.nl)%string] |}
               (Examples.home_with Examples.usual) eq_refl eq_refl).
    reflexivity.
Defined.

(** The log of a run that found [x_other.mp3] only, and of a run that
    found no directory. *)
Lemma desktop_log_witness :
  Desktop.trace
    (snd (Desktop.worker (Examples.tool_exit 0)
            (Desktop.command Examples.home_root Examples.audio)
            Examples.home_root Examples.audio
            (Desktop.start (Examples.home_with Examples.only_other)))) =
    [ERun (Desktop.command Examples.home_root Examples.audio);
     ELog ("demucs: done" ++ Str.nl);
     EIsDir (Examples.home_root ++ ["htdemucs_ft"; "song"]);
     EIsDir (Examples.home_root ++ ["htdemucs_ft"; "song"]);
     EListDir (Examples.home_root ++ ["htdemucs_ft"; "song"]);
     ELog (Str.nl ++ "=== Done ===" ++ Str.nl);
     ELog ("Instrumental: /home/separated/htdemucs_ft/song/x_other.mp3" ++ Str.nl);
     ELog ("Folder:       /home/separated/htdemucs_ft/song" ++ Str.nl);
     ELog (Str.nl ++ "Tip: Click 'Open Output Folder' to view your files." ++ Str.nl);
     EButton true]
  /\ Desktop.trace
       (snd (Desktop.worker (Examples.tool_exit 0)
               (Desktop.command Examples.home_root Examples.audio)
               Examples.home_root Examples.audio
               (Desktop.start (Examples.home_with Examples.no_song)))) =
     [ERun (Desktop.command Examples.home_root Examples.audio);
      ELog ("demucs: done" ++ Str.nl);
      EIsDir (Examples.home_root ++ ["htdemucs_ft"; "song"]);
      EWalk Examples.home_root;
      ELog (Str.nl ++ "Could not find output folder." ++ Str.nl);
      ELog (Str.nl ++ "Tip: Click 'Open Output Folder' to view your files." ++ Str.nl);
      EButton true].
Proof.
  split.
  - rewrite (proj1 desktop_log_after_zero_exit (Examples.tool_exit 0)
               (Desktop.command Examples.home_root Examples.audio)
               Examples.home_root Examples.audio
               (Desktop.start (Examples.home_with Examples.only_other))
               {| returncode := 0; stdout := [("demucs: done" ++ Str.nl)%string] |}
               (Examples.home_with Examples.only_other) ["x_other.mp3"]
               eq_refl eq_refl eq_refl).
    reflexivity.
  - rewrite (proj2 desktop_log_after_zero_exit (Examples.tool_exit 0)
               (Desktop.command Examples.home_root Examples.audio)
               Examples.home_root Examples.audio
               (Desktop.start (Examples.home_with Examples.no_song))
               {| returncode := 0; stdout := [("demucs: done" ++ Str.nl)%string] |}
               (Examples.home_with Examples.no_song)
               eq_refl eq_refl eq_refl eq_refl).
    reflexivity.
Defined.

(** Publishing the usual stems leaves the raw vocals and the upload alone. *)
Lemma publish_frame_witness :
  FS.lookup (Examples.job_dir ++ "raw" :: ["htdemucs_ft"; "song"; "vocals.mp3"])
            (Web.fs (snd (Web.publish Examples.job_dir "song"
                            Samples.vocals Samples.inst Samples.classified)))
    = Some (File "V")
  /\ FS.lookup (["srv"] ++ "uploads" :: ["song.mp3"])
               (Web.fs (snd (Web.publish (["srv"] ++ "results" :: ["5f0c"]) "song"
                               Samples.vocals Samples.inst Samples.classified)))
     = Some (File "audio").
Proof.
  destruct publish_touches_only_its_destinations as [_ [Hsib Hbranch]].
  split.
  - rewrite (Hsib Examples.job_dir "song" Samples.vocals Samples.inst
               Samples.classified "raw" ["htdemucs_ft"; "song"; "vocals.mp3"]).
    + reflexivity.
    + vm_compute. discriminate.
    + vm_compute. discriminate.
  - rewrite (Hbranch ["srv"] "results" "uploads" ["5f0c"] ["song.mp3"] "song"
               Samples.vocals Samples.inst Samples.classified).
    + reflexivity.
    + discriminate.
Defined.

(** Publishing the usual stems of [song]. *)
Lemma publish_installs_witness :
  fst (Web.publish Examples.job_dir "song" Samples.vocals Samples.inst
         Samples.classified) =
    inr (Examples.job_dir ++ ["song_vocals.mp3"],
         Examples.job_dir ++ ["song_instrumental.mp3"])
  /\ FS.lookup (Examples.job_dir ++ ["song_vocals.mp3"])
               (Web.fs (snd (Web.publish Examples.job_dir "song" Samples.vocals
                               Samples.inst Samples.classified))) = Some (File "V")
  /\ FS.lookup (Examples.job_dir ++ ["song_instrumental.mp3"])
               (Web.fs (snd (Web.publish Examples.job_dir "song" Samples.vocals
                               Samples.inst Samples.classified))) = Some (File "I").
Proof.
  assert (Hv : Spec.below (Path.child Examples.job_dir "raw") Samples.vocals)
    by (exists "htdemucs_ft", ["song"; "vocals.mp3"]; reflexivity).
  assert (Hi : Spec.below (Path.child Examples.job_dir "raw") Samples.inst)
    by (exists "htdemucs_ft", ["song"; "no_vocals.mp3"]; reflexivity).
  destruct (publish_installs_both_stems Examples.job_dir "song" Samples.vocals
              Samples.inst Samples.classified "V" "I" Hv Hi
              eq_refl eq_refl eq_refl eq_refl) as [H1 [H2 [H3 _]]].
  split; [exact H1 | split; [exact H2 | exact H3]].
Defined.

(** A job on the sample server. *)
Lemma web_tool_start_witness :
  exists f0,
    FS.isdir (Path.child Examples.RESULTS_DIR Examples.job_id) f0 = true
    /\ FS.isdir (Path.child (Path.child Examples.RESULTS_DIR Examples.job_id) "raw") f0
       = true
    /\ Examples.tool_writing Examples.usual 0
         (Web.command (Path.child (Path.child Examples.RESULTS_DIR Examples.job_id) "raw")
                      Examples.upload) f0
       = (inr {| returncode := 0; stdout := [("Separating track" ++ Str.nl)%string] |},
          Examples.server_with Examples.usual).
Proof.
  apply (web_tool_starts_with_output_root Examples.RESULTS_DIR
           (Examples.tool_writing Examples.usual 0) Examples.job_id Examples.upload
           (Web.start Examples.server)
           (snd (Web.launch Examples.RESULTS_DIR (Examples.tool_writing Examples.usual 0)
                   Examples.job_id Examples.upload (Web.start Examples.server)))).
  vm_compute. reflexivity.
Defined.

(** A job on a server whose results directory is gone. *)
Lemma web_job_without_results_witness :
  FS.lookup Examples.RESULTS_DIR Samples.no_results = None
  /\ exists e,
       Web.run_demucs_debug Examples.RESULTS_DIR (Examples.tool_exit 0)
         Examples.job_id Examples.upload (Web.start Samples.no_results) =
         (inl e, {| Web.fs := Samples.no_results;
                    Web.trace := [EMkdir (Path.child Examples.RESULTS_DIR
                                                     Examples.job_id)] |}).
Proof.
  split; [reflexivity|].
  apply (web_job_without_results_directory Examples.RESULTS_DIR (Examples.tool_exit 0)
           Examples.job_id Examples.upload (Web.start Samples.no_results)).
  reflexivity.
Defined.

(** The whole job on the usual output. *)
Lemma web_job_success_witness :
  fst (Web.run_demucs_debug Examples.RESULTS_DIR (Examples.tool_writing Examples.usual 0)
         Examples.job_id Examples.upload (Web.start Examples.server)) =
    inr (Examples.job_dir ++ ["song_vocals.mp3"],
         Examples.job_dir ++ ["song_instrumental.mp3"])
  /\ FS.lookup (Examples.job_dir ++ ["song_vocals.mp3"])
               (Web.fs (snd (Web.run_demucs_debug Examples.RESULTS_DIR
                               (Examples.tool_writing Examples.usual 0)
                               Examples.job_id Examples.upload
                               (Web.start Examples.server)))) = Some (File "V")
  /\ FS.lookup (Examples.job_dir ++ ["song_instrumental.mp3"])
               (Web.fs (snd (Web.run_demucs_debug Examples.RESULTS_DIR
                               (Examples.tool_writing Examples.usual 0)
                               Examples.job_id Examples.upload
                               (Web.start Examples.server)))) = Some (File "I").
Proof.
  apply (web_job_publishes_the_classified_stems
           Examples.RESULTS_DIR (Examples.tool_writing Examples.usual 0)
           Examples.job_id Examples.upload (Web.start Examples.server)
           (snd (Web.launch Examples.RESULTS_DIR (Examples.tool_writing Examples.usual 0)
                   Examples.job_id Examples.upload (Web.start Examples.server)))
           (snd (Web.locate Examples.out_root "song"
                   (snd (Web.launch Examples.RESULTS_DIR
                           (Examples.tool_writing Examples.usual 0)
                           Examples.job_id Examples.upload (Web.start Examples.server)))))
           {| returncode := 0; stdout := [("Separating track" ++ Str.nl)%string] |}
           (Examples.out_root ++ ["htdemucs_ft"; "song"])
           ["vocals.mp3"; "no_vocals.mp3"]
           Samples.vocals Samples.inst "V" "I").
  - vm_compute. reflexivity.
  - reflexivity.
  - vm_compute. reflexivity.
  - reflexivity.
  - reflexivity.
  - reflexivity.
  - reflexivity.
  - reflexivity.
  - reflexivity.
Defined.

(** The client file [My Song.final.mp3] received under [ab12]. *)
Lemma upload_witness :
  Samples.upload_path =
    Path.child Samples.UPLOAD_DIR
      (Samples.upload_id
       ++ Path.suffix (Route.parts (Route.filename Samples.client_file)))
  /\ Path.stem Samples.upload_path = "ab12"
  /\ Path.suffix Samples.upload_path = ".mp3"
  /\ FS.lookup Samples.upload_path
       (Web.fs (snd (Route.receive Samples.UPLOAD_DIR Samples.upload_id
                       Samples.client_file (Web.start Examples.server))))
     = Some (File "audio").
Proof.
  assert (Hne : Samples.upload_id <> "") by discriminate.
  destruct (upload_is_named_by_its_identifier Samples.UPLOAD_DIR Samples.upload_id
              Samples.client_file (Web.start Examples.server)
              (snd (Route.receive Samples.UPLOAD_DIR Samples.upload_id
                      Samples.client_file (Web.start Examples.server)))
              Samples.upload_path Hne eq_refl)
    as [H1 [H2 [H3 H4]]].
  - vm_compute. reflexivity.
  - split; [exact H1 | split; [exact H2 | split; [exact H3 | exact H4]]].
Defined.

(** Three requests: without a file, with a job that fails, with a job
    that succeeds. *)
Lemma separate_witness :
  Route.separate Samples.UPLOAD_DIR Examples.RESULTS_DIR (Examples.tool_exit 0)
    Samples.upload_id Examples.job_id None (Web.start Examples.server) =
    (Route.Redirect "No file uploaded.", Web.start Examples.server)
  /\ fst (Route.separate Samples.UPLOAD_DIR Examples.RESULTS_DIR
            (Examples.tool_writing Samples.usual_for_upload 2)
            Samples.upload_id Examples.job_id (Some Samples.client_file)
            (Web.start Examples.server)) =
     Route.Redirect "Demucs error (exit code 2). See above output."
  /\ exists vocals inst w2,
       Route.separate Samples.UPLOAD_DIR Examples.RESULTS_DIR
         (Examples.tool_writing Samples.usual_for_upload 0)
         Samples.upload_id Examples.job_id (Some Samples.client_file)
         (Web.start Examples.server) =
         (Route.Results
            [Examples.job_id;
             (Path.stem Samples.upload_path ++ "_vocals" ++ Path.suffix vocals)%string]
            [Examples.job_id;
             (Path.stem Samples.upload_path ++ "_instrumental"
              ++ Path.suffix inst)%string],
          w2).
Proof.
  destruct separate_answers_as_the_job_ends as [Hnone [Hfail Hok]].
  assert (Hname : Route.filename Samples.client_file <> "") by discriminate.
  split; [|split].
  - apply Hnone. now left.
  - destruct (Hfail Samples.UPLOAD_DIR Examples.RESULTS_DIR
                (Examples.tool_writing Samples.usual_for_upload 2)
                Samples.upload_id Examples.job_id Samples.client_file
                (Web.start Examples.server)
                (snd (Route.receive Samples.UPLOAD_DIR Samples.upload_id
                        Samples.client_file (Web.start Examples.server)))
                (snd (Web.run_demucs_debug Examples.RESULTS_DIR
                        (Examples.tool_writing Samples.usual_for_upload 2)
                        Examples.job_id Samples.upload_path
                        (snd (Route.receive Samples.UPLOAD_DIR Samples.upload_id
                                Samples.client_file (Web.start Examples.server)))))
                Samples.upload_path
                (RuntimeError "Demucs error (exit code 2). See above output.")
                Hname) as [text [Hs Ht]].
    + vm_compute. reflexivity.
    + vm_compute. reflexivity.
    + rewrite Hs. cbn [fst]. now rewrite (Ht _ eq_refl).
  - destruct (Hok Samples.UPLOAD_DIR Examples.RESULTS_DIR
                (Examples.tool_writing Samples.usual_for_upload 0)
                Samples.upload_id Examples.job_id Samples.client_file
                (Web.start Examples.server)
                (snd (Route.receive Samples.UPLOAD_DIR Samples.upload_id
                        Samples.client_file (Web.start Examples.server)))
                (snd (Web.run_demucs_debug Examples.RESULTS_DIR
                        (Examples.tool_writing Samples.usual_for_upload 0)
                        Examples.job_id Samples.upload_path
                        (snd (Route.receive Samples.UPLOAD_DIR Samples.upload_id
                                Samples.client_file (Web.start Examples.server)))))
                Samples.upload_path
                (Examples.job_dir ++ ["ab12_vocals.mp3"])
                (Examples.job_dir ++ ["ab12_instrumental.mp3"])
                Hname) as [v [i H]].
    + vm_compute. reflexivity.
    + vm_compute. reflexivity.
    + exists v, i. eexists. exact H.
Defined.

(** A window without input; a window ready to start; a window whose
    output root is taken by a file. *)
Lemma start_separation_witness :
  fst (Gui.start_separation ["home"] (Gui.start (Examples.home_with Examples.usual)))
    = inr None
  /\ (fst (Gui.start_separation ["home"]
             (Samples.window (Examples.home_with Examples.usual))) =
        inr (Some Samples.job)
      /\ FS.isdir Examples.home_root (Examples.home_with Examples.usual) = true)
  /\ Gui.start_separation ["home"] (Samples.window (Examples.home_with (File "x"))) =
       (inl FileExistsError, Samples.window (Examples.home_with (File "x"))).
Proof.
  destruct start_separation_checks_input_and_prepares_the_run as [Hno [Hyes Hfail]].
  split; [|split].
  - rewrite (Hno ["home"] (Gui.start (Examples.home_with Examples.usual)));
      [reflexivity | now left].
  - destruct (Hyes ["home"] (Samples.window (Examples.home_with Examples.usual))
                Examples.audio (Examples.home_with Examples.usual)
                eq_refl eq_refl eq_refl eq_refl) as [H1 H2].
    split; [rewrite H1; reflexivity | exact H2].
  - apply (Hfail ["home"] (Samples.window (Examples.home_with (File "x")))
             Examples.audio FileExistsError); reflexivity.
Defined.

(** "Open Output Folder" on a window that remembers a directory, and on a
    fresh window. *)
Lemma open_output_witness :
  fst (Gui.open_output Gui.Other Samples.unwilling
         (Gui.start (Examples.home_with Examples.usual))) = inr tt
  /\ Gui.actions
       (snd (Gui.open_output Gui.Other Samples.willing
               (Samples.window_after (Examples.home_with Examples.usual)
                  (Examples.home_root ++ ["htdemucs_ft"; "song"])))) =
     [Gui.Spawn ["xdg-open"; "/home/separated/htdemucs_ft/song"]]
  /\ Gui.actions
       (snd (Gui.open_output Gui.Other Samples.willing
               (Gui.start (Examples.home_with Examples.usual)))) =
     [Gui.ShowInfo "Output" "No output yet. Run a separation first."].
Proof.
  destruct open_output_opens_the_result_directory as [Hret [Hopen Hnone]].
  split; [apply Hret | split].
  - destruct (Hopen Gui.Other Samples.willing
                (Samples.window_after (Examples.home_with Examples.usual)
                   (Examples.home_root ++ ["htdemucs_ft"; "song"]))
                (Examples.home_root ++ ["htdemucs_ft"; "song"]) eq_refl eq_refl)
      as [H _].
    rewrite H. reflexivity.
  - rewrite (Hnone Gui.Other Samples.willing
               (Gui.start (Examples.home_with Examples.usual))); [reflexivity|].
    now left.
Defined.

(** "Open Output Folder" after a run that succeeded, and after a failed
    run on a window that remembers [/music/song]. *)
Lemma open_output_after_run_witness :
  Gui.actions
    (snd (Gui.open_output Gui.Darwin Samples.willing
            (snd (Gui.run (Examples.tool_exit 0) Samples.job
                    (Samples.window (Examples.home_with Examples.usual)))))) =
    [Gui.Spawn ["open"; "/home/separated/htdemucs_ft/song"]]
  /\ Gui.actions
       (snd (Gui.open_output Gui.Windows Samples.willing
               (snd (Gui.run (Examples.tool_exit 3) Samples.job
                       (Samples.window_after Examples.music Examples.song_root))))) =
     [Gui.Startfile Examples.song_root].
Proof.
  destruct open_output_after_a_run as [Hok Hstale].
  split.
  - rewrite (Hok Gui.Darwin Samples.willing (Examples.tool_exit 0) Samples.job
               (Samples.window (Examples.home_with Examples.usual))
               {| returncode := 0; stdout := [("demucs: done" ++ Str.nl)%string] |}
               (Examples.home_with Examples.usual) eq_refl eq_refl eq_refl).
    reflexivity.
  - rewrite (Hstale Gui.Windows Samples.willing (Examples.tool_exit 3) Samples.job
               (Samples.window_after Examples.music Examples.song_root)
               {| returncode := 3; stdout := [("demucs: done" ++ Str.nl)%string] |}
               Examples.music Examples.song_root eq_refl).
    + reflexivity.
    + discriminate.
    + reflexivity.
    + reflexivity.
Defined.

(** The upload [song.mp3] through a whole job. *)
Lemma web_job_frame_witness :
  FS.lookup (["srv"] ++ "uploads" :: ["song.mp3"])
            (Web.fs (snd (Web.run_demucs_debug Examples.RESULTS_DIR (Examples.tool_exit 0)
                            Examples.job_id Examples.upload
                            (Web.start (Examples.server_with Examples.usual))))) =
  Some (File "audio").
Proof.
  rewrite (web_job_writes_in_its_folder_only Examples.RESULTS_DIR (Examples.tool_exit 0)
             Examples.job_id Examples.upload
             (Web.start (Examples.server_with Examples.usual))
             ["srv"] "results" "uploads" ["5f0c"] ["song.mp3"]).
  - reflexivity.
  - reflexivity.
  - discriminate.
  - intros cmd f. reflexivity.
Defined.
